(** * Asynchronous geospatial job orchestration: a shallow embedding

    The controllers of the backend (building height, deforestation, mining,
    fire, generic segmentation) admit a request, create a
    [SegmentationResult] document, start an external Python process and
    settle the document when the process closes.  This development embeds
    the admission paths, the [close] callback of the building-height
    controller, the batch chunker, the alert evaluator and the polling
    endpoint, and proves or refutes the properties the specification
    states about them.

    Modelling conventions.
    - Geographic numbers (latitudes, longitudes, areas) are the real
      numbers that are doubles.  The arithmetic on them is a parameter:
      sum, difference, product, quotient and cosine as JavaScript
      rounds them.  Comparisons are exact.  [NaN] and infinite values
      are outside the model.
    - Numbers inside executor output and detections are rationals; the
      arithmetic the height callback does on them is a parameter.
    - [save] validates: the required fields, ranges and enumerations of
      the [SegmentationResult] and [Alert] schemas that the controllers
      can miss are checked, the validation of the detections and the
      summary a callback assigns is a parameter, and a refused document
      is not written.  [findOne] succeeds.
    - [Date.now()] and the random suffix of identifiers are inputs.
    - [JSON.parse] is a parameter. *)

From Stdlib Require Import Bool Arith ZArith QArith Reals Lra Lia.
From Stdlib Require Import List String Ascii DecimalString.
From Stdlib Require DecimalNat DecimalFacts Finite.
Import ListNotations.

Set Warnings "-register-all".

Close Scope Q_scope.
Close Scope R_scope.
Local Open Scope nat_scope.
Local Open Scope string_scope.

(* ------------------------------------------------------------------ *)
(** ** Exceptions *)

(** A JavaScript computation either returns a value or throws an error
    whose [message] is kept. *)
Inductive Exc (A : Type) : Type :=
| Ret (a : A)
| Throw (message : string).

Arguments Ret {A} a.
Arguments Throw {A} message.

Definition bind {A B : Type} (m : Exc A) (k : A -> Exc B) : Exc B :=
  match m with
  | Ret a => k a
  | Throw e => Throw e
  end.

Notation "x <- m ;; k" := (bind m (fun x => k))
  (at level 61, m at next level, right associativity).

Fixpoint mapM {A B : Type} (f : A -> Exc B) (l : list A) : Exc (list B) :=
  match l with
  | [] => Ret []
  | a :: l' => b <- f a ;; bs <- mapM f l' ;; Ret (b :: bs)
  end.

(* ------------------------------------------------------------------ *)
(** ** JavaScript values *)

Module Js.

(** The values a parsed JSON document and the expressions of the
    callbacks range over. *)
Inductive JsVal : Type :=
| JUndefined
| JNull
| JBool (b : bool)
| JNum (q : Q)
| JNaN
| JStr (s : string)
| JArr (items : list JsVal)
| JObj (fields : list (string * JsVal)).

(** ToBoolean. *)
Definition truthy (v : JsVal) : bool :=
  match v with
  | JUndefined | JNull | JNaN => false
  | JBool b => b
  | JNum q => negb (Qeq_bool q 0%Q)
  | JStr s => negb (String.eqb s "")
  | JArr _ | JObj _ => true
  end.

(** [a || b]. *)
Definition or (a b : JsVal) : JsVal := if truthy a then a else b.

Fixpoint lookup (k : string) (fields : list (string * JsVal)) : JsVal :=
  match fields with
  | [] => JUndefined
  | (k', v) :: rest => if String.eqb k k' then v else lookup k rest
  end.

Definition type_error (v : JsVal) (k : string) : string :=
  "Cannot read properties of "
    ++ (match v with JNull => "null" | _ => "undefined" end)
    ++ " (reading '" ++ k ++ "')".

(** [v.k]: reading a property of [null] or [undefined] throws a
    TypeError; primitives and arrays have none of the data properties
    the callbacks read. *)
Definition get (v : JsVal) (k : string) : Exc JsVal :=
  match v with
  | JUndefined | JNull => Throw (type_error v k)
  | JObj fields => Ret (lookup k fields)
  | _ => Ret JUndefined
  end.

(** [v?.k]. *)
Definition opt_get (v : JsVal) (k : string) : JsVal :=
  match v with
  | JObj fields => lookup k fields
  | _ => JUndefined
  end.

(** [v === "s"]. *)
Definition seq_str (v : JsVal) (s : string) : bool :=
  match v with
  | JStr s' => String.eqb s' s
  | _ => false
  end.

Definition is_undefined (v : JsVal) : bool :=
  match v with JUndefined => true | _ => false end.

Definition is_empty_array (v : JsVal) : bool :=
  match v with JArr [] => true | _ => false end.

End Js.

Import Js.

(* ------------------------------------------------------------------ *)
(** ** Arithmetic on numbers *)

Section Arithmetic.

(** The operations of JavaScript on finite numbers, which are the reals
    that are doubles: each yields the double the processor rounds to.
    A result that is not finite is outside the model. *)
Variables fl_add fl_sub fl_mul fl_div : R -> R -> R.

(** [Math.cos] and [Math.PI]. *)
Variable fl_cos : R -> R.
Variable fl_PI : R.

(* ------------------------------------------------------------------ *)
(** ** Bounds and areas *)

(** [coordinates.bounds]. *)
Record Bounds : Type := mkBounds {
  minLat : R;
  minLng : R;
  maxLat : R;
  maxLng : R
}.

Definition Rgtb (x y : R) : bool := if Rgt_dec x y then true else false.
Definition Rgeb (x y : R) : bool := if Rge_dec x y then true else false.
Definition Rnonzero (x : R) : bool :=
  if Req_dec_T x 0%R then false else true.

(** The inline estimate of the height, deforestation, mining and fire
    controllers:
    [(maxLat - minLat) * (maxLng - minLng) * 111 * 111]. *)
Definition areaSize (b : Bounds) : R :=
  fl_mul
    (fl_mul (fl_mul (fl_sub (maxLat b) (minLat b))
               (fl_sub (maxLng b) (minLng b)))
       111%R)
    111%R.

(** [calculateAreaSize] of the segmentation controller. *)
Definition calculateAreaSize (minLat minLng maxLat maxLng : R) : R :=
  let avgLat := fl_div (fl_add minLat maxLat) 2%R in
  let latDistance := fl_mul (fl_sub maxLat minLat) 111.32%R in
  let lngDistance :=
    fl_mul (fl_mul (fl_sub maxLng minLng) 111.32%R)
      (fl_cos (fl_div (fl_mul avgLat fl_PI) 180%R)) in
  fl_mul latDistance lngDistance.

(** The analysis kinds that admit a bounding box. *)
Inductive Kind : Type :=
| BuildingHeight
| Segmentation
| Mining
| Deforestation
| Fire.

(** The formula the specification gives for the area, in exact
    arithmetic: [dLat * 111.32 * dLng * 111.32 * cos(meanLatRad)]. *)
Definition spec_area (b : Bounds) : R :=
  ((maxLat b - minLat b) * 111.32 * (maxLng b - minLng b) * 111.32
   * cos (((minLat b + maxLat b) / 2) * PI / 180))%R.

Definition well_ordered (b : Bounds) : Prop :=
  (minLat b < maxLat b)%R /\ (minLng b < maxLng b)%R.



(* ------------------------------------------------------------------ *)
(** ** Job records *)

(** [status] of a [SegmentationResult]; the schema default is
    [completed]. *)
Inductive Status : Type :=
| processing
| completed
| failed
| queued.

Definition Status_eqb (a b : Status) : bool :=
  match a, b with
  | processing, processing | completed, completed
  | failed, failed | queued, queued => true
  | _, _ => false
  end.

Definition terminal (s : Status) : bool :=
  match s with
  | completed | failed => true
  | processing | queued => false
  end.

(** One entry of [coordinates.buildings]. *)
Record StoredBuilding : Type := mkStoredBuilding {
  sb_lat : R;
  sb_lng : R;
  sb_id : option string
}.

(** [metadata] of a [SegmentationResult].  Fields that only echo the
    request (resolution, detection and height parameters, time range) are
    left out: no callback reads them. *)
Record Metadata : Type := mkMetadata {
  md_analysisType : option string;
  md_areaSize : option R;
  md_processingStarted : option Z;
  md_processingCompleted : option Z;
  md_processingTime : option Z;
  md_statistics : JsVal;
  md_heightMap : JsVal;
  md_error : option string;
  md_batchId : option string;
  md_chunkIndex : option nat;
  md_totalBuildings : option nat;
  md_priority : option string;
  md_bounds : option (list R)
}.

(** A [SegmentationResult] document: the Job Record.  Values are kept
    as the controllers assign them: the casts and defaults Mongoose
    applies to them are not modelled. *)
Record SegmentationResult : Type := mkSegmentationResult {
  userId : option string;
  processingId : option string;
  modelUsed : string;
  inputType : string;
  confidence : option Q;
  coord_bounds : option Bounds;
  coord_center : option (R * R);
  coord_buildings : list StoredBuilding;
  status : Status;
  detections : JsVal;
  summary : JsVal;
  metadata : Metadata;
  createdAt : Z
}.

Definition set_status (s : Status) (r : SegmentationResult) :=
  mkSegmentationResult (userId r) (processingId r) (modelUsed r)
    (inputType r) (confidence r) (coord_bounds r) (coord_center r)
    (coord_buildings r)
    s (detections r) (summary r) (metadata r) (createdAt r).

Definition set_detections (d : JsVal) (r : SegmentationResult) :=
  mkSegmentationResult (userId r) (processingId r) (modelUsed r)
    (inputType r) (confidence r) (coord_bounds r) (coord_center r)
    (coord_buildings r)
    (status r) d (summary r) (metadata r) (createdAt r).

Definition set_summary (s : JsVal) (r : SegmentationResult) :=
  mkSegmentationResult (userId r) (processingId r) (modelUsed r)
    (inputType r) (confidence r) (coord_bounds r) (coord_center r)
    (coord_buildings r)
    (status r) (detections r) s (metadata r) (createdAt r).

Definition set_metadata (m : Metadata) (r : SegmentationResult) :=
  mkSegmentationResult (userId r) (processingId r) (modelUsed r)
    (inputType r) (confidence r) (coord_bounds r) (coord_center r)
    (coord_buildings r)
    (status r) (detections r) (summary r) m (createdAt r).

Definition md_set_error (e : string) (m : Metadata) :=
  mkMetadata (md_analysisType m) (md_areaSize m) (md_processingStarted m)
    (md_processingCompleted m) (md_processingTime m) (md_statistics m)
    (md_heightMap m) (Some e) (md_batchId m) (md_chunkIndex m)
    (md_totalBuildings m) (md_priority m) (md_bounds m).

Definition md_set_completed (now : Z) (created : Z) (m : Metadata) :=
  mkMetadata (md_analysisType m) (md_areaSize m) (md_processingStarted m)
    (Some now) (Some (now - created)%Z) (md_statistics m)
    (md_heightMap m) (md_error m) (md_batchId m) (md_chunkIndex m)
    (md_totalBuildings m) (md_priority m) (md_bounds m).

Definition md_set_height_extras (stats hmap : JsVal) (m : Metadata) :=
  mkMetadata (md_analysisType m) (md_areaSize m) (md_processingStarted m)
    (md_processingCompleted m) (md_processingTime m) stats hmap
    (md_error m) (md_batchId m) (md_chunkIndex m)
    (md_totalBuildings m) (md_priority m) (md_bounds m).

(** Metadata of a freshly admitted bounding-box job. *)
Definition new_metadata (analysisType : string) (area : R) (now : Z) :=
  mkMetadata (Some analysisType) (Some area) (Some now) None None
    JUndefined JUndefined None None None None None None.

(** ** The Job Record Store *)

Definition Store : Type := list SegmentationResult.

Definition has_id (id : string) (r : SegmentationResult) : bool :=
  match processingId r with
  | Some id' => String.eqb id' id
  | None => false
  end.

(** [SegmentationResult.findOne({ processingId })]. *)
Fixpoint findOne (id : string) (s : Store) : option SegmentationResult :=
  match s with
  | [] => None
  | r :: s' => if has_id id r then Some r else findOne id s'
  end.

(** [save()] of a new document. *)
Definition insert (r : SegmentationResult) (s : Store) : Store :=
  (s ++ [r])%list.

(** [save()] of a document that is already stored: it replaces the
    stored version of the same document. *)
Fixpoint update (r : SegmentationResult) (s : Store) : Store :=
  match s with
  | [] => []
  | r' :: s' =>
      if match processingId r with
         | Some id => has_id id r'
         | None => false
         end
      then r :: s'
      else r' :: update r s'
  end.

(** ** The schema of the store

    What [save()] checks of a document before it is written, for the
    fields the controllers leave to chance: [userId], [processingId] and
    [confidence] are required, [confidence] lies between 0 and 100, and
    [inputType] is one of four values (segmentationResultSchema).  The
    other required fields, [zoneName] and [modelUsed], are set by every
    controller, and a [userId] that is present is taken to cast to an
    ObjectId: the height and batch routes let no other through. *)
Definition inputTypes : list string :=
  ["image_upload"; "geographic_bounds"; "building_coordinates";
   "coordinate_analysis"].

Definition schema_accepts (r : SegmentationResult) : bool :=
  match userId r with Some _ => true | None => false end
  && match processingId r with
     | Some id => negb (String.eqb id "")
     | None => false
     end
  && match confidence r with
     | Some c => Qle_bool 0 c && Qle_bool c 100
     | None => false
     end
  && existsb (String.eqb (inputType r)) inputTypes.

(** [save()] of a new document that carries neither detections nor a
    summary: it is written, or a ValidationError is thrown. *)
Definition save_new (r : SegmentationResult) (s : Store) : Exc Store :=
  if schema_accepts r then Ret (insert r s)
  else Throw "SegmentationResult validation failed".

(** The record carries a result: a summary or a non-empty detection
    list. *)
Definition result_populated (r : SegmentationResult) : bool :=
  negb (is_undefined (summary r)) || negb (is_empty_array (detections r)).

Definition error_populated (r : SegmentationResult) : bool :=
  match md_error (metadata r) with Some _ => true | None => false end.

(** ** External process outcome *)

(** What the [close] callback sees: the exit code ([None] when the
    process was ended by a signal) and the text collected from standard
    output and standard error. *)
Record ProcessExit : Type := mkProcessExit {
  code : option Z;
  pythonOutput : string;
  pythonError : string
}.

Definition code_is_zero (c : option Z) : bool :=
  match c with Some z => Z.eqb z 0 | None => false end.

Definition nonempty (s : string) : bool := negb (String.eqb s "").

(** Template-literal rendering of an exit code. *)
Definition show_code (c : option Z) : string :=
  match c with
  | Some z => NilZero.string_of_int (Z.to_int z)
  | None => "null"
  end.

(** HTTP replies of the controllers, reduced to status and the payload
    fields the claims mention. *)
Inductive Response : Type :=
| Bad400 (error : string)
| NotFound404 (error : string)
| Error500 (error : string)
| Accepted202 (processingId : string) (status : string)
| BatchAccepted202 (batchId : string) (totalBuildings chunks : nat)
    (results : list (string * nat * string))
| Poll200 (processingId : string) (status : Status)
    (summary buildings : JsVal) (metadata : Metadata) (createdAt : Z)
| Segment200 (alertsCreated : nat).

(* ------------------------------------------------------------------ *)
(** ** Admission *)

Definition ANONYMOUS_USER_ID : string := "000000000000000000000000".

Definition show_Z (z : Z) : string := NilZero.string_of_int (Z.to_int z).
Definition show_nat (n : nat) : string := NilZero.string_of_uint (Nat.to_uint n).

(** A non-empty string is truthy. *)
Definition given (s : option string) : bool :=
  match s with Some x => nonempty x | None => false end.

(** [req.body.coordinates] of the height endpoint: a [bounds] object, or
    a point with an optional radius in metres. *)
Record Coordinates : Type := mkCoordinates {
  c_bounds : option Bounds;
  c_lat : option R;
  c_lng : option R;
  c_radius : option R
}.

Record HeightRequest : Type := mkHeightRequest {
  hr_coordinates : option Coordinates;
  hr_userId : option string
}.

(** Truthiness of an optional number: present and not zero. *)
Definition num_given (x : option R) : bool :=
  match x with Some v => Rnonzero v | None => false end.

(** The bounds the height controller works with. *)
Definition height_bounds (coordinates : Coordinates) : option Bounds :=
  match c_bounds coordinates with
  | Some b => Some b
  | None =>
      match c_lat coordinates, c_lng coordinates with
      | Some lat, Some lng =>
          if Rnonzero lat && Rnonzero lng then
            let radius :=
              if num_given (c_radius coordinates)
              then match c_radius coordinates with
                   | Some r => r
                   | None => 1000%R
                   end
              else 1000%R in
            let radiusInDegrees := fl_div radius 111000%R in
            Some (mkBounds (fl_sub lat radiusInDegrees)
                           (fl_sub lng radiusInDegrees)
                           (fl_add lat radiusInDegrees)
                           (fl_add lng radiusInDegrees))
          else None
      | _, _ => None
      end
  end.

Definition center_of (b : Bounds) : R * R :=
  (fl_div (fl_add (minLat b) (maxLat b)) 2%R,
   fl_div (fl_add (minLng b) (maxLng b)) 2%R).

(** [estimateBuildingHeights], up to the immediate reply.  [now] is
    [Date.now()] and [rnd] the random suffix.  The process is started
    exactly when the reply is 202.  The document carries
    [confidence: 85]. *)
Definition estimateBuildingHeights (req : HeightRequest) (now : Z)
    (rnd : string) (s : Store) : Store * Response :=
  match hr_coordinates req with
  | None => (s, Bad400 "Coordinates are required")
  | Some coordinates =>
      match height_bounds coordinates with
      | None =>
          (s, Bad400 "Invalid coordinates format. Provide either 'bounds' object or 'lat'/'lng' with optional 'radius'")
      | Some bounds =>
          let areaSize := areaSize bounds in
          if Rgtb areaSize 100%R then
            (s, Bad400 "Area too large for height analysis. Maximum 100 km²")
          else
            let processingId := "height_" ++ show_Z now ++ "_" ++ rnd in
            let segmentationResult :=
              mkSegmentationResult
                (Some (if given (hr_userId req)
                       then match hr_userId req with
                            | Some u => u
                            | None => ANONYMOUS_USER_ID
                            end
                       else ANONYMOUS_USER_ID))
                (Some processingId)
                "building_height_estimation_v1"
                "geographic_bounds"
                (Some 85%Q)
                (Some bounds) (Some (center_of bounds)) []
                processing
                (JArr []) JUndefined
                (new_metadata "building_height" areaSize now)
                now in
            match save_new segmentationResult s with
            | Ret s' => (s', Accepted202 processingId "processing")
            | Throw _ => (s, Error500 "Failed to start height estimation")
            end
      end
  end.

(** Body of the deforestation, mining and fire endpoints. *)
Record BoundsRequest : Type := mkBoundsRequest {
  br_bounds : option Bounds;
  br_userId : option string
}.

Definition anonymous_or (u : option string) : string :=
  if given u then match u with Some x => x | None => "anonymous" end
  else "anonymous".

(** [analyzeDeforestation], up to the immediate reply.  The document
    is built without [confidence]; the process is started after [save],
    when the reply is 202. *)
Definition analyzeDeforestation (req : BoundsRequest) (now : Z)
    (rnd : string) (s : Store) : Store * Response :=
  match br_bounds req with
  | None => (s, Bad400 "Geographic bounds are required")
  | Some b =>
      if Rgeb (minLat b) (maxLat b) || Rgeb (minLng b) (maxLng b) then
        (s, Bad400 "Invalid coordinate bounds")
      else
        let areaSize := areaSize b in
        if Rgtb areaSize 10000%R then
          (s, Bad400 "Area too large. Maximum 10,000 km²")
        else
          let processingId :=
            "deforestation_" ++ show_Z now ++ "_" ++ rnd in
          let segmentationResult :=
            mkSegmentationResult
              (Some (anonymous_or (br_userId req)))
              (Some processingId)
              "deforestation_detection_v2"
              "geographic_bounds"
              None
              (Some b) (Some (center_of b)) []
              processing
              (JArr []) JUndefined
              (new_metadata "deforestation" areaSize now)
              now in
          match save_new segmentationResult s with
          | Ret s' => (s', Accepted202 processingId "processing")
          | Throw _ => (s, Error500 "Failed to start deforestation analysis")
          end
  end.

(** [detectMiningActivities], up to the immediate reply; as in
    [analyzeDeforestation] the document has no [confidence]. *)
Definition detectMiningActivities (req : BoundsRequest) (now : Z)
    (rnd : string) (s : Store) : Store * Response :=
  match br_bounds req with
  | None => (s, Bad400 "Geographic bounds are required")
  | Some b =>
      if Rgeb (minLat b) (maxLat b) || Rgeb (minLng b) (maxLng b) then
        (s, Bad400 "Invalid coordinate bounds")
      else
        let areaSize := areaSize b in
        if Rgtb areaSize 5000%R then
          (s, Bad400 "Area too large. Maximum 5,000 km²")
        else
          let processingId := "mining_" ++ show_Z now ++ "_" ++ rnd in
          let segmentationResult :=
            mkSegmentationResult
              (Some (anonymous_or (br_userId req)))
              (Some processingId)
              "mining_detection_v3"
              "geographic_bounds"
              None
              (Some b) (Some (center_of b)) []
              processing
              (JArr []) JUndefined
              (new_metadata "mining_detection" areaSize now)
              now in
          match save_new segmentationResult s with
          | Ret s' => (s', Accepted202 processingId "processing")
          | Throw _ => (s, Error500 "Failed to start mining detection")
          end
  end.

(** [detectForestFires], up to the immediate reply; as in
    [analyzeDeforestation] the document has no [confidence]. *)
Definition detectForestFires (req : BoundsRequest) (now : Z)
    (rnd : string) (s : Store) : Store * Response :=
  match br_bounds req with
  | None => (s, Bad400 "Geographic bounds are required")
  | Some b =>
      if Rgeb (minLat b) (maxLat b) || Rgeb (minLng b) (maxLng b) then
        (s, Bad400 "Invalid coordinate bounds")
      else
        let areaSize := areaSize b in
        if Rgtb areaSize 50000%R then
          (s, Bad400 "Area too large. Maximum 50,000 km²")
        else
          let processingId := "fire_" ++ show_Z now ++ "_" ++ rnd in
          let segmentationResult :=
            mkSegmentationResult
              (Some (anonymous_or (br_userId req)))
              (Some processingId)
              "fire_detection_v4"
              "geographic_bounds"
              None
              (Some b) (Some (center_of b)) []
              processing
              (JArr []) JUndefined
              (new_metadata "fire_detection" areaSize now)
              now in
          match save_new segmentationResult s with
          | Ret s' => (s', Accepted202 processingId "processing")
          | Throw _ => (s, Error500 "Failed to start fire detection")
          end
  end.

(* ------------------------------------------------------------------ *)
(** ** Batch chunker *)

(** One element of [req.body.buildings]. *)
Record Building : Type := mkBuilding {
  b_lat : R;
  b_lng : R;
  b_id : option string
}.

Record BatchRequest : Type := mkBatchRequest {
  bq_buildings : option (list Building);
  bq_userId : option string;
  bq_priority : option string
}.

(** [Array.prototype.slice(i, j)] for [0 <= i <= j]. *)
Definition slice {A : Type} (i j : nat) (l : list A) : list A :=
  firstn (j - i) (skipn i l).

Definition chunkSize : nat := 50.

Definition stored_building (b : Building) : StoredBuilding :=
  mkStoredBuilding (b_lat b) (b_lng b) (b_id b).

(** The document the loop body creates for the chunk that starts at
    index [i]; it carries [confidence: 80]. *)
Definition chunk_record (batchId : string) (userId : option string)
    (priority : string) (now : Z) (i : nat) (chunk : list Building)
    : SegmentationResult :=
  mkSegmentationResult
    (Some (if given userId
           then match userId with
                | Some u => u
                | None => ANONYMOUS_USER_ID
                end
           else ANONYMOUS_USER_ID))
    (Some (batchId ++ "_chunk_" ++ show_nat (i / chunkSize)))
    "batch_height_estimation_v1"
    "building_coordinates"
    (Some 80%Q)
    None None (map stored_building chunk)
    processing
    (JArr []) JUndefined
    (mkMetadata (Some "batch_building_height") None (Some now) None None
       JUndefined JUndefined None
       (Some batchId) (Some (i / chunkSize)) (Some (List.length chunk))
       (Some priority) None)
    now.

(** The loop [for (let i = 0; i < buildings.length; i += chunkSize)];
    [fuel] bounds the number of iterations.  The chunk documents satisfy
    the schema, so that each [save] writes its document. *)
Fixpoint batch_loop (fuel i : nat) (buildings : list Building)
    (batchId : string) (userId : option string) (priority : string)
    (now : Z) (s : Store) (results : list (string * nat * string))
    : Store * list (string * nat * string) :=
  match fuel with
  | O => (s, results)
  | S fuel' =>
      if Nat.ltb i (List.length buildings) then
        let chunk := slice i (i + chunkSize) buildings in
        let processingId :=
          batchId ++ "_chunk_" ++ show_nat (i / chunkSize) in
        batch_loop fuel' (i + chunkSize) buildings batchId userId priority
          now
          (insert (chunk_record batchId userId priority now i chunk) s)
          (results ++ [(processingId, List.length chunk, "queued")])%list
      else (s, results)
  end.

(** [batchHeightEstimation], up to the immediate reply. *)
Definition batchHeightEstimation (req : BatchRequest) (now : Z)
    (rnd : string) (s : Store) : Store * Response :=
  match bq_buildings req with
  | None => (s, Bad400 "Buildings array is required")
  | Some buildings =>
      if Nat.eqb (List.length buildings) 0 then
        (s, Bad400 "Buildings array is required")
      else if Nat.ltb 1000 (List.length buildings) then
        (s, Bad400 "Maximum 1000 buildings per batch")
      else
        let batchId := "batch_height_" ++ show_Z now ++ "_" ++ rnd in
        let priority :=
          match bq_priority req with Some p => p | None => "normal" end in
        let '(s', results) :=
          batch_loop (List.length buildings) 0 buildings batchId
            (bq_userId req) priority now s [] in
        (s', BatchAccepted202 batchId (List.length buildings) (List.length results)
               results)
  end.

(** The record of the chunk of index [j], as the loop body builds it at
    [i = 50 * j], and its entry in the reply. *)
Definition chunk_at (batchId : string) (userId : option string)
    (priority : string) (now : Z) (bs : list Building) (j : nat)
    : SegmentationResult :=
  chunk_record batchId userId priority now (50 * j)
    (slice (50 * j) (50 * j + chunkSize) bs).

Definition entry_at (batchId : string) (bs : list Building) (j : nat)
    : string * nat * string :=
  (batchId ++ "_chunk_" ++ show_nat j,
   List.length (slice (50 * j) (50 * j + chunkSize) bs), "queued").

(** The chunk documents a batch added to the store. *)
Definition created_by (before after : Store) : list SegmentationResult :=
  skipn (List.length before) after.

(* ------------------------------------------------------------------ *)
(** ** Polling *)

(** [result.summary]: a nested path of the schema is never [undefined];
    while nothing was assigned to it, it reads as the empty object. *)
Definition read_summary (r : SegmentationResult) : JsVal :=
  match summary r with
  | JUndefined => JObj []
  | v => v
  end.

(** [getHeightResults]. *)
Definition getHeightResults (id : string) (s : Store) : Response :=
  match findOne id s with
  | None => NotFound404 "Height analysis result not found"
  | Some result =>
      Poll200 id (status result) (read_summary result)
        (detections result) (metadata result) (createdAt result)
  end.

(* ------------------------------------------------------------------ *)
(** ** Detections and alerts *)

(** A detection as [detectionSchema] types it. *)
Record Detection : Type := mkDetection {
  d_class : string;
  d_confidence : Q;
  d_bbox : list Q;
  d_center : option (Q * Q);
  d_area : option Q;
  d_severity : option string
}.

(** A detection as the satellite process prints it and the alert
    evaluator reads it: any field may be missing. *)
Record RawDetection : Type := mkRawDetection {
  rd_class : option string;
  rd_confidence : option Q;
  rd_bbox : option (list Q);
  rd_center : option (list Q);
  rd_area : option Q;
  rd_severity : option string
}.

Record Alert : Type := mkAlert {
  a_userId : option string;
  a_zoneId : option string;
  a_alertType : string;
  a_severity : string;
  a_title : string;
  a_message : string;
  a_latitude : option Q;
  a_longitude : option Q;
  a_affectedArea : Q;
  a_confidence : option Q;
  a_additionalInfo : RawDetection
}.

(** [s.replace("_", " ")]: the first underscore only. *)
Fixpoint replace_underscore (s : string) : string :=
  match s with
  | EmptyString => EmptyString
  | String c rest =>
      if Ascii.eqb c "_" then String " " rest
      else String c (replace_underscore rest)
  end.

Definition upper (c : ascii) : ascii :=
  let n := nat_of_ascii c in
  if Nat.leb 97 n && Nat.leb n 122 then ascii_of_nat (n - 32) else c.

Fixpoint toUpperCase (s : string) : string :=
  match s with
  | EmptyString => EmptyString
  | String c rest => String (upper c) (toUpperCase rest)
  end.

Definition show_opt (s : option string) : string :=
  match s with Some x => x | None => "undefined" end.

(** [s.length] of the JavaScript string that the UTF-8 text [s] stands
    for: one unit per character, two outside the basic plane. *)
Fixpoint js_length (s : string) : nat :=
  match s with
  | EmptyString => 0
  | String c rest =>
      let n := nat_of_ascii c in
      (if Nat.ltb n 128 then 1
       else if Nat.ltb n 192 then 0
       else if Nat.ltb n 240 then 1
       else 2) + js_length rest
  end.

Definition opt_js {A : Type} (f : A -> JsVal) (x : option A) : JsVal :=
  match x with Some v => f v | None => JUndefined end.

Definition raw_to_js (d : RawDetection) : JsVal :=
  JObj [("class", opt_js JStr (rd_class d));
        ("confidence", opt_js JNum (rd_confidence d));
        ("bbox", opt_js (fun b => JArr (map JNum b)) (rd_bbox d));
        ("center", opt_js (fun c => JArr (map JNum c)) (rd_center d));
        ("area", opt_js JNum (rd_area d));
        ("severity", opt_js JStr (rd_severity d))].

(** Output of [process_satellite_area.py] once parsed. *)
Record SatelliteResult : Type := mkSatelliteResult {
  sr_detections : list RawDetection;
  sr_confidence : Q;
  sr_processingTime : Z
}.

Record AreaRequest : Type := mkAreaRequest {
  ar_bounds : option (list R);
  ar_userId : option string;
  ar_zoneName : option string;
  ar_alertThreshold : option Q
}.

(** How the child process ended: a [close] event, or an [error] event
    when it could not be started. *)
Inductive ProcessEnd : Type :=
| Closed (e : ProcessExit)
| SpawnError (message : string).

(** The enumerations of the [Alert] schema. *)
Definition alertTypes : list string :=
  ["deforestation"; "mining"; "forest_fire"; "agriculture";
   "urban_expansion"; "water_body"; "infrastructure"; "system"].

Definition severities : list string := ["low"; "medium"; "high"; "critical"].

Definition within (lo hi : Q) (x : option Q) : bool :=
  match x with
  | Some v => Qle_bool lo v && Qle_bool v hi
  | None => true
  end.

(* ------------------------------------------------------------------ *)
(** ** A sample runtime

    Concrete stand-ins for the runtime parameters, used to evaluate the
    callbacks on explicit inputs. *)

Definition quoted (s : string) : string :=
  String (ascii_of_nat 34) s ++ String (ascii_of_nat 34) EmptyString.

(** The output of a height process that found one building. *)
Definition one_building_output : string :=
  "{" ++ quoted "buildings" ++ ":[{" ++ quoted "confidence" ++ ":0.5,"
  ++ quoted "coordinates" ++ ":{" ++ quoted "lng" ++ ":2,"
  ++ quoted "lat" ++ ":1}," ++ quoted "estimatedHeight" ++ ":20}]}".

Definition one_building : JsVal :=
  JObj [("buildings",
         JArr [JObj [("confidence", JNum (1 # 2));
                     ("coordinates",
                      JObj [("lng", JNum 2); ("lat", JNum 1)]);
                     ("estimatedHeight", JNum 20)]])].

Definition sample_JSON_parse (s : string) : Exc JsVal :=
  if String.eqb s "{}" then Ret (JObj [])
  else if String.eqb s "null" then Ret JNull
  else if String.eqb s one_building_output then Ret one_building
  else Throw "Unexpected token in JSON at position 0".

(** Arithmetic on the numbers of the sample outputs, where it is exact. *)
Definition sample_op (f : Q -> Q -> Q) (x y : JsVal) : JsVal :=
  match x, y with
  | JNum a, JNum b => JNum (f a b)
  | _, _ => JNaN
  end.

Definition sample_Math_pow (x y : JsVal) : JsVal :=
  match x, y with
  | JNum a, JNum b =>
      if Pos.eqb (Qden b) 1 then JNum (Qpower a (Qnum b)) else JNaN
  | _, _ => JNaN
  end.

Definition sample_validate (detections summary : JsVal) : Exc unit := Ret tt.

Definition sample_ObjectId_isValid (s : string) : bool :=
  Nat.eqb (String.length s) 24.

Definition sample_parse_satellite (s : string) : Exc SatelliteResult :=
  if String.eqb s "{}" then Ret (mkSatelliteResult [] 0%Q 0%Z)
  else Throw "Unexpected token in JSON at position 0".

Definition sample_Number_toString (q : Q) : string :=
  show_Z (Qnum q / Zpos (Qden q)).

(** A box of one hundredth of a degree on each side, on the equator. *)
Definition small_box : Bounds := mkBounds 0 0 (1 / 100) (1 / 100).

(** A box whose latitudes are given in the wrong order. *)
Definition inverted_box : Bounds := mkBounds 1 0 0 1.



(** A box of nine hundredths of a degree on each side, centred on the
    equator. *)
Definition city_box : Bounds :=
  mkBounds (- (45 / 1000)) 0 (45 / 1000) (9 / 100).

(** An exit with code 0 whose output is not JSON, one with code 0 and no
    output at all, one with code 1, one with code 0 whose output is the
    JSON text [null], and one with code 0 and a building. *)
Definition garbled_exit : ProcessExit := mkProcessExit (Some 0%Z) "oops" "".
Definition silent_exit : ProcessExit := mkProcessExit (Some 0%Z) "" "".
Definition failed_exit : ProcessExit := mkProcessExit (Some 1%Z) "" "boom".
Definition null_exit : ProcessExit := mkProcessExit (Some 0%Z) "null" "".
Definition building_exit : ProcessExit :=
  mkProcessExit (Some 0%Z) one_building_output "".

(** A batch of 120 buildings, all different, with latitudes from 0 to
    59.5 and longitudes from 0 to 119. *)
Definition sample_buildings : list Building :=
  map (fun k => mkBuilding (INR k / 2) (INR k) (Some (show_nat k)))
    (seq 0 120).

Definition sample_batch : BatchRequest :=
  mkBatchRequest (Some sample_buildings) None None.

(** The document a height request for [small_box] stores. *)
Definition sample_doc : SegmentationResult :=
  mkSegmentationResult (Some ANONYMOUS_USER_ID) (Some "height_1_a")
    "building_height_estimation_v1" "geographic_bounds" (Some 85%Q)
    (Some small_box) (Some ((1 / 200)%R, (1 / 200)%R)) []
    processing (JArr []) JUndefined
    (new_metadata "building_height" (12321 / 10000)%R 1) 1.




(* ------------------------------------------------------------------ *)
(** ** The callback that settles a job *)

Section Runtime.

(** [JSON.parse]: the parsed document, or the SyntaxError it throws. *)
Variable JSON_parse : string -> Exc JsVal.

(** The operators [*], [-] and [/] and [Math.pow] on JavaScript values:
    coercion to numbers and double arithmetic. *)
Variable Number_mul : JsVal -> JsVal -> JsVal.
Variable Number_sub : JsVal -> JsVal -> JsVal.
Variable Number_div : JsVal -> JsVal -> JsVal.
Variable Math_pow : JsVal -> JsVal -> JsVal.

(** What Mongoose's validation makes of the [detections] and the
    [summary] of a document: nothing, or the message of the
    ValidationError (required fields, enumerations, ranges and casts of
    [detectionSchema] and of the summary paths). *)
Variable validate_content : JsVal -> JsVal -> Exc unit.

(** Whether Mongoose casts a string to an ObjectId. *)
Variable ObjectId_isValid : string -> bool.

(** [JSON.parse] on the output of [process_satellite_area.py]. *)
Variable parse_satellite : string -> Exc SatelliteResult.

(** Number-to-string conversion of template literals. *)
Variable Number_toString : Q -> string.

(** The validation [save()] runs on a [SegmentationResult]: the schema
    of the top-level fields, then the content when the document has
    any. *)
Definition validate (r : SegmentationResult) : Exc unit :=
  if schema_accepts r then
    if result_populated r then validate_content (detections r) (summary r)
    else Ret tt
  else Throw "SegmentationResult validation failed".

(** [doc.save()] on a document read from the store: the document that
    was written, or the error thrown. *)
Definition try_save (r : SegmentationResult) : Exc SegmentationResult :=
  match validate r with
  | Ret _ => Ret r
  | Throw message => Throw message
  end.

(** The arrow function mapped over [results.buildings] by the height
    callback. *)
Definition building_to_detection (building : JsVal) : Exc JsVal :=
  confidence <- get building "confidence" ;;
  coordinates <- get building "coordinates" ;;
  lng <- get coordinates "lng" ;;
  lat <- get coordinates "lat" ;;
  estimatedHeight <- get building "estimatedHeight" ;;
  category <- get building "category" ;;
  buildingId <- get building "buildingId" ;;
  groundElevation <- get building "groundElevation" ;;
  floorEstimate <- get building "floorEstimate" ;;
  detectionMethod <- get building "detectionMethod" ;;
  bmetadata <- get building "metadata" ;;
  Ret (JObj
    [("class", JStr "urban_expansion");
     ("confidence", Number_mul confidence (JNum 100));
     ("bbox", JArr [Number_sub lng (JNum (1 # 10000));
                    Number_sub lat (JNum (1 # 10000));
                    JNum (2 # 10000); JNum (2 # 10000)]);
     ("center", JArr [lng; lat]);
     ("area", Math_pow (Number_div estimatedHeight (JNum 10)) (JNum 2));
     ("severity",
      JStr (if seq_str category "skyscraper" then "high"
            else if seq_str category "high" then "medium" else "low"));
     ("additionalInfo",
      JObj [("buildingId", buildingId);
            ("estimatedHeight", estimatedHeight);
            ("groundElevation", groundElevation);
            ("floorEstimate", floorEstimate);
            ("detectionMethod", detectionMethod);
            ("metadata", bmetadata);
            ("category", category)])]).

(** [v.map(f)]: only arrays have [map]. *)
Definition array_map (v : JsVal) (f : JsVal -> Exc JsVal) : Exc JsVal :=
  match v with
  | JArr items => xs <- mapM f items ;; Ret (JArr xs)
  | _ => Throw "(results.buildings || []).map is not a function"
  end.

(** [{ k: src?.k || dflt, ... }]. *)
Definition defaults (src : JsVal) (fields : list (string * JsVal)) : JsVal :=
  JObj (map (fun '(k, dflt) => (k, Js.or (opt_get src k) dflt)) fields).

(** The inner [try] block of the height callback, up to [save], on the
    document read back from the store.  The result is the document as
    mutated so far and whether the block threw. *)
Definition height_try (now : Z) (out : string)
    (savedResult : SegmentationResult) : SegmentationResult * Exc unit :=
  match JSON_parse out with
  | Throw e => (savedResult, Throw e)
  | Ret results =>
      match get results "buildings" with
      | Throw e => (savedResult, Throw e)
      | Ret buildings =>
          let r1 := set_status completed savedResult in
          match array_map (Js.or buildings (JArr []))
                  building_to_detection with
          | Throw e => (r1, Throw e)
          | Ret dets =>
              let r2 := set_detections dets r1 in
              let rsummary := opt_get results "summary" in
              let r3 :=
                set_summary
                  (defaults rsummary
                     [("totalBuildings", JNum 0);
                      ("averageHeight", JNum 0);
                      ("maxHeight", JNum 0);
                      ("minHeight", JNum 0);
                      ("heightDistribution", JObj []);
                      ("confidenceScore", JNum 0);
                      ("heightStdDev", JNum 0);
                      ("averageConfidence", JNum 0)]) r2 in
              let r4 :=
                set_metadata
                  (md_set_height_extras
                     (Js.or (opt_get results "statistics") (JObj []))
                     (Js.or (opt_get results "heightMap") (JObj []))
                     (md_set_completed now (createdAt r3) (metadata r3)))
                  r3 in
              (r4, Ret tt)
          end
      end
  end.

Definition fail_with (e : string) (r : SegmentationResult) :=
  set_metadata (md_set_error e (metadata r)) (set_status failed r).

(** The body of the outer [try] of the height callback once the
    document is found: the document it saved, or the error that
    reaches the outer [catch].  An error of the inner [try], that of its
    [save] included, is caught by the inner [catch], which marks the
    document failed and saves again. *)
Definition height_inner (now : Z) (e : ProcessExit)
    (savedResult : SegmentationResult) : Exc SegmentationResult :=
  if code_is_zero (code e) && nonempty (pythonOutput e) then
    let attempt :=
      match height_try now (pythonOutput e) savedResult with
      | (r, Ret _) => (r, try_save r)
      | (r, Throw message) => (r, Throw message)
      end in
    match attempt with
    | (_, Ret saved) => Ret saved
    | (r, Throw message) =>
        try_save (fail_with ("JSON parsing error: " ++ message) r)
    end
  else
    try_save
      (fail_with (if nonempty (pythonError e) then pythonError e
                  else "Process failed with code " ++ show_code (code e))
         savedResult).

(** What the height callback ends up saving for the document it found,
    if anything.  The outer [catch] reads the document again, which is
    still the one read first since nothing was written, marks it failed
    with the message of the error, and saves it; an error of that last
    [save] is logged. *)
Definition height_settle (now : Z) (e : ProcessExit)
    (savedResult : SegmentationResult) : option SegmentationResult :=
  match height_inner now e savedResult with
  | Ret saved => Some saved
  | Throw message =>
      match try_save (fail_with message savedResult) with
      | Ret saved => Some saved
      | Throw _ => None
      end
  end.

Definition save_if (r : option SegmentationResult) (s : Store) : Store :=
  match r with
  | Some doc => update doc s
  | None => s
  end.

(** The [close] callback of [estimateBuildingHeights]. *)
Definition estimateBuildingHeights_close (processingId : string) (now : Z)
    (e : ProcessExit) (s : Store) : Store :=
  match findOne processingId s with
  | None => s
  | Some savedResult => save_if (height_settle now e savedResult) s
  end.

(* ------------------------------------------------------------------ *)
(** ** Generic segmentation and the alert evaluator *)

(** [processAreaWithSatelliteData]: the value the promise resolves to,
    or the error it rejects with. *)
Definition processAreaWithSatelliteData (p : ProcessEnd)
    : Exc SatelliteResult :=
  match p with
  | SpawnError m => Throw ("Failed to start satellite processing: " ++ m)
  | Closed e =>
      if negb (code_is_zero (code e)) then
        Throw ("Satellite processing failed: " ++ pythonError e)
      else
        match parse_satellite (pythonOutput e) with
        | Ret result => Ret result
        | Throw m =>
            Throw ("Failed to parse satellite processing output: " ++ m)
        end
  end.

(** [detection.severity || "medium"]. *)
Definition severity_or_medium (d : RawDetection) : string :=
  match rd_severity d with
  | Some v => if nonempty v then v else "medium"
  | None => "medium"
  end.

(** [detection.confidence >= threshold]. *)
Definition reaches (threshold : Q) (d : RawDetection) : bool :=
  match rd_confidence d with
  | Some c => Qle_bool threshold c
  | None => false
  end.

(** [new Alert({...})] for one detection: [detection.class.replace]
    throws when the detection has no class. *)
Definition alert_of (userId zoneName : option string)
    (detection : RawDetection) : Exc Alert :=
  match rd_class detection with
  | Some class =>
      let cls := replace_underscore class in
      Ret (mkAlert userId zoneName class
             (severity_or_medium detection)
             (toUpperCase cls ++ " Detected")
             (cls ++ " detected with "
                  ++ match rd_confidence detection with
                     | Some c => Number_toString c
                     | None => "undefined"
                     end
                  ++ "% confidence in " ++ show_opt zoneName)
             (match rd_center detection with
              | Some center => nth_error center 1
              | None => None
              end)
             (match rd_center detection with
              | Some center => nth_error center 0
              | None => None
              end)
             (match rd_area detection with Some a => a | None => 0%Q end)
             (rd_confidence detection)
             detection)
  | None => Throw "Cannot read properties of undefined (reading 'replace')"
  end.

(** The validation [save()] runs on an [Alert]. *)
Definition alert_accepts (a : Alert) : bool :=
  match a_userId a with Some u => ObjectId_isValid u | None => false end
  && given (a_zoneId a)
  && existsb (String.eqb (a_alertType a)) alertTypes
  && existsb (String.eqb (a_severity a)) severities
  && nonempty (a_title a) && Nat.leb (js_length (a_title a)) 200
  && nonempty (a_message a) && Nat.leb (js_length (a_message a)) 1000
  && within (-90) 90 (a_latitude a)
  && within (-180) 180 (a_longitude a)
  && Qle_bool 0 (a_affectedArea a)
  && within 0 100 (a_confidence a).

(** The [try] block of the loop body: the alert that was saved, if one
    was. *)
Definition create_alert (userId zoneName : option string)
    (detection : RawDetection) : option Alert :=
  match alert_of userId zoneName detection with
  | Ret alert => if alert_accepts alert then Some alert else None
  | Throw _ => None
  end.

(** The loop of [createAlertsFromDetections] over the alert collection
    and the counter; what the [try] block throws is logged. *)
Fixpoint alerts_loop (userId zoneName : option string)
    (detections : list RawDetection) (threshold : Q) (alerts : list Alert)
    (alertsCreated : nat) : list Alert * nat :=
  match detections with
  | [] => (alerts, alertsCreated)
  | detection :: rest =>
      if reaches threshold detection then
        match create_alert userId zoneName detection with
        | Some alert =>
            alerts_loop userId zoneName rest threshold
              (alerts ++ [alert])%list (S alertsCreated)
        | None =>
            alerts_loop userId zoneName rest threshold alerts alertsCreated
        end
      else
        alerts_loop userId zoneName rest threshold alerts alertsCreated
  end.

(** [createAlertsFromDetections]; the threshold defaults to 70. *)
Definition createAlertsFromDetections (userId zoneName : option string)
    (detections : list RawDetection) (threshold : option Q)
    (alerts : list Alert) : list Alert * nat :=
  alerts_loop userId zoneName detections
    (match threshold with Some t => t | None => 70%Q end) alerts 0.

(** [save()] of a new document. *)
Definition save_document (r : SegmentationResult) (s : Store) : Exc Store :=
  match validate r with
  | Ret _ => Ret (insert r s)
  | Throw message => Throw message
  end.

(** [processGeographicArea]; [p] is how the satellite process, awaited
    inside the request, ended.  The document is built without a
    [processingId].  The risk label and the map links of the reply are
    not modelled. *)
Definition processGeographicArea (req : AreaRequest) (p : ProcessEnd)
    (now : Z) (s : Store) (alerts : list Alert)
    : Store * list Alert * Response :=
  match ar_bounds req with
  | Some [minLat; minLng; maxLat; maxLng] =>
      if Rgeb minLat maxLat || Rgeb minLng maxLng then
        (s, alerts,
         Bad400 "Invalid bounds: min values must be less than max values")
      else
        let areaKm2 := calculateAreaSize minLat minLng maxLat maxLng in
        if Rgtb areaKm2 1000%R then (s, alerts, Bad400 "Area too large")
        else
          match processAreaWithSatelliteData p with
          | Throw _ =>
              (s, alerts, Error500 "Geographic area processing failed")
          | Ret result =>
              let segmentationResult :=
                mkSegmentationResult
                  (ar_userId req) None
                  "Satellite_Geographic_Analysis_v3.0"
                  "geographic_bounds"
                  (Some (sr_confidence result))
                  None None []
                  completed
                  (JArr (map raw_to_js (sr_detections result)))
                  JUndefined
                  (mkMetadata None (Some areaKm2) None None
                     (Some (sr_processingTime result))
                     JUndefined JUndefined None None None None None
                     (Some [minLat; minLng; maxLat; maxLng]))
                  now in
              match save_document segmentationResult s with
              | Throw _ =>
                  (s, alerts, Error500 "Geographic area processing failed")
              | Ret s' =>
                  let alertThreshold :=
                    match ar_alertThreshold req with
                    | Some t => t
                    | None => 70%Q
                    end in
                  let '(alerts', alertsCreated) :=
                    createAlertsFromDetections (ar_userId req)
                      (ar_zoneName req) (sr_detections result)
                      (Some alertThreshold) alerts in
                  (s', alerts', Segment200 alertsCreated)
              end
          end
  | _ =>
      (s, alerts,
       Bad400 "Valid bounds array [minLat, minLng, maxLat, maxLng] is required")
  end.

(** ** Direct submission, uniformly over the kinds *)

(** A direct submission of the box [b] for kind [k].  [p] is read by the
    segmentation path only. *)
Definition submit (k : Kind) (b : Bounds) (userId : option string) (now : Z)
    (rnd : string) (p : ProcessEnd) (s : Store) : Store * Response :=
  match k with
  | BuildingHeight =>
      estimateBuildingHeights
        (mkHeightRequest (Some (mkCoordinates (Some b) None None None))
           userId) now rnd s
  | Deforestation =>
      analyzeDeforestation (mkBoundsRequest (Some b) userId) now rnd s
  | Mining =>
      detectMiningActivities (mkBoundsRequest (Some b) userId) now rnd s
  | Fire =>
      detectForestFires (mkBoundsRequest (Some b) userId) now rnd s
  | Segmentation =>
      let '(s', _, r) :=
        processGeographicArea
          (mkAreaRequest
             (Some [minLat b; minLng b; maxLat b; maxLng b])
             userId None None) p now s [] in
      (s', r)
  end.

(** The 400 replies the specification calls [InvalidBounds] and
    [AreaTooLarge]. *)
Definition is_InvalidBounds (r : Response) : bool :=
  match r with
  | Bad400 e =>
      String.eqb e "Invalid coordinate bounds"
      || String.eqb e
           "Invalid bounds: min values must be less than max values"
  | _ => false
  end.

Definition is_AreaTooLarge (r : Response) : bool :=
  match r with
  | Bad400 e => prefix "Area too large" e
  | _ => false
  end.

Definition is_accepted (r : Response) : bool :=
  match r with
  | Accepted202 _ _ | Segment200 _ => true
  | _ => false
  end.

(* ------------------------------------------------------------------ *)
(** ** The orchestrator as a transition system *)

(** A running child process: the identifier of its job and the document
    that was stored when it was started.  Only the height controller
    starts one that outlives the request: the deforestation, mining and
    fire controllers start theirs after a [save] that throws, and the
    close callbacks they would register are not modelled. *)
Record Proc : Type := mkProc {
  p_id : string;
  p_doc : SegmentationResult
}.

Record System : Type := mkSystem {
  sys_store : Store;
  sys_alerts : list Alert;
  sys_procs : list Proc
}.

Definition initial : System := mkSystem [] [] [].

Inductive Event : Type :=
| EvHeight (req : HeightRequest) (now : Z) (rnd : string)
| EvDeforestation (req : BoundsRequest) (now : Z) (rnd : string)
| EvMining (req : BoundsRequest) (now : Z) (rnd : string)
| EvFire (req : BoundsRequest) (now : Z) (rnd : string)
| EvArea (req : AreaRequest) (p : ProcessEnd) (now : Z)
| EvBatch (req : BatchRequest) (now : Z) (rnd : string)
| EvClose (id : string) (now : Z) (e : ProcessExit)
| EvPoll (id : string).

(** After an admission: the process is started when the reply is 202. *)
Definition spawn (sys : System) (res : Store * Response) : System :=
  match snd res, created_by (sys_store sys) (fst res) with
  | Accepted202 id _, [doc] =>
      mkSystem (fst res) (sys_alerts sys)
        (sys_procs sys ++ [mkProc id doc])%list
  | _, _ => mkSystem (fst res) (sys_alerts sys) (sys_procs sys)
  end.

(** The running process of job [id], taken out of the table: a process
    emits [close] once. *)
Fixpoint take_proc (id : string) (procs : list Proc)
    : option (Proc * list Proc) :=
  match procs with
  | [] => None
  | p :: ps =>
      if String.eqb (p_id p) id then Some (p, ps)
      else match take_proc id ps with
           | Some (q, rest) => Some (q, p :: rest)
           | None => None
           end
  end.

Definition step (ev : Event) (sys : System) : System :=
  match ev with
  | EvHeight req now rnd =>
      spawn sys (estimateBuildingHeights req now rnd (sys_store sys))
  | EvDeforestation req now rnd =>
      mkSystem (fst (analyzeDeforestation req now rnd (sys_store sys)))
        (sys_alerts sys) (sys_procs sys)
  | EvMining req now rnd =>
      mkSystem (fst (detectMiningActivities req now rnd (sys_store sys)))
        (sys_alerts sys) (sys_procs sys)
  | EvFire req now rnd =>
      mkSystem (fst (detectForestFires req now rnd (sys_store sys)))
        (sys_alerts sys) (sys_procs sys)
  | EvArea req p now =>
      let '(s', alerts', _) :=
        processGeographicArea req p now (sys_store sys) (sys_alerts sys) in
      mkSystem s' alerts' (sys_procs sys)
  | EvBatch req now rnd =>
      mkSystem (fst (batchHeightEstimation req now rnd (sys_store sys)))
        (sys_alerts sys) (sys_procs sys)
  | EvClose id now e =>
      match take_proc id (sys_procs sys) with
      | None => sys
      | Some (p, rest) =>
          mkSystem
            (estimateBuildingHeights_close id now e (sys_store sys))
            (sys_alerts sys) rest
      end
  | EvPoll _ => sys
  end.

Fixpoint run (evs : list Event) (sys : System) : System :=
  match evs with
  | [] => sys
  | ev :: evs' => run evs' (step ev sys)
  end.

(** The identifiers present in the store. *)
Definition ids (s : Store) : list string :=
  flat_map (fun r => match processingId r with
                     | Some i => [i]
                     | None => []
                     end) s.

(** The unique index on [processingId]. *)
Definition unique_ids (s : Store) : Prop := NoDup (ids s).

(** Along the run, every state respects the unique index: identifiers
    handed out at admission are fresh. *)
Fixpoint index_respected (evs : list Event) (sys : System) : Prop :=
  match evs with
  | [] => True
  | ev :: evs' =>
      unique_ids (sys_store (step ev sys))
      /\ index_respected evs' (step ev sys)
  end.

(** Shape of a stored record: a result only when completed, an error
    only when failed. *)
Definition record_ok (r : SegmentationResult) : Prop :=
  (result_populated r = true -> status r = completed)
  /\ (error_populated r = true -> status r = failed).

(** A record as admission leaves it: no result and no error yet. *)
Definition pristine (r : SegmentationResult) : Prop :=
  result_populated r = false /\ error_populated r = false.

(** A run: a height job is admitted, its process exits with code 1, and
    the record is polled twice. *)
Definition sample_trace : list Event :=
  [EvHeight
     (mkHeightRequest (Some (mkCoordinates (Some small_box) None None None))
        None) 1 "a";
   EvClose "height_1_a" 2 failed_exit;
   EvPoll "height_1_a";
   EvPoll "height_1_a"].

(** A running process is consistent with the store: the document that
    was stored for it is still there, [processing] and untouched. *)
Definition proc_ok (s : Store) (p : Proc) : Prop :=
  findOne (p_id p) s = Some (p_doc p)
  /\ processingId (p_doc p) = Some (p_id p)
  /\ status (p_doc p) = processing
  /\ pristine (p_doc p).

(** The invariant of the orchestrator. *)
Definition Inv (sys : System) : Prop :=
  Forall record_ok (sys_store sys)
  /\ Forall (proc_ok (sys_store sys)) (sys_procs sys)
  /\ NoDup (map p_id (sys_procs sys)).

(** What an admission leaves behind: either nothing and no 202 reply,
    or one new document, [processing] and untouched, under the
    identifier of the 202 reply. *)
Definition admitted_shape (s : Store) (res : Store * Response) : Prop :=
  (fst res = s /\ forall id st, snd res <> Accepted202 id st)
  \/ exists doc id,
       res = (insert doc s, Accepted202 id "processing")
       /\ processingId doc = Some id
       /\ status doc = processing
       /\ pristine doc.

(* ------------------------------------------------------------------ *)
(** ** Further behaviour of the controllers *)

(** [coordinates.radius || 1000]. *)
Definition effective_radius (radius : option R) : R :=
  match radius with
  | Some r => if Rnonzero r then r else 1000%R
  | None => 1000%R
  end.

(** A height request for a point with an optional radius. *)
Definition point_request (lat lng : option R) (radius : option R)
    (userId : option string) : HeightRequest :=
  mkHeightRequest (Some (mkCoordinates None lat lng radius)) userId.

(* ------------------------------------------------------------------ *)
(** ** Risk labels *)

(** The labels ["Low"], ["Medium"], ["High"] and ["Critical"]. *)
Inductive RiskLabel : Type :=
| Low
| Medium
| High
| Critical.

Definition risk_rank (r : RiskLabel) : nat :=
  match r with
  | Low => 0
  | Medium => 1
  | High => 2
  | Critical => 3
  end.

(** [l.filter(p).length]. *)
Definition count_if {A : Type} (p : A -> bool) (l : list A) : nat :=
  List.length (filter p l).

(** [d.severity === v] and [d.class === c]. *)
Definition severity_is (v : string) (d : Detection) : bool :=
  match d_severity d with
  | Some x => String.eqb x v
  | None => false
  end.

Definition class_is (c : string) (d : Detection) : bool :=
  String.eqb (d_class d) c.

(** [calculateEnvironmentalRisk] of the segmentation controller;
    [None] is a missing detection list. *)
Definition calculateEnvironmentalRisk (detections : option (list Detection))
    : RiskLabel :=
  match detections with
  | None => Low
  | Some ds =>
      if Nat.eqb (List.length ds) 0 then Low
      else
        let criticalCount := count_if (severity_is "critical") ds in
        let highCount := count_if (severity_is "high") ds in
        let fireDetections := count_if (class_is "forest_fire") ds in
        let miningDetections := count_if (class_is "mining") ds in
        if Nat.ltb 2 criticalCount || Nat.ltb 0 fireDetections then Critical
        else if Nat.ltb 0 criticalCount || Nat.ltb 2 highCount
                || Nat.ltb 1 miningDetections then High
        else if Nat.ltb 0 highCount then Medium
        else Low
  end.

(** [riskFactors] of the map controller. *)
Record RiskFactors : Type := mkRiskFactors {
  rf_deforestation : nat;
  rf_mining : nat;
  rf_forestFire : nat;
  rf_criticalAlerts : nat
}.

(** [calculateAreaRisk]. *)
Definition calculateAreaRisk (riskFactors : RiskFactors) : RiskLabel :=
  if Nat.ltb 0 (rf_criticalAlerts riskFactors)
     || Nat.ltb 0 (rf_forestFire riskFactors) then Critical
  else if Nat.ltb 2 (rf_mining riskFactors)
          || Nat.ltb 5 (rf_deforestation riskFactors) then High
  else if Nat.ltb 0 (rf_mining riskFactors)
          || Nat.ltb 2 (rf_deforestation riskFactors) then Medium
  else Low.

Definition rec_fire : string :=
  "Immediate fire monitoring and suppression measures recommended".
Definition rec_mining : string :=
  "Review mining permits and environmental compliance".
Definition rec_forest : string := "Implement forest conservation measures".
Definition rec_urgent : string :=
  "Urgent attention required due to critical alerts".
Definition rec_stable : string :=
  "Area appears stable, continue regular monitoring".

(** [generateRecommendations]: the pushes in order, then the fallback
    when nothing was pushed. *)
Definition generateRecommendations (riskFactors : RiskFactors)
    : list string :=
  let r1 := if Nat.ltb 0 (rf_forestFire riskFactors) then [rec_fire]
            else [] in
  let r2 := if Nat.ltb 2 (rf_mining riskFactors)
            then (r1 ++ [rec_mining])%list else r1 in
  let r3 := if Nat.ltb 5 (rf_deforestation riskFactors)
            then (r2 ++ [rec_forest])%list else r2 in
  let r4 := if Nat.ltb 0 (rf_criticalAlerts riskFactors)
            then (r3 ++ [rec_urgent])%list else r3 in
  if Nat.eqb (List.length r4) 0 then [rec_stable] else r4.

(** The risk factors [analyzeCoordinates] derives from the detections
    near the point and the recent alerts of the area. *)
Definition risk_factors_of (nearbyDetections : list Detection)
    (recentAlerts : list Alert) : RiskFactors :=
  mkRiskFactors
    (count_if (class_is "deforestation") nearbyDetections)
    (count_if (class_is "mining") nearbyDetections)
    (count_if (class_is "forest_fire") nearbyDetections)
    (count_if (fun a => String.eqb (a_severity a) "critical") recentAlerts).

(** [a > b] on rationals. *)
Definition Qgtb (a b : Q) : bool := negb (Qle_bool a b).

(** [x || 0] for a number that may be missing. *)
Definition num_or_0 (x : option Q) : Q :=
  match x with Some q => q | None => 0%Q end.

(* ------------------------------------------------------------------ *)
(** ** Trends and fire statistics *)

(** A JavaScript number that may be [NaN] ([None]). *)
Definition Num : Type := option Q.

Definition num_gtb (a b : Num) : bool :=
  match a, b with
  | Some x, Some y => Qgtb x y
  | _, _ => false
  end.

(** [l.slice(-k)] and [l.slice(-a, -b)]. *)
Definition slice_last {A : Type} (k : nat) (l : list A) : list A :=
  skipn (List.length l - k) l.

Definition slice_from_end {A : Type} (a b : nat) (l : list A) : list A :=
  slice (List.length l - a) (List.length l - b) l.

(** [l.reduce((sum, x) => sum + f(x), 0)]. *)
Definition sum_with {A : Type} (f : A -> Q) (l : list A) : Q :=
  fold_left (fun sum x => (sum + f x)%Q) l 0%Q.

(** [sum / l.length]: [0 / 0] is [NaN]. *)
Definition average_with {A : Type} (f : A -> Q) (l : list A) : Num :=
  match l with
  | [] => None
  | _ => Some (sum_with f l / inject_Z (Z.of_nat (List.length l)))%Q
  end.

(** One month of the deforestation trend. *)
Record MonthData : Type := mkMonthData {
  m_period : string;
  m_forestLoss : Q;
  m_detections : nat
}.

(** The result of [calculateTrendAnalysis]; the averages, which the
    code renders with [toFixed], are kept as numbers. *)
Inductive TrendAnalysis : Type :=
| InsufficientData
| Trend (trend : string) (changePercentage : Num)
    (recentAverage previousAverage : Num).

(** [calculateTrendAnalysis] of the deforestation controller. *)
Definition calculateTrendAnalysis (monthlyData : list MonthData)
    : TrendAnalysis :=
  if Nat.ltb (List.length monthlyData) 2 then InsufficientData
  else
    let recent := slice_last 3 monthlyData in
    let previous := slice_from_end 6 3 monthlyData in
    let recentAvg := average_with m_forestLoss recent in
    let previousAvg := average_with m_forestLoss previous in
    let changePercentage :=
      if num_gtb previousAvg (Some 0%Q) then
        match recentAvg, previousAvg with
        | Some r, Some p => Some (((r - p) / p) * 100)%Q
        | _, _ => None
        end
      else Some 0%Q in
    Trend (if num_gtb changePercentage (Some 10%Q) then "increasing"
           else if num_gtb (Some (-10)%Q) changePercentage
           then "decreasing"
           else "stable")
      changePercentage recentAvg previousAvg.

(** One processed entry of the fire history. *)
Record FireEntry : Type := mkFireEntry {
  fe_date : Z;
  fe_burnedArea : Q;
  fe_intensity : string;
  fe_riskLevel : string
}.

(** The property names every object literal inherits from
    [Object.prototype]; each of them reads as a function or an object,
    hence as a truthy value. *)
Definition inherited (k : string) : bool :=
  existsb (String.eqb k)
    ["constructor"; "hasOwnProperty"; "isPrototypeOf";
     "propertyIsEnumerable"; "toLocaleString"; "toString"; "valueOf";
     "__proto__"; "__defineGetter__"; "__defineSetter__";
     "__lookupGetter__"; "__lookupSetter__"].

(** [intensityMap[k] || 0] and [riskMap[k] || 0]: a number, or [None]
    for an inherited property, which is not a number. *)
Definition intensityMap (k : string) : option nat :=
  if inherited k then None
  else if String.eqb k "low" then Some 1
  else if String.eqb k "medium" then Some 2
  else if String.eqb k "high" then Some 3
  else if String.eqb k "extreme" then Some 4
  else Some 0.

Definition riskMap (k : string) : option nat :=
  if inherited k then None
  else if String.eqb k "low" then Some 1
  else if String.eqb k "medium" then Some 2
  else if String.eqb k "high" then Some 3
  else if String.eqb k "critical" then Some 4
  else Some 0.

(** [l.reduce((sum, x) => sum + f(x), 0)]: from the first value that is
    not a number on, [+] concatenates strings, and the total is no
    number ([None]). *)
Definition total_with {A : Type} (f : A -> option nat) (l : list A)
    : option nat :=
  fold_left
    (fun sum x =>
       match sum, f x with
       | Some s, Some v => Some (s + v)
       | _, _ => None
       end)
    l (Some 0).

(** [total / n] for [n > 0]; a total that is a string gives [NaN]. *)
Definition ratio (total : option nat) (n : nat) : Num :=
  match total with
  | Some t => Some (inject_Z (Z.of_nat t) / inject_Z (Z.of_nat n))%Q
  | None => None
  end.

(** [calculateAverageIntensity]. *)
Definition calculateAverageIntensity (fireHistory : list FireEntry) : Num :=
  let total := total_with (fun fire => intensityMap (fe_intensity fire))
                 fireHistory in
  if Nat.ltb 0 (List.length fireHistory)
  then ratio total (List.length fireHistory)
  else Some 0%Q.

(** [total / l.length], [NaN] for an empty list ([0 / 0]). *)
Definition risk_average (l : list FireEntry) : Num :=
  match l with
  | [] => None
  | _ => ratio (total_with (fun fire => riskMap (fe_riskLevel fire)) l)
           (List.length l)
  end.

(** [calculateRiskTrends]: the trend and the two averages. *)
Definition calculateRiskTrends (fireHistory : list FireEntry)
    : string * Num * Num :=
  let half := List.length fireHistory / 2 in
  let recent := slice 0 half fireHistory in
  let older := skipn half fireHistory in
  let recentAvg := risk_average recent in
  let olderAvg := risk_average older in
  (if num_gtb recentAvg olderAvg then "increasing"
   else if num_gtb olderAvg recentAvg then "decreasing"
   else "stable",
   recentAvg, olderAvg).

Record Seasons : Type := mkSeasons {
  spring : nat;
  summer : nat;
  fall : nat;
  winter : nat
}.

(** The body of the [forEach] of [calculateSeasonalPattern], on the
    month of the entry ([None] when the date is invalid). *)
Definition count_season (seasons : Seasons) (month : option nat) : Seasons :=
  match month with
  | Some m =>
      if Nat.leb 2 m && Nat.leb m 4 then
        mkSeasons (S (spring seasons)) (summer seasons) (fall seasons)
          (winter seasons)
      else if Nat.leb 5 m && Nat.leb m 7 then
        mkSeasons (spring seasons) (S (summer seasons)) (fall seasons)
          (winter seasons)
      else if Nat.leb 8 m && Nat.leb m 10 then
        mkSeasons (spring seasons) (summer seasons) (S (fall seasons))
          (winter seasons)
      else
        mkSeasons (spring seasons) (summer seasons) (fall seasons)
          (S (winter seasons))
  | None =>
      mkSeasons (spring seasons) (summer seasons) (fall seasons)
        (S (winter seasons))
  end.

(** [calculateSeasonalPattern]; [getMonth d] is
    [new Date(d).getMonth()]. *)
Definition calculateSeasonalPattern (getMonth : Z -> option nat)
    (fireHistory : list FireEntry) : Seasons :=
  fold_left (fun seasons fire => count_season seasons (getMonth (fe_date fire)))
    fireHistory (mkSeasons 0 0 0 0).

(** The plain sum of the risk ranks, for stating the comparison of the
    two averages without division. *)
Definition plain_rank (k : string) : nat :=
  match riskMap k with Some v => v | None => 0 end.

Definition risk_total (l : list FireEntry) : nat :=
  list_sum (map (fun fire => plain_rank (fe_riskLevel fire)) l).

(** A fire entry whose risk level is no inherited property name. *)
Definition plain (fire : FireEntry) : Prop :=
  inherited (fe_riskLevel fire) = false.

(** The [trend] field of the result. *)
Definition trend_of (t : TrendAnalysis) : string :=
  match t with
  | InsufficientData => "insufficient_data"
  | Trend trend _ _ _ => trend
  end.

(* ------------------------------------------------------------------ *)
(** ** Map layers *)

(** A stored result as [getMapLayers] reads it. *)
Record MapResult : Type := mkMapResult {
  mr_id : string;
  mr_zoneName : option string;
  mr_createdAt : Z;
  mr_detections : list Detection
}.

(** A point feature of a layer, without its [id]. *)
Record Feature : Type := mkFeature {
  ft_coordinates : Q * Q;
  ft_class : string;
  ft_confidence : Q;
  ft_severity : option string;
  ft_area : option Q;
  ft_zoneName : option string;
  ft_detectedAt : Z;
  ft_segmentationId : string
}.

Record Layer : Type := mkLayer {
  ly_features : list Feature;
  ly_count : nat;
  ly_averageConfidence : Q;
  ly_totalArea : Q
}.

(** The [layers] object: its own properties in the order of their
    creation ([Object.keys] lists keys that are array indices first; the
    properties proved of the layers do not depend on the order). *)
Definition Layers : Type := list (string * Layer).

Fixpoint layer_get (k : string) (layers : Layers) : option Layer :=
  match layers with
  | [] => None
  | (k', ly) :: rest => if String.eqb k' k then Some ly else layer_get k rest
  end.

(** [layers[k] = ly]: an existing property keeps its place, a new one
    comes last. *)
Fixpoint layer_set (k : string) (ly : Layer) (layers : Layers) : Layers :=
  match layers with
  | [] => [(k, ly)]
  | (k', ly') :: rest =>
      if String.eqb k' k then (k, ly) :: rest
      else (k', ly') :: layer_set k ly rest
  end.

Definition empty_layer : Layer := mkLayer [] 0 0%Q 0%Q.

Definition feature_of (result : MapResult) (detection : Detection)
    : Feature :=
  mkFeature
    (match d_center detection with Some c => c | None => (0%Q, 0%Q) end)
    (d_class detection) (d_confidence detection) (d_severity detection)
    (d_area detection) (mr_zoneName result) (mr_createdAt result)
    (mr_id result).

(** The body of the inner [forEach] of [getMapLayers], on the layers and
    on [allDetections].  A class that names an inherited property reads
    as a truthy value without [features], and the [push] throws. *)
Definition add_detection (result : MapResult)
    (state : Layers * list Detection) (detection : Detection)
    : Exc (Layers * list Detection) :=
  let '(layers, allDetections) := state in
  let layerType := d_class detection in
  if inherited layerType
  then Throw "Cannot read properties of undefined (reading 'push')"
  else
    let layers :=
      match layer_get layerType layers with
      | None => layer_set layerType empty_layer layers
      | Some _ => layers
      end in
    let feature := feature_of result detection in
    let ly := match layer_get layerType layers with
              | Some ly => ly
              | None => empty_layer
              end in
    Ret (layer_set layerType
           (mkLayer (ly_features ly ++ [feature])%list
              (S (ly_count ly))
              (ly_averageConfidence ly)
              (ly_totalArea ly + num_or_0 (d_area detection))%Q)
           layers,
         (allDetections ++ [detection])%list).

(** [l.forEach(f)] for a body that may throw. *)
Fixpoint foldM {A S : Type} (f : S -> A -> Exc S) (l : list A) (s : S)
    : Exc S :=
  match l with
  | [] => Ret s
  | a :: l' => s' <- f s a ;; foldM f l' s'
  end.

(** The second pass: the average confidence of each layer. *)
Definition layer_statistics (ly : Layer) : Layer :=
  let confidences := map ft_confidence (ly_features ly) in
  mkLayer (ly_features ly) (ly_count ly)
    (if Nat.ltb 0 (List.length confidences)
     then (sum_with (fun c => c) confidences
           / inject_Z (Z.of_nat (List.length confidences)))%Q
     else 0%Q)
    (ly_totalArea ly).

Record MapLayers : Type := mkMapLayers {
  ml_layers : Layers;
  ml_totalResults : nat;
  ml_totalDetections : nat;
  ml_layerTypes : list string
}.

(** [getMapLayers], from the results of the query to the reply. *)
Definition getMapLayers (results : list MapResult) : Exc MapLayers :=
  state <- foldM
             (fun state result =>
                foldM (add_detection result) (mr_detections result) state)
             results ([], []) ;;
  let '(layers, allDetections) := state in
  let layers := map (fun kv => (fst kv, layer_statistics (snd kv))) layers in
  Ret (mkMapLayers layers (List.length results) (List.length allDetections)
         (map fst layers)).

(** The sum of the [count] fields of the layers. *)
Definition layers_total (layers : Layers) : nat :=
  list_sum (map (fun kv => ly_count (snd kv)) layers).

(** What holds of a layer filed under class [c] when the detections
    visited so far are [all]. *)
Definition layer_ok (all : list Detection) (c : string) (ly : Layer)
    : Prop :=
  ly_count ly = List.length (ly_features ly) /\
  ly_count ly = count_if (class_is c) all /\
  (0 < ly_count ly)%nat /\
  Forall (fun f => ft_class f = c) (ly_features ly).

Definition layers_ok (layers : Layers) (all : list Detection) : Prop :=
  NoDup (map fst layers) /\
  (forall c ly, layer_get c layers = Some ly -> layer_ok all c ly) /\
  (forall c, layer_get c layers = None -> count_if (class_is c) all = 0) /\
  layers_total layers = List.length all.

(** All detections of the results, in the order they are visited. *)
Definition detections_of (results : list MapResult) : list Detection :=
  flat_map mr_detections results.

(* ------------------------------------------------------------------ *)
(** ** Detection layers *)

(** [convertBboxToPolygon]; [None] is a missing [bbox]. *)
Definition convertBboxToPolygon (bbox : option (list Q)) : list (Q * Q) :=
  match bbox with
  | Some [x; y; width; height] =>
      [(x, y); (x + width, y); (x + width, y + height); (x, y + height);
       (x, y)]%Q
  | _ =>
      [(0, 0); (1 # 1000, 0); (1 # 1000, 1 # 1000); (0, 1 # 1000);
       (0, 0)]%Q
  end.

Record LayerFeature : Type := mkLayerFeature {
  lf_ring : list (Q * Q);
  lf_detection : Detection
}.

(** The reply, without its two numeric statistics [averageConfidence]
    and [totalArea]. *)
Record LayerReply : Type := mkLayerReply {
  lr_features : list LayerFeature;
  lr_detectionCount : nat;
  lr_low : nat;
  lr_medium : nat;
  lr_high : nat;
  lr_critical : nat
}.

Inductive LayerResponse : Type :=
| LayerNotFound404
| LayerOk200 (reply : LayerReply)
| LayerBad400.

(** [getDetectionLayer]: [result] is what [findById] found, given by its
    detections; [format] is the query parameter. *)
Definition getDetectionLayer (result : option (list Detection))
    (layerType : string) (format : option string) : LayerResponse :=
  let format := match format with Some f => f | None => "geojson" end in
  match result with
  | None => LayerNotFound404
  | Some detections =>
      let layerDetections := filter (class_is layerType) detections in
      if String.eqb format "geojson" then
        let features :=
          map (fun detection =>
                 mkLayerFeature
                   (convertBboxToPolygon (Some (d_bbox detection)))
                   detection)
            layerDetections in
        LayerOk200
          (mkLayerReply features
             (List.length layerDetections)
             (count_if (severity_is "low") layerDetections)
             (count_if (severity_is "medium") layerDetections)
             (count_if (severity_is "high") layerDetections)
             (count_if (severity_is "critical") layerDetections))
      else LayerBad400
  end.

(** A linear ring: five points, the last equal to the first. *)
Definition closed_ring (ring : list (Q * Q)) : Prop :=
  List.length ring = 5 /\ nth_error ring 4 = nth_error ring 0.

(* ------------------------------------------------------------------ *)
(** ** Pagination *)

(** The number a string of decimal digits denotes; [None] for any other
    string. *)
Definition decimal_value (s : string) : option nat :=
  option_map Nat.of_uint (NilZero.uint_of_string s).

(** A query parameter as the text [+] makes of it: the string itself, or
    the digits of its numeric default. *)
Definition query_text (default : nat) (parameter : option string) : string :=
  match parameter with
  | Some s => s
  | None => show_nat default
  end.

(** [hasMore: offset + limit < total] of [getSegmentationResults], with
    [limit = 10] and [offset = 0] by default.  Parameters of the query
    string are strings: [+] adds the two defaults and concatenates
    otherwise, and [<] converts the text with [String_toNumber], [None]
    being [NaN]. *)
Definition hasMore (String_toNumber : string -> option Q)
    (limit offset : option string) (total : nat) : bool :=
  match limit, offset with
  | None, None => Nat.ltb (0 + 10) total
  | _, _ =>
      match String_toNumber (query_text 0 offset ++ query_text 10 limit) with
      | Some q => Qgtb (inject_Z (Z.of_nat total)) q
      | None => false
      end
  end.

(** [String_toNumber] reads strings of decimal digits as their value. *)
Definition reads_decimals (String_toNumber : string -> option Q) : Prop :=
  forall s n, decimal_value s = Some n ->
              String_toNumber s = Some (inject_Z (Z.of_nat n)).

Definition sample_String_toNumber (s : string) : option Q :=
  option_map (fun n => inject_Z (Z.of_nat n)) (decimal_value s).

(** Appending the digits of [v] to those of [u]. *)
Fixpoint digits_app (u v : Decimal.uint) : Decimal.uint :=
  match u with
  | Decimal.Nil => v
  | Decimal.D0 u => Decimal.D0 (digits_app u v)
  | Decimal.D1 u => Decimal.D1 (digits_app u v)
  | Decimal.D2 u => Decimal.D2 (digits_app u v)
  | Decimal.D3 u => Decimal.D3 (digits_app u v)
  | Decimal.D4 u => Decimal.D4 (digits_app u v)
  | Decimal.D5 u => Decimal.D5 (digits_app u v)
  | Decimal.D6 u => Decimal.D6 (digits_app u v)
  | Decimal.D7 u => Decimal.D7 (digits_app u v)
  | Decimal.D8 u => Decimal.D8 (digits_app u v)
  | Decimal.D9 u => Decimal.D9 (digits_app u v)
  end.

(* ------------------------------------------------------------------ *)
(** ** Time series *)

(** The update of the [environmentalRisk] of a time bucket by the risk
    of one more result, in [getTimeSeries]. *)
Definition update_risk (current risk : string) : string :=
  if String.eqb risk "Critical" then "Critical"
  else if String.eqb risk "High" && negb (String.eqb current "Critical")
  then "High"
  else if String.eqb risk "Medium"
          && negb (existsb (String.eqb current) ["Critical"; "High"])
  then "Medium"
  else current.

(** The risk of a bucket after the results that fall into it, given by
    their risks in the order of the query; a new bucket starts at
    [Low]. *)
Definition bucket_risk (risks : list string) : string :=
  fold_left update_risk risks "Low".

Definition label_rank (label : string) : nat :=
  if String.eqb label "Critical" then 3
  else if String.eqb label "High" then 2
  else if String.eqb label "Medium" then 1
  else 0.

Definition risk_labels : list string := ["Low"; "Medium"; "High"; "Critical"].

(* ------------------------------------------------------------------ *)
(** * Properties *)

(** Drops the parameters of the runtime that a statement does not
    mention. *)
Ltac forget_runtime :=
  try clear fl_add; try clear fl_sub; try clear fl_mul; try clear fl_div;
  try clear fl_cos; try clear fl_PI; try clear JSON_parse;
  try clear Number_mul; try clear Number_sub; try clear Number_div;
  try clear Math_pow; try clear validate_content;
  try clear ObjectId_isValid; try clear parse_satellite;
  try clear Number_toString.

(** ** Comparisons *)

Lemma Rgtb_true (x y : R) : Rgtb x y = true <-> (x > y)%R.
Proof.
  unfold Rgtb. destruct (Rgt_dec x y); split; intros; try easy.
Qed.

Lemma Rgtb_false (x y : R) : Rgtb x y = false <-> (x <= y)%R.
Proof.
  unfold Rgtb. destruct (Rgt_dec x y); split; intros; try easy; lra.
Qed.

Lemma Rgeb_true (x y : R) : Rgeb x y = true <-> (x >= y)%R.
Proof.
  unfold Rgeb. destruct (Rge_dec x y); split; intros; try easy.
Qed.

Lemma Rgeb_false (x y : R) : Rgeb x y = false <-> (x < y)%R.
Proof.
  unfold Rgeb. destruct (Rge_dec x y); split; intros; try easy; lra.
Qed.

Lemma ordered_check (b : Bounds) :
  Rgeb (minLat b) (maxLat b) || Rgeb (minLng b) (maxLng b) = false
  <-> well_ordered b.
Proof using Type.
  forget_runtime.
  unfold well_ordered. rewrite orb_false_iff, !Rgeb_false. tauto.
Qed.

Lemma unordered_check (b : Bounds) :
  Rgeb (minLat b) (maxLat b) || Rgeb (minLng b) (maxLng b) = true
  <-> ((minLat b >= maxLat b)%R \/ (minLng b >= maxLng b)%R).
Proof using Type.
  forget_runtime.
  rewrite orb_true_iff, !Rgeb_true. tauto.
Qed.

Lemma created_by_insert (r : SegmentationResult) (s : Store) :
  created_by s (insert r s) = [r].
Proof.
  unfold created_by, insert.
  rewrite skipn_app, skipn_all, Nat.sub_diag. reflexivity.
Qed.

Lemma created_by_same (s : Store) : created_by s s = [].
Proof. unfold created_by. apply skipn_all. Qed.

(** ** Areas *)

(** ** Admission *)

Lemma submit_height (b : Bounds) userId now rnd p s :
  submit BuildingHeight b userId now rnd p s
  = estimateBuildingHeights
      (mkHeightRequest (Some (mkCoordinates (Some b) None None None)) userId)
      now rnd s.
Proof. reflexivity. Qed.

Ltac area_cases b c :=
  let H := fresh "Harea" in
  destruct (Rgtb (areaSize b) c) eqn:H;
  [apply Rgtb_true in H | apply Rgtb_false in H].

Ltac curved_cases b :=
  let H := fresh "Harea" in
  destruct (Rgtb (calculateAreaSize (minLat b) (minLng b) (maxLat b)
                    (maxLng b)) 1000) eqn:H;
  [apply Rgtb_true in H | apply Rgtb_false in H].

(** The document of [processGeographicArea] has no [processingId]: the
    store refuses it. *)
Lemma save_document_without_id (r : SegmentationResult) (s : Store) :
  processingId r = None -> exists m, save_document r s = Throw m.
Proof.
  intro H. unfold save_document, validate, schema_accepts. rewrite H.
  rewrite andb_false_r. simpl. now eexists.
Qed.

(** C7, as amended: the area the generic segmentation path compares
    against its ceiling is [dLat * 111.32 * (dLng * 111.32 *
    cos(meanLatRad))], each operation rounded as JavaScript rounds it;
    the building-height, mining, deforestation and fire paths compare
    [dLat * dLng * 111 * 111], without the cosine, against theirs.
    Stated on the replies: each path answers that the area is too large
    exactly when that quantity exceeds its ceiling (for the paths that
    check the order of the bounds first, on well-ordered bounds). *)
Theorem area_formula_by_kind (b : Bounds) (userId : option string)
    (now : Z) (rnd : string) (p : ProcessEnd) (s : Store) :
  let dLat := fl_sub (maxLat b) (minLat b) in
  let dLng := fl_sub (maxLng b) (minLng b) in
  let flat := fl_mul (fl_mul (fl_mul dLat dLng) 111%R) 111%R in
  let meanLatRad :=
    fl_div (fl_mul (fl_div (fl_add (minLat b) (maxLat b)) 2%R) fl_PI)
      180%R in
  let curved :=
    fl_mul (fl_mul dLat 111.32%R)
      (fl_mul (fl_mul dLng 111.32%R) (fl_cos meanLatRad)) in
  let too_large k :=
    is_AreaTooLarge (snd (submit k b userId now rnd p s)) = true in
  (too_large BuildingHeight <-> (flat > 100)%R)
  /\ (well_ordered b ->
      (too_large Segmentation <-> (curved > 1000)%R)
      /\ (too_large Mining <-> (flat > 5000)%R)
      /\ (too_large Deforestation <-> (flat > 10000)%R)
      /\ (too_large Fire <-> (flat > 50000)%R)).
Proof.
  intros dLat dLng flat meanLatRad curved too_large.
  subst too_large. cbv beta.
  change flat with (areaSize b).
  change curved
    with (calculateAreaSize (minLat b) (minLng b) (maxLat b) (maxLng b)).
  clear flat curved meanLatRad dLat dLng. split.
  - unfold submit, estimateBuildingHeights; simpl.
    area_cases b 100%R; simpl; split; try easy; intro; lra.
  - intro Hord. apply ordered_check in Hord. repeat split.
    + unfold submit, processGeographicArea; simpl. rewrite Hord.
      curved_cases b; simpl; [easy | intro H; exfalso; revert H].
      destruct (processAreaWithSatelliteData p) as [result | m]; simpl;
        [| discriminate].
      match goal with
      | |- context [save_document ?r s] =>
          destruct (save_document_without_id r s eq_refl) as [m ->]
      end.
      simpl. discriminate.
    + intro H. unfold submit, processGeographicArea; simpl. rewrite Hord.
      apply Rgtb_true in H. now rewrite H.
    + unfold submit, detectMiningActivities; simpl. rewrite Hord.
      area_cases b 5000%R; simpl; easy.
    + intro H. unfold submit, detectMiningActivities; simpl. rewrite Hord.
      apply Rgtb_true in H. now rewrite H.
    + unfold submit, analyzeDeforestation; simpl. rewrite Hord.
      area_cases b 10000%R; simpl; easy.
    + intro H. unfold submit, analyzeDeforestation; simpl. rewrite Hord.
      apply Rgtb_true in H. now rewrite H.
    + unfold submit, detectForestFires; simpl. rewrite Hord.
      area_cases b 50000%R; simpl; easy.
    + intro H. unfold submit, detectForestFires; simpl. rewrite Hord.
      apply Rgtb_true in H. now rewrite H.
Qed.

(** C2, on the code: a direct submission whose box has
    [minLat >= maxLat] or [minLng >= maxLng] is refused as invalid, with
    the store untouched, by the deforestation, mining, fire and
    segmentation paths; the building-height path has no such check: it
    never answers with invalid bounds, and when the signed area is at
    most 100 it stores a record in [processing] and accepts the job. *)
Theorem inverted_bounds_admission (k : Kind) (b : Bounds)
    (userId : option string) (now : Z) (rnd : string) (p : ProcessEnd)
    (s : Store) :
  ((minLat b >= maxLat b)%R \/ (minLng b >= maxLng b)%R) ->
  let res := submit k b userId now rnd p s in
  match k with
  | BuildingHeight =>
      is_InvalidBounds (snd res) = false
      /\ ((areaSize b <= 100)%R ->
          exists doc,
            res = (insert doc s,
                   Accepted202 ("height_" ++ show_Z now ++ "_" ++ rnd)
                     "processing")
            /\ status doc = processing /\ coord_bounds doc = Some b)
  | _ => is_InvalidBounds (snd res) = true /\ fst res = s
  end.
Proof.
  intros Hinv res. apply unordered_check in Hinv.
  destruct k; subst res; unfold submit.
  - unfold estimateBuildingHeights; simpl.
    area_cases b 100%R; simpl.
    + split; [reflexivity | intro; lra].
    + split; [reflexivity | intros _; eexists; repeat split].
  - unfold processGeographicArea; simpl. rewrite Hinv. now split.
  - unfold detectMiningActivities; simpl. rewrite Hinv. now split.
  - unfold analyzeDeforestation; simpl. rewrite Hinv. now split.
  - unfold detectForestFires; simpl. rewrite Hinv. now split.
Qed.

(** C3, as amended: for well-ordered bounds the reply is the area
    rejection exactly when the computed area strictly exceeds the
    ceiling of the kind (100 for building height, 1000 for generic
    segmentation, 5000 for mining, 10000 for deforestation, 50000 for
    fire), and a rejection stores nothing.  At or below the ceiling the
    building-height path stores a record in [processing] and accepts;
    the segmentation path, which awaits its satellite process inside the
    request, stores nothing and answers 500 when that process fails. *)
Theorem area_ceiling_admission (k : Kind) (b : Bounds)
    (userId : option string) (now : Z) (rnd : string) (p : ProcessEnd)
    (s : Store) :
  well_ordered b ->
  let res := submit k b userId now rnd p s in
  let area :=
    match k with
    | Segmentation =>
        calculateAreaSize (minLat b) (minLng b) (maxLat b) (maxLng b)
    | _ => areaSize b
    end in
  let ceiling :=
    match k with
    | BuildingHeight => 100
    | Segmentation => 1000
    | Mining => 5000
    | Deforestation => 10000
    | Fire => 50000
    end%R in
  (is_AreaTooLarge (snd res) = true <-> (area > ceiling)%R)
  /\ (is_AreaTooLarge (snd res) = true -> fst res = s)
  /\ ((area <= ceiling)%R ->
      match k with
      | BuildingHeight =>
          exists doc,
            res = (insert doc s,
                   Accepted202 ("height_" ++ show_Z now ++ "_" ++ rnd)
                     "processing")
            /\ status doc = processing /\ coord_bounds doc = Some b
      | Segmentation =>
          forall m, processAreaWithSatelliteData p = Throw m ->
            res = (s, Error500 "Geographic area processing failed")
      | _ => True
      end).
Proof.
  intros Hord res area ceiling. apply ordered_check in Hord.
  destruct k; subst res area ceiling; unfold submit.
  - unfold estimateBuildingHeights; simpl.
    area_cases b 100%R; simpl.
    + repeat split; try easy. intro; lra.
    + repeat split; try easy; try (intro; lra).
      intros _. eexists; repeat split.
  - unfold processGeographicArea; simpl. rewrite Hord.
    curved_cases b; simpl.
    + repeat split; try easy. intro; lra.
    + destruct (processAreaWithSatelliteData p) as [result | m]; simpl.
      * match goal with
        | |- context [save_document ?r s] =>
            destruct (save_document_without_id r s eq_refl) as [m ->]
        end.
        simpl. repeat split; try easy; try (intro; lra).
      * repeat split; try easy; intro; lra.
  - unfold detectMiningActivities; simpl. rewrite Hord.
    area_cases b 5000%R; simpl; repeat split; try easy; intro; lra.
  - unfold analyzeDeforestation; simpl. rewrite Hord.
    area_cases b 10000%R; simpl; repeat split; try easy; intro; lra.
  - unfold detectForestFires; simpl. rewrite Hord.
    area_cases b 50000%R; simpl; repeat split; try easy; intro; lra.
Qed.

(** ** The store *)

Lemma has_id_true (id : string) (r : SegmentationResult) :
  has_id id r = true <-> processingId r = Some id.
Proof.
  unfold has_id. destruct (processingId r) as [i|]; split; intro H;
    try discriminate.
  - apply String.eqb_eq in H. now subst.
  - injection H as ->. apply String.eqb_refl.
Qed.

Lemma findOne_some (id : string) (s : Store) (r : SegmentationResult) :
  findOne id s = Some r -> In r s /\ processingId r = Some id.
Proof.
  induction s as [|x s IH]; simpl; [discriminate |].
  destruct (has_id id x) eqn:Hx.
  - intro H. injection H as <-. split; [now left |].
    now apply has_id_true.
  - intro H. destruct (IH H) as [H1 H2]. split; [now right | exact H2].
Qed.

Lemma findOne_in_ids (id : string) (s : Store) (r : SegmentationResult) :
  findOne id s = Some r -> In id (ids s).
Proof.
  intro H. apply findOne_some in H as [Hin Hid].
  unfold ids. apply in_flat_map. exists r. split; [exact Hin |].
  rewrite Hid. now left.
Qed.

Lemma findOne_app_l (id : string) (s t : Store) (r : SegmentationResult) :
  findOne id s = Some r -> findOne id (s ++ t)%list = Some r.
Proof.
  induction s as [|x s IH]; simpl; [discriminate |].
  destruct (has_id id x); [trivial | exact IH].
Qed.

Lemma findOne_fresh (id : string) (s : Store) :
  ~ In id (ids s) -> findOne id s = None.
Proof.
  intro H. destruct (findOne id s) as [r|] eqn:E; [| reflexivity].
  elim H. eapply findOne_in_ids; eassumption.
Qed.

Lemma findOne_app_r (id : string) (s : Store) (r : SegmentationResult) :
  ~ In id (ids s) -> processingId r = Some id ->
  findOne id (s ++ [r])%list = Some r.
Proof.
  intros Hfresh Hid.
  induction s as [|x s IH]; simpl.
  - apply has_id_true in Hid. now rewrite Hid.
  - destruct (has_id id x) eqn:Hx.
    + elim Hfresh. apply has_id_true in Hx. simpl. rewrite Hx. now left.
    + apply IH. intro Hin. apply Hfresh. simpl.
      apply in_or_app. now right.
Qed.

Lemma ids_app (s t : Store) : ids (s ++ t)%list = (ids s ++ ids t)%list.
Proof. unfold ids. apply flat_map_app. Qed.

Lemma fresh_of_unique (id : string) (s : Store) (r : SegmentationResult) :
  unique_ids (s ++ [r])%list -> processingId r = Some id ->
  ~ In id (ids s).
Proof.
  unfold unique_ids. rewrite ids_app. intros Hnd Hid Hin.
  simpl in Hnd. rewrite Hid in Hnd. simpl in Hnd.
  apply NoDup_remove_2 in Hnd. apply Hnd.
  rewrite app_nil_r. exact Hin.
Qed.

(** [save] of a settled document replaces exactly the stored version of
    that document. *)
Lemma update_in (r : SegmentationResult) (s : Store)
    (x : SegmentationResult) :
  In x (update r s) -> x = r \/ In x s.
Proof using Type.
  forget_runtime.
  induction s as [|y s IH]; simpl; [tauto |].
  destruct (match processingId r with
            | Some id => has_id id y
            | None => false
            end).
  - simpl. intros [H | H]; [left; now symmetry | right; now right].
  - simpl. intros [H | H]; [right; now left |].
    destruct (IH H); [now left | right; now right].
Qed.

Lemma update_keeps (id : string) (r doc : SegmentationResult) (s : Store)
    (x : SegmentationResult) :
  processingId r = Some id ->
  findOne id s = Some doc ->
  In x s -> x <> doc -> In x (update r s).
Proof using Type.
  forget_runtime.
  intros Hid. induction s as [|y s IH]; simpl; [tauto |].
  rewrite Hid. destruct (has_id id y) eqn:Hy.
  - intros Hdoc [H | H] Hne.
    + injection Hdoc as <-. now elim Hne.
    + now right.
  - intros Hdoc [H | H] Hne.
    + now left.
    + right. now apply IH.
Qed.

Lemma findOne_update_same (id : string) (r doc : SegmentationResult)
    (s : Store) :
  processingId r = Some id ->
  findOne id s = Some doc ->
  findOne id (update r s) = Some r.
Proof.
  intros Hid. induction s as [|y s IH]; simpl; [discriminate |].
  rewrite Hid. destruct (has_id id y) eqn:Hy; simpl.
  - intros _. apply has_id_true in Hid. now rewrite Hid.
  - rewrite Hy. exact IH.
Qed.

Lemma findOne_update_other (id id' : string) (r : SegmentationResult)
    (s : Store) :
  processingId r = Some id -> id' <> id ->
  findOne id' (update r s) = findOne id' s.
Proof.
  intros Hid Hne. induction s as [|y s IH]; simpl; [reflexivity |].
  rewrite Hid. destruct (has_id id y) eqn:Hy; simpl.
  - assert (Hr : has_id id' r = false).
    { destruct (has_id id' r) eqn:E; [| reflexivity].
      apply has_id_true in E. congruence. }
    assert (Hy' : has_id id' y = false).
    { destruct (has_id id' y) eqn:E; [| reflexivity].
      apply has_id_true in E. apply has_id_true in Hy. congruence. }
    now rewrite Hr, Hy'.
  - destruct (has_id id' y); [reflexivity | exact IH].
Qed.

(** ** Settled records *)

(** ** Settling a job *)

Lemma nonempty_true (s : string) : nonempty s = true <-> s <> "".
Proof.
  unfold nonempty. rewrite negb_true_iff. split.
  - intros H E. apply String.eqb_neq in H. contradiction.
  - intro H. now apply String.eqb_neq.
Qed.

Lemma status_fail_with (m : string) (r : SegmentationResult) :
  status (fail_with m r) = failed.
Proof. reflexivity. Qed.

Lemma error_fail_with (m : string) (r : SegmentationResult) :
  md_error (metadata (fail_with m r)) = Some m.
Proof. reflexivity. Qed.

Lemma save_if_none (s : Store) : save_if None s = s.
Proof. reflexivity. Qed.

(** Marking a document failed changes neither what the schema checks nor
    its content. *)
Lemma validate_fail_with (m : string) (r : SegmentationResult) :
  validate (fail_with m r) = validate r.
Proof. reflexivity. Qed.

Lemma validate_set_status (st : Status) (r : SegmentationResult) :
  validate (set_status st r) = validate r.
Proof. reflexivity. Qed.

Lemma validate_untouched (r : SegmentationResult) :
  schema_accepts r = true -> result_populated r = false ->
  validate r = Ret tt.
Proof. intros H1 H2. unfold validate. now rewrite H1, H2. Qed.

Lemma try_save_ret (r : SegmentationResult) (u : unit) :
  validate r = Ret u -> try_save r = Ret r.
Proof. intro H. unfold try_save. now rewrite H. Qed.

Lemma try_save_throw (r : SegmentationResult) (m : string) :
  validate r = Throw m -> try_save r = Throw m.
Proof. intro H. unfold try_save. now rewrite H. Qed.

(** When the inner [try] block runs to its [save], the document is
    [completed] and carries a summary. *)
Lemma height_try_ret (now : Z) (out : string)
    (doc r : SegmentationResult) (u : unit) :
  height_try now out doc = (r, Ret u) ->
  status r = completed
  /\ result_populated r = true
  /\ processingId r = processingId doc
  /\ md_error (metadata r) = md_error (metadata doc)
  /\ exists results, JSON_parse out = Ret results.
Proof.
  unfold height_try.
  destruct (JSON_parse out) as [results | m]; [| discriminate].
  destruct (get results "buildings") as [buildings | m]; [| discriminate].
  destruct (array_map (Js.or buildings (JArr [])) building_to_detection)
    as [dets | m]; [| discriminate].
  intro H. injection H as <-. repeat split. now exists results.
Qed.

(** When it throws, nothing but the status was assigned. *)
Lemma height_try_throw (now : Z) (out : string)
    (doc r : SegmentationResult) (m : string) :
  height_try now out doc = (r, Throw m) ->
  (r = doc \/ r = set_status completed doc)
  /\ forall x, fail_with x r = fail_with x doc.
Proof.
  unfold height_try.
  destruct (JSON_parse out) as [results | m'].
  - destruct (get results "buildings") as [buildings | m''].
    + destruct (array_map (Js.or buildings (JArr []))
                  building_to_detection) as [dets | m3]; [discriminate |].
      intro H. injection H as <- _. split; [now right | reflexivity].
    + intro H. injection H as <- _. split; [now left | reflexivity].
  - intro H. injection H as <- _. split; [now left | reflexivity].
Qed.

(** What the callback saves for a document that admission stored: the
    completed document when the store accepts it, and otherwise the
    stored document marked failed. *)
Lemma height_settle_spec (now : Z) (e : ProcessExit)
    (doc : SegmentationResult) :
  schema_accepts doc = true ->
  result_populated doc = false ->
  height_settle now e doc
  = Some
      (if code_is_zero (code e) && nonempty (pythonOutput e) then
         match height_try now (pythonOutput e) doc with
         | (r, Ret _) =>
             match validate r with
             | Ret _ => r
             | Throw m => fail_with m doc
             end
         | (_, Throw m) => fail_with ("JSON parsing error: " ++ m) doc
         end
       else
         fail_with (if nonempty (pythonError e) then pythonError e
                    else "Process failed with code " ++ show_code (code e))
           doc).
Proof.
  intros Hschema Hfresh.
  pose proof (validate_untouched doc Hschema Hfresh) as Hdoc.
  unfold height_settle, height_inner.
  destruct (code_is_zero (code e) && nonempty (pythonOutput e)).
  - destruct (height_try now (pythonOutput e) doc) as [r [u | m]] eqn:Htry.
    + destruct (validate r) as [u' | m] eqn:Hv.
      * now rewrite (try_save_ret r u' Hv).
      * rewrite (try_save_throw r m Hv).
        rewrite (try_save_throw (fail_with _ r) m)
          by (now rewrite validate_fail_with).
        now rewrite (try_save_ret (fail_with m doc) tt)
          by (now rewrite validate_fail_with).
    + apply height_try_throw in Htry as [Hr Hfail].
      rewrite (try_save_ret (fail_with _ r) tt).
      * now rewrite Hfail.
      * rewrite validate_fail_with.
        destruct Hr as [-> | ->]; [| rewrite validate_set_status];
          exact Hdoc.
  - now rewrite (try_save_ret (fail_with _ doc) tt)
      by (now rewrite validate_fail_with).
Qed.

(** The record of the job after the callback. *)
Lemma height_close_record (id : string) (now : Z) (e : ProcessExit)
    (doc r : SegmentationResult) (s : Store) :
  findOne id s = Some doc ->
  height_settle now e doc = Some r ->
  processingId r = Some id ->
  findOne id (estimateBuildingHeights_close id now e s) = Some r.
Proof.
  intros Hfind Hsettle Hid. unfold estimateBuildingHeights_close.
  rewrite Hfind, Hsettle. simpl. now apply findOne_update_same with doc.
Qed.

(** C1, as amended: for a building-height job, the only kind that is
    ever admitted, whose record is as admission stored it when the
    process closes.  With exit code 0 and a non-empty output that parses
    and that the callback can transform, the record becomes [completed]
    with its result when the store accepts it, and [failed] with the
    validation message, without a result, when the store refuses it.
    When the output does not parse, or parses into something the
    callback cannot transform, the record becomes [failed] with the text
    "JSON parsing error: " followed by the message of the error.  With
    another exit code, or no output, it becomes [failed] with the
    standard-error text or, when that is empty, "Process failed with
    code N".  A record marked failed has no result. *)
Theorem parse_failure_settlement (id : string) (now : Z) (e : ProcessExit)
    (doc : SegmentationResult) (s : Store) :
  findOne id s = Some doc ->
  schema_accepts doc = true ->
  result_populated doc = false ->
  let after := findOne id (estimateBuildingHeights_close id now e s) in
  (code e = Some 0%Z -> pythonOutput e <> "" ->
   (forall m, JSON_parse (pythonOutput e) = Throw m ->
      after = Some (fail_with ("JSON parsing error: " ++ m) doc))
   /\ (forall r m, height_try now (pythonOutput e) doc = (r, Throw m) ->
         after = Some (fail_with ("JSON parsing error: " ++ m) doc))
   /\ (forall r, height_try now (pythonOutput e) doc = (r, Ret tt) ->
         (exists results, JSON_parse (pythonOutput e) = Ret results)
         /\ (validate r = Ret tt ->
             after = Some r /\ status r = completed
             /\ result_populated r = true
             /\ md_error (metadata r) = md_error (metadata doc))
         /\ (forall m, validate r = Throw m ->
               after = Some (fail_with m doc))))
  /\ (code_is_zero (code e) && nonempty (pythonOutput e) = false ->
      after = Some (fail_with
                      (if nonempty (pythonError e) then pythonError e
                       else "Process failed with code " ++ show_code (code e))
                      doc))
  /\ (forall m, status (fail_with m doc) = failed
                /\ md_error (metadata (fail_with m doc)) = Some m
                /\ result_populated (fail_with m doc) = false).
Proof.
  intros Hfind Hschema Hfresh after.
  pose proof (height_settle_spec now e doc Hschema Hfresh) as Hspec.
  destruct (findOne_some _ _ _ Hfind) as [_ Hid].
  assert (Hclose : forall r, height_settle now e doc = Some r ->
                             processingId r = Some id -> after = Some r)
    by (intros r H1 H2; now apply height_close_record with doc).
  split; [| split].
  - intros Hcode Hout. apply nonempty_true in Hout.
    rewrite Hcode, Hout in Hspec. simpl in Hspec.
    split; [| split].
    + intros m Hparse. apply Hclose; [| exact Hid].
      rewrite Hspec. unfold height_try. now rewrite Hparse.
    + intros r m Htry. apply Hclose; [| exact Hid].
      now rewrite Hspec, Htry.
    + intros r Htry. rewrite Htry in Hspec.
      destruct (height_try_ret _ _ _ _ _ Htry)
        as (Hst & Hres & Hrid & Herr & Hparse).
      split; [exact Hparse | split].
      * intro Hv. rewrite Hv in Hspec.
        repeat split; trivial. apply Hclose; [exact Hspec | congruence].
      * intros m Hv. rewrite Hv in Hspec. now apply Hclose.
  - intro Hcond. rewrite Hcond in Hspec. now apply Hclose.
  - intro m. repeat split. exact Hfresh.
Qed.

(** C10: when the process of a building-height job, the only kind that
    is ever admitted, exits with code 0 and an empty standard output,
    the record becomes [failed], neither [completed] nor [processing],
    with the collected standard-error text as its error or, when that is
    empty, "Process failed with code 0", and it has no result. *)
Theorem empty_output_settlement (id : string) (now : Z) (e : ProcessExit)
    (doc : SegmentationResult) (s : Store) :
  findOne id s = Some doc ->
  schema_accepts doc = true ->
  result_populated doc = false ->
  code e = Some 0%Z ->
  pythonOutput e = "" ->
  exists r,
    findOne id (estimateBuildingHeights_close id now e s) = Some r
    /\ status r = failed
    /\ md_error (metadata r)
       = Some (if nonempty (pythonError e) then pythonError e
               else "Process failed with code 0")
    /\ result_populated r = false.
Proof.
  intros Hfind Hschema Hfresh Hcode Hout.
  pose proof (height_settle_spec now e doc Hschema Hfresh) as Hspec.
  rewrite Hcode, Hout in Hspec. simpl in Hspec.
  destruct (findOne_some _ _ _ Hfind) as [_ Hid].
  eexists. split.
  { apply height_close_record with doc; [exact Hfind | exact Hspec |].
    exact Hid. }
  repeat split. exact Hfresh.
Qed.

(** ** Batch chunker *)

Lemma ceil_done (N j : nat) : N <= 50 * j -> (N + 49) / 50 - j = 0.
Proof.
  intro H. pose proof (Nat.div_mod_eq (N + 49) 50).
  pose proof (Nat.mod_upper_bound (N + 49) 50). lia.
Qed.

Lemma ceil_more (N j : nat) :
  50 * j < N -> (N + 49) / 50 - j = S ((N + 49) / 50 - S j).
Proof.
  intro H. pose proof (Nat.div_mod_eq (N + 49) 50).
  pose proof (Nat.mod_upper_bound (N + 49) 50). lia.
Qed.

Lemma div_chunk (j : nat) : (50 * j) / chunkSize = j.
Proof. unfold chunkSize. rewrite Nat.mul_comm. apply Nat.div_mul. lia. Qed.

Lemma slice_chunk {A : Type} (j : nat) (l : list A) :
  slice (50 * j) (50 * j + chunkSize) l = firstn 50 (skipn (50 * j) l).
Proof.
  unfold slice, chunkSize. f_equal. lia.
Qed.

Lemma firstn_add {A : Type} (a b : nat) (l : list A) :
  firstn (a + b) l = (firstn a l ++ firstn b (skipn a l))%list.
Proof.
  revert l. induction a as [|a IH]; intros [|x l]; simpl; trivial.
  - now rewrite firstn_nil.
  - now rewrite IH.
Qed.

(** Consecutive slices of width 50 glue back into the stretch they
    cover. *)
Lemma concat_slices {A : Type} (l : list A) (n a : nat) :
  List.concat (map (fun j => firstn 50 (skipn (50 * j) l)) (seq a n))
  = firstn (50 * n) (skipn (50 * a) l).
Proof.
  revert a. induction n as [|n IH]; intro a; simpl seq; simpl map;
    simpl List.concat.
  - reflexivity.
  - rewrite IH.
    replace (50 * S n) with (50 + 50 * n) by lia.
    rewrite firstn_add, skipn_skipn.
    do 3 f_equal. lia.
Qed.

(** The loop, run with enough fuel from the start of chunk [j], appends
    the records and the reply entries of the chunks [j], [j+1], ... up to
    the last one. *)
Lemma batch_loop_chunks (bs : list Building) (batchId : string)
    (userId : option string) (priority : string) (now : Z) :
  forall (fuel j : nat) (s : Store) (results : list (string * nat * string)),
    List.length bs <= 50 * j + 50 * fuel ->
    batch_loop fuel (50 * j) bs batchId userId priority now s results
    = ((s ++ map (chunk_at batchId userId priority now bs)
               (seq j ((List.length bs + 49) / 50 - j)))%list,
       (results ++ map (entry_at batchId bs)
                     (seq j ((List.length bs + 49) / 50 - j)))%list).
Proof.
  induction fuel as [|fuel IH]; intros j s results Hfuel;
    cbn [batch_loop].
  - rewrite ceil_done by lia. cbn [seq map]. now rewrite !app_nil_r.
  - destruct (Nat.ltb (50 * j) (List.length bs)) eqn:Hlt.
    + apply Nat.ltb_lt in Hlt.
      rewrite (ceil_more (List.length bs) j Hlt). cbn [seq map].
      replace (50 * j + chunkSize) with (50 * S j)
        by (unfold chunkSize; lia).
      rewrite IH by lia.
      unfold insert. rewrite <- !app_assoc. cbn [app].
      unfold chunk_at at 2, entry_at at 2.
      replace (50 * S j) with (50 * j + chunkSize)
        by (unfold chunkSize; lia).
      rewrite div_chunk. reflexivity.
    + apply Nat.ltb_ge in Hlt.
      rewrite (ceil_done (List.length bs) j Hlt). cbn [seq map]. now rewrite !app_nil_r.
Qed.

Lemma batch_accepted (req : BatchRequest) (bs : list Building) (now : Z)
    (rnd : string) (s : Store) :
  bq_buildings req = Some bs ->
  1 <= List.length bs <= 1000 ->
  let batchId := "batch_height_" ++ show_Z now ++ "_" ++ rnd in
  let priority :=
    match bq_priority req with Some p => p | None => "normal" end in
  let c := (List.length bs + 49) / 50 in
  batchHeightEstimation req now rnd s
  = ((s ++ map (chunk_at batchId (bq_userId req) priority now bs)
             (seq 0 c))%list,
     BatchAccepted202 batchId (List.length bs) c
       (map (entry_at batchId bs) (seq 0 c))).
Proof.
  intros Hbs Hn batchId priority c. unfold batchHeightEstimation.
  rewrite Hbs.
  destruct (Nat.eqb (List.length bs) 0) eqn:H0;
    [apply Nat.eqb_eq in H0; lia |].
  destruct (Nat.ltb 1000 (List.length bs)) eqn:H1;
    [apply Nat.ltb_lt in H1; lia |].
  pose proof (batch_loop_chunks bs batchId (bq_userId req) priority now
                (List.length bs) 0 s []) as Hloop.
  change (50 * 0) with 0 in Hloop. rewrite Nat.sub_0_r in Hloop.
  fold batchId priority. rewrite Hloop by lia.
  cbn [app]. fold c. now rewrite length_map, length_seq.
Qed.

(** The chunk documents satisfy the schema of the store. *)
Lemma chunk_record_accepted batchId userId priority now i chunk :
  schema_accepts (chunk_record batchId userId priority now i chunk) = true.
Proof.
  unfold schema_accepts, chunk_record; cbn.
  now destruct batchId.
Qed.

Lemma nth_error_chunks {A : Type} (f : nat -> A) (c j : nat) (x : A) :
  nth_error (map f (seq 0 c)) j = Some x -> j < c /\ x = f j.
Proof.
  rewrite nth_error_map, nth_error_seq.
  destruct (Nat.ltb j c) eqn:Hj; simpl; intro H; try discriminate.
  apply Nat.ltb_lt in Hj. split; [exact Hj | congruence].
Qed.

Lemma coord_buildings_chunk_at batchId userId priority now bs j :
  coord_buildings (chunk_at batchId userId priority now bs j)
  = map stored_building (firstn 50 (skipn (50 * j) bs)).
Proof.
  unfold chunk_at. now rewrite slice_chunk.
Qed.

(** C4: a batch of [N] buildings with [1 <= N <= 1000] appends exactly
    [ceil(N/50)] chunk records to the store; the chunk of index [j]
    holds the slice of the input from position [50j] to [50j + 50],
    each building with its latitude, longitude and identifier, so the
    chunks are consecutive, order-preserving and disjoint, each holds
    at most 50 buildings, their concatenation is the input and their
    sizes sum to [N]; all carry the same [batchId], and the
    [chunkIndex] of the [j]-th is [j].  An empty batch and a batch of
    more than 1000 buildings are refused with the store untouched. *)
Theorem batch_chunking (req : BatchRequest) (bs : list Building) (now : Z)
    (rnd : string) (s : Store) :
  bq_buildings req = Some bs ->
  let N := List.length bs in
  let res := batchHeightEstimation req now rnd s in
  let batchId := "batch_height_" ++ show_Z now ++ "_" ++ rnd in
  (N = 0 -> res = (s, Bad400 "Buildings array is required"))
  /\ (1000 < N -> res = (s, Bad400 "Maximum 1000 buildings per batch"))
  /\ (1 <= N <= 1000 ->
      exists chunks results,
        res = ((s ++ chunks)%list,
               BatchAccepted202 batchId N (List.length chunks) results)
        /\ created_by s (fst res) = chunks
        /\ List.length chunks = (N + 49) / 50
        /\ List.concat (map coord_buildings chunks)
           = map (fun b => mkStoredBuilding (b_lat b) (b_lng b) (b_id b)) bs
        /\ list_sum (map (fun r => List.length (coord_buildings r)) chunks)
           = N
        /\ (forall j r,
              nth_error chunks j = Some r ->
              coord_buildings r
              = map (fun b => mkStoredBuilding (b_lat b) (b_lng b) (b_id b))
                  (slice (50 * j) (50 * j + 50) bs)
              /\ status r = processing
              /\ confidence r = Some 80%Q
              /\ inputType r = "building_coordinates"
              /\ List.length (coord_buildings r) <= 50
              /\ md_totalBuildings (metadata r)
                 = Some (List.length (coord_buildings r))
              /\ md_batchId (metadata r) = Some batchId
              /\ md_chunkIndex (metadata r) = Some j
              /\ processingId r
                 = Some (batchId ++ "_chunk_" ++ show_nat j))).
Proof.
  intros Hbs N res batchId.
  change (fun b : Building => mkStoredBuilding (b_lat b) (b_lng b) (b_id b))
    with stored_building.
  repeat split.
  - intro H0. subst res. unfold batchHeightEstimation. rewrite Hbs.
    fold N. now rewrite H0.
  - intro H1. subst res. unfold batchHeightEstimation. rewrite Hbs.
    fold N.
    destruct (Nat.eqb N 0) eqn:E; [apply Nat.eqb_eq in E; lia |].
    apply Nat.ltb_lt in H1. now rewrite H1.
  - intro HN. subst res.
    rewrite (batch_accepted req bs now rnd s Hbs HN). fold batchId N.
    set (priority :=
           match bq_priority req with Some p => p | None => "normal" end).
    set (c := (N + 49) / 50).
    set (chunks := map (chunk_at batchId (bq_userId req) priority now bs)
                     (seq 0 c)).
    assert (Hcat : List.concat (map coord_buildings chunks)
                   = map stored_building bs).
    { unfold chunks. rewrite map_map.
      erewrite map_ext by (intro; apply coord_buildings_chunk_at).
      rewrite <- map_map with (f := fun j => firstn 50 (skipn (50 * j) bs)).
      rewrite <- concat_map, concat_slices. simpl skipn.
      rewrite firstn_all2; [reflexivity |].
      unfold c. fold N.
      pose proof (Nat.div_mod_eq (N + 49) 50).
      pose proof (Nat.mod_upper_bound (N + 49) 50). lia. }
    exists chunks, (map (entry_at batchId bs) (seq 0 c)).
    assert (Hlen : List.length chunks = c)
      by (unfold chunks; now rewrite length_map, length_seq).
    rewrite Hlen. repeat split.
    + simpl. unfold created_by. rewrite skipn_app, skipn_all, Nat.sub_diag.
      reflexivity.
    + exact Hcat.
    + rewrite <- map_map with (g := @List.length StoredBuilding).
      rewrite <- length_concat, Hcat, length_map. reflexivity.
    + apply nth_error_chunks in H as [_ ->].
      rewrite coord_buildings_chunk_at.
      unfold slice. do 2 f_equal. lia.
    + apply nth_error_chunks in H as [_ ->]. reflexivity.
    + apply nth_error_chunks in H as [_ ->]. reflexivity.
    + apply nth_error_chunks in H as [_ ->]. reflexivity.
    + apply nth_error_chunks in H as [_ ->].
      rewrite coord_buildings_chunk_at, length_map.
      apply firstn_le_length.
    + apply nth_error_chunks in H as [_ ->].
      unfold chunk_at, chunk_record;
        cbn [metadata md_totalBuildings coord_buildings].
      now rewrite length_map.
    + apply nth_error_chunks in H as [_ ->]. reflexivity.
    + apply nth_error_chunks in H as [_ ->].
      unfold chunk_at, chunk_record; cbn [metadata md_chunkIndex].
      now rewrite div_chunk.
    + apply nth_error_chunks in H as [_ ->].
      unfold chunk_at, chunk_record; cbn [processingId].
      now rewrite div_chunk.
Qed.

(** C5, on the code: every chunk record a batch stores is created with
    status [processing], not [queued], while each entry of the immediate
    reply reports the status text "queued". *)
Theorem chunk_status_mismatch (req : BatchRequest) (bs : list Building)
    (now : Z) (rnd : string) (s : Store) :
  bq_buildings req = Some bs ->
  1 <= List.length bs <= 1000 ->
  let res := batchHeightEstimation req now rnd s in
  created_by s (fst res) <> []
  /\ (forall r, In r (created_by s (fst res)) -> status r = processing)
  /\ (exists batchId n c results,
         snd res = BatchAccepted202 batchId n c results
         /\ List.length results = List.length (created_by s (fst res))
         /\ forall x, In x results -> snd x = "queued").
Proof.
  intros Hbs HN res. subst res.
  rewrite (batch_accepted req bs now rnd s Hbs HN). cbn [fst snd].
  unfold created_by. rewrite skipn_app, skipn_all, Nat.sub_diag.
  cbn [skipn app].
  assert (Hc : (List.length bs + 49) / 50 <> 0).
  { pose proof (Nat.div_mod_eq (List.length bs + 49) 50).
    pose proof (Nat.mod_upper_bound (List.length bs + 49) 50). lia. }
  repeat split.
  - destruct ((List.length bs + 49) / 50);
      [now elim Hc | cbn [seq map]; discriminate].
  - intros r Hin. apply in_map_iff in Hin as [j [<- _]]. reflexivity.
  - do 4 eexists. split; [reflexivity |]. split.
    + now rewrite !length_map.
    + intros x Hin. apply in_map_iff in Hin as [j [<- _]]. reflexivity.
Qed.

(** ** Alert evaluator *)




(** ** Non-negativity and monotonicity of the areas *)

Local Open Scope R_scope.

Section Rounding.

(** What the areas need of double arithmetic.  Rounding is monotone, so
    that subtraction increases with its first operand and decreases
    with its second, and multiplication of non-negative numbers
    increases with both; [x - x] and [0 * 0] are 0; the mean of two
    latitudes between -90 and 90 lies between -90 and 90; and the
    cosine of such a latitude turned into radians, at most
    [Math.PI / 2], is not negative. *)
Hypothesis fl_sub_mono :
  forall a b c d : R, a <= b -> c <= d -> fl_sub a d <= fl_sub b c.
Hypothesis fl_sub_diag : forall a : R, fl_sub a a = 0.
Hypothesis fl_mul_mono :
  forall a b c d : R,
    0 <= a <= b -> 0 <= c <= d -> fl_mul a c <= fl_mul b d.
Hypothesis fl_mul_zero : fl_mul 0 0 = 0.
Hypothesis fl_mean_range :
  forall a b : R,
    -90 <= a -> a <= b -> b <= 90 -> -90 <= fl_div (fl_add a b) 2 <= 90.
Hypothesis fl_cos_nonneg :
  forall x : R,
    -90 <= x <= 90 -> 0 <= fl_cos (fl_div (fl_mul x fl_PI) 180).




End Rounding.

Local Close Scope R_scope.

(** ** What a callback saves *)

Lemma pristine_error (doc : SegmentationResult) :
  pristine doc -> md_error (metadata doc) = None.
Proof.
  intros [_ H]. unfold error_populated in H.
  now destruct (md_error (metadata doc)).
Qed.

Ltac settled Hres Herr :=
  repeat split;
  unfold record_ok, result_populated, error_populated in *;
  cbn [status summary detections metadata md_error processingId
       fail_with set_status set_detections set_summary set_metadata
       md_set_error md_set_completed md_set_height_extras terminal] in *;
  try rewrite Herr; try rewrite Hres;
  try reflexivity; try discriminate;
  try (intros [? ?]; discriminate).

Lemma try_save_inv (x y : SegmentationResult) :
  try_save x = Ret y -> y = x /\ validate x = Ret tt.
Proof.
  unfold try_save. destruct (validate x) as [[] | m]; [| discriminate].
  intro H. injection H as <-. now split.
Qed.

(** Whatever the height callback saves for an untouched document is the
    same job, in a terminal state, with a result only when completed
    and an error only when failed. *)
Lemma settle_shape (now : Z) (e : ProcessExit)
    (doc r : SegmentationResult) :
  pristine doc ->
  height_settle now e doc = Some r ->
  processingId r = processingId doc
  /\ terminal (status r) = true
  /\ record_ok r
  /\ ~ (result_populated r = true /\ error_populated r = true).
Proof.
  intros Hp Hs. pose proof (pristine_error doc Hp) as Herr.
  destruct Hp as [Hres _].
  assert (Hfail : forall m x, try_save (fail_with m doc) = Ret x ->
            processingId x = processingId doc
            /\ terminal (status x) = true
            /\ record_ok x
            /\ ~ (result_populated x = true /\ error_populated x = true)).
  { intros m x Hx. apply try_save_inv in Hx as [-> _]. settled Hres Herr. }
  assert (Houter : forall m,
            match try_save (fail_with m doc) with
            | Ret saved => Some saved
            | Throw _ => None
            end = Some r ->
            processingId r = processingId doc
            /\ terminal (status r) = true
            /\ record_ok r
            /\ ~ (result_populated r = true /\ error_populated r = true)).
  { intros m H. destruct (try_save (fail_with m doc)) as [x | m'] eqn:Hx;
      [| discriminate].
    injection H as <-. now apply (Hfail m). }
  unfold height_settle, height_inner in Hs.
  destruct (code_is_zero (code e) && nonempty (pythonOutput e)).
  - destruct (height_try now (pythonOutput e) doc) as [r0 [u | m]] eqn:Htry.
    + destruct (try_save r0) as [x | m] eqn:Hx.
      * injection Hs as <-. apply try_save_inv in Hx as [-> _].
        destruct (height_try_ret _ _ _ _ _ Htry)
          as (Hst & Hpop & Hid & He & _).
        repeat split; trivial.
        -- now rewrite Hst.
        -- intro H. unfold error_populated in H.
           rewrite He, Herr in H. discriminate.
        -- intros [_ H]. unfold error_populated in H.
           rewrite He, Herr in H. discriminate.
      * assert (Hx' : try_save (fail_with ("JSON parsing error: " ++ m) r0)
                      = Throw m).
        { unfold try_save in *. rewrite validate_fail_with.
          destruct (validate r0); [discriminate | exact Hx]. }
        rewrite Hx' in Hs. now apply (Houter m).
    + apply height_try_throw in Htry as [_ Hsame].
      rewrite Hsame in Hs.
      destruct (try_save (fail_with ("JSON parsing error: " ++ m) doc))
        as [x | m'] eqn:Hx.
      * injection Hs as <-. now apply (Hfail _ _ Hx).
      * now apply (Houter m').
  - destruct (try_save (fail_with _ doc)) as [x | m'] eqn:Hx.
    + injection Hs as <-. now apply (Hfail _ _ Hx).
    + now apply (Houter m').
Qed.

(** ** Admission leaves a fresh job behind *)

Ltac refused := left; split; [reflexivity | intros ? ?; discriminate].
Ltac admitted := right; do 2 eexists; repeat split.

Lemma estimateBuildingHeights_shape req now rnd s :
  admitted_shape s (estimateBuildingHeights req now rnd s).
Proof.
  unfold estimateBuildingHeights.
  destruct (hr_coordinates req) as [c|]; [| refused].
  destruct (height_bounds c) as [b|]; [| refused].
  destruct (Rgtb (areaSize b) 100); [refused | admitted].
Qed.

(** The deforestation, mining and fire controllers build a document
    without [confidence]: the store refuses it, the reply is 400 or 500
    and nothing is stored. *)
Lemma analyzeDeforestation_refuses req now rnd s :
  fst (analyzeDeforestation req now rnd s) = s
  /\ exists m, snd (analyzeDeforestation req now rnd s) = Bad400 m
               \/ snd (analyzeDeforestation req now rnd s) = Error500 m.
Proof.
  unfold analyzeDeforestation.
  destruct (br_bounds req) as [b|]; [| split; [| eexists; left]; reflexivity].
  destruct (Rgeb (minLat b) (maxLat b) || Rgeb (minLng b) (maxLng b));
    [split; [| eexists; left]; reflexivity |].
  destruct (Rgtb (areaSize b) 10000);
    [split; [| eexists; left]; reflexivity |].
  split; [| eexists; right]; reflexivity.
Qed.

Lemma detectMiningActivities_refuses req now rnd s :
  fst (detectMiningActivities req now rnd s) = s
  /\ exists m, snd (detectMiningActivities req now rnd s) = Bad400 m
               \/ snd (detectMiningActivities req now rnd s) = Error500 m.
Proof.
  unfold detectMiningActivities.
  destruct (br_bounds req) as [b|]; [| split; [| eexists; left]; reflexivity].
  destruct (Rgeb (minLat b) (maxLat b) || Rgeb (minLng b) (maxLng b));
    [split; [| eexists; left]; reflexivity |].
  destruct (Rgtb (areaSize b) 5000);
    [split; [| eexists; left]; reflexivity |].
  split; [| eexists; right]; reflexivity.
Qed.

Lemma detectForestFires_refuses req now rnd s :
  fst (detectForestFires req now rnd s) = s
  /\ exists m, snd (detectForestFires req now rnd s) = Bad400 m
               \/ snd (detectForestFires req now rnd s) = Error500 m.
Proof.
  unfold detectForestFires.
  destruct (br_bounds req) as [b|]; [| split; [| eexists; left]; reflexivity].
  destruct (Rgeb (minLat b) (maxLat b) || Rgeb (minLng b) (maxLng b));
    [split; [| eexists; left]; reflexivity |].
  destruct (Rgtb (areaSize b) 50000);
    [split; [| eexists; left]; reflexivity |].
  split; [| eexists; right]; reflexivity.
Qed.

(** The segmentation controller builds a document without
    [processingId]: the store refuses it, so that neither a record nor
    an alert is created and the reply is 400 or 500. *)
Lemma processGeographicArea_refuses req p now s alerts :
  fst (processGeographicArea req p now s alerts) = (s, alerts)
  /\ exists m, snd (processGeographicArea req p now s alerts) = Bad400 m
               \/ snd (processGeographicArea req p now s alerts)
                  = Error500 m.
Proof.
  unfold processGeographicArea.
  destruct (ar_bounds req) as [[|a [|b [|c [|d [|x l]]]]]|];
    try (split; [| eexists; left]; reflexivity).
  destruct (Rgeb a c || Rgeb b d);
    [split; [| eexists; left]; reflexivity |].
  destruct (Rgtb (calculateAreaSize a b c d) 1000);
    [split; [| eexists; left]; reflexivity |].
  destruct (processAreaWithSatelliteData p) as [result | m];
    [| split; [| eexists; right]; reflexivity].
  match goal with
  | |- context [save_document ?r s] =>
      destruct (save_document_without_id r s eq_refl) as [m ->]
  end.
  split; [| eexists; right]; reflexivity.
Qed.

(** The batch path appends chunk documents, all untouched. *)
Lemma batchHeightEstimation_store req now rnd s :
  let s' := fst (batchHeightEstimation req now rnd s) in
  exists chunks, s' = (s ++ chunks)%list /\ Forall record_ok chunks.
Proof.
  cbv zeta.
  destruct (bq_buildings req) as [bs|] eqn:Hbs.
  - destruct (Nat.eq_dec (List.length bs) 0) as [H0 | H0].
    + exists []. rewrite app_nil_r. split; [| constructor].
      unfold batchHeightEstimation. rewrite Hbs, H0. reflexivity.
    + destruct (le_lt_dec (List.length bs) 1000) as [H1 | H1].
      * rewrite (batch_accepted req bs now rnd s Hbs) by lia.
        eexists. split; [reflexivity |].
        apply Forall_forall. intros r Hin.
        apply in_map_iff in Hin as [j [<- _]].
        split; cbn; discriminate.
      * exists []. rewrite app_nil_r. split; [| constructor].
        unfold batchHeightEstimation. rewrite Hbs.
        destruct (Nat.eqb (List.length bs) 0) eqn:E;
          [apply Nat.eqb_eq in E; lia |].
        apply Nat.ltb_lt in H1. now rewrite H1.
  - exists []. rewrite app_nil_r. split; [| constructor].
    unfold batchHeightEstimation. now rewrite Hbs.
Qed.

(** ** The invariant *)

Lemma Inv_initial : Inv initial.
Proof. repeat split; constructor. Qed.

Lemma proc_ok_app (s extra : Store) (p : Proc) :
  proc_ok s p -> proc_ok (s ++ extra)%list p.
Proof.
  intros [H1 H2]. split; [now apply findOne_app_l | exact H2].
Qed.

Lemma Inv_append (sys : System) (extra : Store) (alerts : list Alert) :
  Inv sys -> Forall record_ok extra ->
  Inv (mkSystem (sys_store sys ++ extra)%list alerts (sys_procs sys)).
Proof.
  intros [I1 [I2 I3]] Hextra. repeat split; cbn.
  - apply Forall_app. now split.
  - eapply Forall_impl; [| exact I2]. intros p. apply proc_ok_app.
  - exact I3.
Qed.

Lemma Inv_same (sys : System) (alerts : list Alert) :
  Inv sys -> Inv (mkSystem (sys_store sys) alerts (sys_procs sys)).
Proof. intro H. exact H. Qed.

Lemma proc_ids_stored (s : Store) (procs : list Proc) (id : string) :
  Forall (proc_ok s) procs -> In id (map p_id procs) -> In id (ids s).
Proof.
  intros Hall Hin. apply in_map_iff in Hin as [p [<- Hp]].
  rewrite Forall_forall in Hall. destruct (Hall p Hp) as [Hf _].
  eapply findOne_in_ids; eassumption.
Qed.

Lemma spawn_Inv (sys : System) (res : Store * Response) :
  Inv sys ->
  admitted_shape (sys_store sys) res ->
  unique_ids (fst res) ->
  Inv (spawn sys res) /\ sys_store (spawn sys res) = fst res.
Proof.
  intros HI [[Hs Hno] | [doc [id [-> [Hid [Hst Hp]]]]]] Huniq.
  - assert (E : spawn sys res
                = mkSystem (fst res) (sys_alerts sys) (sys_procs sys)).
    { unfold spawn. destruct (snd res) eqn:Hr; try reflexivity.
      now elim (Hno processingId0 status0). }
    rewrite E, Hs. split; [| reflexivity].
    destruct sys; exact HI.
  - unfold spawn. cbn [fst snd] in *. rewrite created_by_insert.
    split; [| reflexivity].
    destruct HI as [I1 [I2 I3]]. unfold insert in *.
    pose proof (fresh_of_unique id (sys_store sys) doc Huniq Hid) as Hfresh.
    repeat split; cbn.
    + apply Forall_app. split; [exact I1 |].
      constructor; [| constructor].
      destruct Hp as [Hres Herr]. split; intro H; congruence.
    + apply Forall_app. split.
      * eapply Forall_impl; [| exact I2]. intros p. apply proc_ok_app.
      * constructor; [| constructor].
        repeat split; cbn; try assumption; try apply Hp.
        now apply findOne_app_r.
    + rewrite map_app. cbn.
      apply NoDup_app; [exact I3 | repeat constructor; intros [] |].
      intros x Hx [<- | []]. apply Hfresh.
      eapply proc_ids_stored; eassumption.
Qed.

Lemma take_proc_some (id : string) (procs : list Proc) (p : Proc)
    (rest : list Proc) :
  take_proc id procs = Some (p, rest) ->
  p_id p = id /\ In p procs
  /\ (forall q, In q rest -> In q procs)
  /\ (NoDup (map p_id procs) ->
      NoDup (map p_id rest) /\ ~ In id (map p_id rest)).
Proof using Type.
  forget_runtime.
  revert rest. induction procs as [|x procs IH]; intros rest; simpl;
    [discriminate |].
  destruct (String.eqb (p_id x) id) eqn:Hx.
  - intro H. injection H as <- <-. apply String.eqb_eq in Hx.
    repeat split; try tauto.
    + now apply NoDup_cons_iff in H.
    + apply NoDup_cons_iff in H as [H _]. now rewrite <- Hx.
  - destruct (take_proc id procs) as [[q rest'] |]; [| discriminate].
    intro H. injection H as <- <-.
    destruct (IH rest' eq_refl) as [H1 [H2 [H3 H4]]].
    apply String.eqb_neq in Hx.
    repeat split; try tauto.
    + intros q' [<- | Hq]; [now left | right; now apply H3].
    + cbn in *. apply NoDup_cons_iff in H as [Hn Hd].
      destruct (H4 Hd) as [H5 _]. constructor; [| exact H5].
      intro Hin. apply Hn.
      apply in_map_iff in Hin as [q' [Hq1 Hq2]].
      apply in_map_iff. exists q'. split; [exact Hq1 | now apply H3].
    + cbn in *. apply NoDup_cons_iff in H as [_ Hd].
      destruct (H4 Hd) as [_ H6]. intros [Hin | Hin]; [congruence | tauto].
Qed.

(** With the document of the job in the store, the callback saves what
    [height_settle] computes. *)
Lemma on_close_settle (id : string) (doc : SegmentationResult)
    (now : Z) (e : ProcessExit) (s : Store) :
  findOne id s = Some doc ->
  estimateBuildingHeights_close id now e s
  = save_if (height_settle now e doc) s.
Proof.
  intro Hf. unfold estimateBuildingHeights_close. now rewrite Hf.
Qed.

Lemma spawn_store (sys : System) (res : Store * Response) :
  sys_store (spawn sys res) = fst res.
Proof.
  unfold spawn. destruct (snd res); try reflexivity.
  destruct (created_by (sys_store sys) (fst res)) as [|doc [|x l]];
    reflexivity.
Qed.

Lemma admitted_shape_app (s : Store) (res : Store * Response) :
  admitted_shape s res -> exists extra, fst res = (s ++ extra)%list.
Proof.
  intros [[Hs _] | [doc [id [-> _]]]].
  - exists []. now rewrite app_nil_r.
  - exists [doc]. reflexivity.
Qed.

(** Every step either appends documents to the store or saves the
    settled document of one running process. *)
Lemma step_store (ev : Event) (sys : System) :
  Inv sys ->
  (exists extra, sys_store (step ev sys) = (sys_store sys ++ extra)%list)
  \/ (exists p r,
         In p (sys_procs sys)
         /\ processingId r = Some (p_id p)
         /\ sys_store (step ev sys) = update r (sys_store sys)).
Proof.
  intros [I1 [I2 I3]].
  destruct ev as [req now rnd | req now rnd | req now rnd | req now rnd
                 | req p now | req now rnd | id now e | id];
    cbn [step].
  - left. rewrite spawn_store.
    apply admitted_shape_app, estimateBuildingHeights_shape.
  - left. exists []. cbn [sys_store]. rewrite app_nil_r.
    apply analyzeDeforestation_refuses.
  - left. exists []. cbn [sys_store]. rewrite app_nil_r.
    apply detectMiningActivities_refuses.
  - left. exists []. cbn [sys_store]. rewrite app_nil_r.
    apply detectForestFires_refuses.
  - left. exists []. rewrite app_nil_r.
    destruct (processGeographicArea_refuses req p now (sys_store sys)
                (sys_alerts sys)) as [H _].
    destruct (processGeographicArea req p now (sys_store sys)
                (sys_alerts sys)) as [[s' alerts'] resp].
    cbn [fst sys_store] in *. congruence.
  - left. cbn [sys_store].
    destruct (batchHeightEstimation_store req now rnd (sys_store sys))
      as [chunks [H _]].
    now exists chunks.
  - destruct (take_proc id (sys_procs sys)) as [[p rest] |] eqn:Ht.
    + apply take_proc_some in Ht as [Hid [Hin _]]. subst id.
      rewrite Forall_forall in I2.
      destruct (I2 p Hin) as [Hf [Hpid [Hst Hp]]].
      cbn [sys_store]. rewrite (on_close_settle _ _ _ _ _ Hf).
      destruct (height_settle now e (p_doc p)) as [r |] eqn:Hs.
      * right. exists p, r. split; [exact Hin |]. split; [| reflexivity].
        destruct (settle_shape _ _ _ _ Hp Hs) as [H1 _]. congruence.
      * left. exists []. cbn. now rewrite app_nil_r.
    + left. exists []. now rewrite app_nil_r.
  - left. exists []. now rewrite app_nil_r.
Qed.

(** A record in a terminal state is never touched again. *)
Lemma step_keeps (ev : Event) (sys : System) (r : SegmentationResult) :
  Inv sys ->
  In r (sys_store sys) -> terminal (status r) = true ->
  In r (sys_store (step ev sys)).
Proof.
  intros HI Hin Hterm.
  destruct (step_store ev sys HI) as [[extra ->] | [p [r' [Hp [Hid ->]]]]].
  - apply in_or_app. now left.
  - destruct HI as [_ [I2 _]]. rewrite Forall_forall in I2.
    destruct (I2 p Hp) as [Hf [_ [Hst _]]].
    eapply update_keeps; try eassumption.
    intros ->. rewrite Hst in Hterm. discriminate.
Qed.

Lemma step_lookup (ev : Event) (sys : System) (id : string)
    (r : SegmentationResult) :
  Inv sys ->
  findOne id (sys_store sys) = Some r -> terminal (status r) = true ->
  findOne id (sys_store (step ev sys)) = Some r.
Proof.
  intros HI Hf Hterm.
  destruct (step_store ev sys HI) as [[extra ->] | [p [r' [Hp [Hid ->]]]]].
  - now apply findOne_app_l.
  - destruct HI as [_ [I2 _]]. rewrite Forall_forall in I2.
    destruct (I2 p Hp) as [Hfp [_ [Hst _]]].
    rewrite (findOne_update_other _ id _ _ Hid); [exact Hf |].
    intros ->. rewrite Hfp in Hf. injection Hf as E.
    rewrite E in Hst. rewrite Hst in Hterm. discriminate.
Qed.

Lemma step_Inv (ev : Event) (sys : System) :
  Inv sys -> unique_ids (sys_store (step ev sys)) -> Inv (step ev sys).
Proof.
  intros HI Huniq.
  destruct ev as [req now rnd | req now rnd | req now rnd | req now rnd
                 | req p now | req now rnd | id now e | id];
    cbn [step] in *.
  - rewrite spawn_store in Huniq.
    now apply spawn_Inv; [| apply estimateBuildingHeights_shape |].
  - destruct (analyzeDeforestation_refuses req now rnd (sys_store sys))
      as [-> _]. now apply Inv_same.
  - destruct (detectMiningActivities_refuses req now rnd (sys_store sys))
      as [-> _]. now apply Inv_same.
  - destruct (detectForestFires_refuses req now rnd (sys_store sys))
      as [-> _]. now apply Inv_same.
  - destruct (processGeographicArea_refuses req p now (sys_store sys)
                (sys_alerts sys)) as [H _].
    destruct (processGeographicArea req p now (sys_store sys)
                (sys_alerts sys)) as [[s' alerts'] resp].
    cbn [fst] in H. injection H as -> ->. now apply Inv_same.
  - destruct (batchHeightEstimation_store req now rnd (sys_store sys))
      as [chunks [-> Hok]].
    now apply Inv_append.
  - destruct (take_proc id (sys_procs sys)) as [[p rest] |] eqn:Ht;
      [| exact HI].
    destruct HI as [I1 [I2 I3]].
    apply take_proc_some in Ht as [Hid [Hin [Hrest Hnd]]]. subst id.
    destruct (Hnd I3) as [Hnd1 Hnd2].
    pose proof I2 as I2'. rewrite Forall_forall in I2'.
    destruct (I2' p Hin) as [Hf [Hpid [Hst Hp]]].
    rewrite (on_close_settle _ _ _ _ _ Hf).
    destruct (height_settle now e (p_doc p)) as [r |] eqn:Hs;
      cbn [save_if].
    + destruct (settle_shape _ _ _ _ Hp Hs) as [H1 [_ [H3 _]]].
      rewrite Hpid in H1.
      repeat split; cbn [sys_store sys_procs].
      * apply Forall_forall. intros x Hx.
        apply update_in in Hx as [-> | Hx]; [exact H3 |].
        rewrite Forall_forall in I1. now apply I1.
      * apply Forall_forall. intros q Hq.
        destruct (I2' q (Hrest q Hq)) as [Hfq Hq2].
        split; [| exact Hq2].
        rewrite (findOne_update_other _ (p_id q) _ _ H1); [exact Hfq |].
        intro E. apply Hnd2. rewrite <- E. now apply in_map.
      * exact Hnd1.
    + repeat split; cbn [sys_store sys_procs]; try assumption.
      apply Forall_forall. intros q Hq. now apply I2', Hrest.
  - exact HI.
Qed.

(** ** Runs *)

Lemma run_app (evs more : list Event) (sys : System) :
  run (evs ++ more) sys = run more (run evs sys).
Proof.
  revert sys. induction evs as [|ev evs IH]; intro sys; simpl;
    [reflexivity | apply IH].
Qed.

Lemma run_Inv (evs : list Event) :
  forall sys, Inv sys -> index_respected evs sys -> Inv (run evs sys).
Proof.
  induction evs as [|ev evs IH]; intros sys HI Hidx; simpl in *.
  - exact HI.
  - destruct Hidx as [Hu Hidx]. apply IH; [| exact Hidx].
    now apply step_Inv.
Qed.

Lemma run_keeps (evs : list Event) (r : SegmentationResult) :
  forall sys, Inv sys -> index_respected evs sys ->
    In r (sys_store sys) -> terminal (status r) = true ->
    In r (sys_store (run evs sys)).
Proof.
  induction evs as [|ev evs IH]; intros sys HI Hidx Hin Hterm; simpl in *.
  - exact Hin.
  - destruct Hidx as [Hu Hidx].
    apply IH; try assumption.
    + now apply step_Inv.
    + now apply step_keeps.
Qed.

Lemma run_lookup (evs : list Event) (id : string) (r : SegmentationResult) :
  forall sys, Inv sys -> index_respected evs sys ->
    findOne id (sys_store sys) = Some r -> terminal (status r) = true ->
    findOne id (sys_store (run evs sys)) = Some r.
Proof.
  induction evs as [|ev evs IH]; intros sys HI Hidx Hf Hterm; simpl in *.
  - exact Hf.
  - destruct Hidx as [Hu Hidx].
    apply IH; try assumption.
    + now apply step_Inv.
    + now apply step_lookup.
Qed.

(** C9: in every state the orchestrator reaches, with identifiers kept
    unique by the store, each Job Record carries a result only when it
    is [completed] and an error only when it is [failed], never both; a
    record that has reached [completed] or [failed] is left exactly as
    it is by every later event, so it never returns to [queued] or
    [processing]; and polling it, any number of times and whatever else
    happens in between, finds the same record and returns the same
    reply, polling itself changing nothing. *)
Theorem job_record_lifecycle (evs : list Event) :
  index_respected evs initial ->
  let sys := run evs initial in
  (forall r, In r (sys_store sys) ->
     (result_populated r = true -> status r = completed)
     /\ (error_populated r = true -> status r = failed)
     /\ ~ (result_populated r = true /\ error_populated r = true))
  /\ (forall more r,
        index_respected more sys ->
        In r (sys_store sys) -> terminal (status r) = true ->
        In r (sys_store (run more sys)))
  /\ (forall more id r,
        index_respected more sys ->
        findOne id (sys_store sys) = Some r -> terminal (status r) = true ->
        findOne id (sys_store (run more sys)) = Some r
        /\ getHeightResults id (sys_store (run more sys))
           = getHeightResults id (sys_store sys))
  /\ (forall id, step (EvPoll id) sys = sys).
Proof.
  intros Hidx sys.
  assert (HI : Inv sys) by (apply run_Inv; [apply Inv_initial | exact Hidx]).
  split; [| split; [| split]].
  - intros r Hin. destruct HI as [I1 _]. rewrite Forall_forall in I1.
    destruct (I1 r Hin) as [H1 H2]. repeat split; try assumption.
    intros [Hr He]. rewrite (H1 Hr) in H2. specialize (H2 He).
    discriminate.
  - intros more r Hmore Hin Hterm. now apply run_keeps.
  - intros more id r Hmore Hf Hterm.
    pose proof (run_lookup more id r sys HI Hmore Hf Hterm) as Hl.
    split; [exact Hl |].
    unfold getHeightResults. now rewrite Hl, Hf.
  - reflexivity.
Qed.

(** ** Height requests for a point and a radius *)

Lemma Rnonzero_true (x : R) : Rnonzero x = true <-> x <> 0%R.
Proof.
  unfold Rnonzero. destruct (Req_dec_T x 0); split; intro H; try easy.
Qed.

Lemma height_bounds_point (lat lng : R) (radius : option R) :
  lat <> 0%R -> lng <> 0%R ->
  height_bounds (mkCoordinates None (Some lat) (Some lng) radius)
  = Some (mkBounds (fl_sub lat (fl_div (effective_radius radius) 111000))
                   (fl_sub lng (fl_div (effective_radius radius) 111000))
                   (fl_add lat (fl_div (effective_radius radius) 111000))
                   (fl_add lng (fl_div (effective_radius radius) 111000))).
Proof.
  intros Hlat Hlng. unfold height_bounds; cbn.
  apply Rnonzero_true in Hlat. apply Rnonzero_true in Hlng.
  rewrite Hlat, Hlng. cbn.
  unfold effective_radius. destruct radius as [r|]; cbn; [| reflexivity].
  now destruct (Rnonzero r).
Qed.

(** X1: a building-height request for a point off the equator and the
    prime meridian is handled as the request for the square box that
    reaches [radius / 111000] degrees from the point on each side, the
    radius being 1000 metres when it is absent or zero: the reply and
    the stored record are the same, and the request is refused as too
    large exactly when the area of that box exceeds 100. *)
Theorem height_point_admission (lat lng : R) (radius : option R)
    (userId : option string) (now : Z) (rnd : string) (s : Store) :
  lat <> 0%R -> lng <> 0%R ->
  let d := fl_div (effective_radius radius) 111000%R in
  let box :=
    mkBounds (fl_sub lat d) (fl_sub lng d) (fl_add lat d) (fl_add lng d) in
  let res :=
    estimateBuildingHeights
      (point_request (Some lat) (Some lng) radius userId) now rnd s in
  res = estimateBuildingHeights
          (mkHeightRequest (Some (mkCoordinates (Some box) None None None))
             userId) now rnd s
  /\ (is_AreaTooLarge (snd res) = true <-> (areaSize box > 100)%R)
  /\ (is_AreaTooLarge (snd res) = true -> fst res = s)
  /\ ((areaSize box <= 100)%R ->
      exists doc,
        res = (insert doc s,
               Accepted202 ("height_" ++ show_Z now ++ "_" ++ rnd)
                 "processing")
        /\ status doc = processing /\ coord_bounds doc = Some box).
Proof.
  intros Hlat Hlng d box res. subst res.
  unfold estimateBuildingHeights, point_request. cbn [hr_coordinates].
  rewrite (height_bounds_point lat lng radius Hlat Hlng). fold d. fold box.
  cbn [height_bounds c_bounds].
  split; [reflexivity |].
  area_cases box 100%R; simpl.
  - repeat split; try easy. intro; lra.
  - repeat split; try easy; try (intro; lra).
    intros _. eexists; repeat split.
Qed.

(** X2: a building-height request for a point whose latitude or
    longitude is missing or exactly 0 (a point on the equator or on the
    prime meridian) is refused as an invalid coordinates format, and
    nothing is stored. *)
Theorem height_point_on_axis_refused (lat lng radius : option R)
    (userId : option string) (now : Z) (rnd : string) (s : Store) :
  num_given lat = false \/ num_given lng = false ->
  estimateBuildingHeights (point_request lat lng radius userId) now rnd s
  = (s, Bad400 "Invalid coordinates format. Provide either 'bounds' object or 'lat'/'lng' with optional 'radius'").
Proof.
  intros H. unfold estimateBuildingHeights, point_request, height_bounds.
  cbn [hr_coordinates c_bounds c_lat c_lng].
  destruct lat as [lat|], lng as [lng|]; try reflexivity.
  cbn in H. destruct H as [H | H]; rewrite H; cbn; try reflexivity.
  now rewrite andb_false_r.
Qed.

(** ** What the height callback leaves behind *)

Lemma mapM_length {A B : Type} (f : A -> Exc B) (l : list A) (xs : list B) :
  mapM f l = Ret xs -> Forall2 (fun a b => f a = Ret b) l xs.
Proof.
  revert xs. induction l as [|a l IH]; intros xs; simpl.
  - intro H. injection H as <-. constructor.
  - destruct (f a) as [b|m] eqn:Hb; simpl; [| discriminate].
    destruct (mapM f l) as [bs|m] eqn:Hbs; simpl; [| discriminate].
    intro H. injection H as <-. constructor; [exact Hb | now apply IH].
Qed.

Lemma building_to_detection_shape (building d : JsVal) :
  building_to_detection building = Ret d ->
  opt_get d "class" = JStr "urban_expansion"
  /\ exists confidence,
       get building "confidence" = Ret confidence
       /\ opt_get d "confidence" = Number_mul confidence (JNum 100).
Proof.
  unfold building_to_detection.
  destruct (get building "confidence") as [c|m]; simpl; [| discriminate].
  repeat match goal with
         | |- context [bind ?m _] => destruct m as [?|?]; simpl;
                                     [| discriminate]
         end.
  intro H. injection H as <-. split; [reflexivity |].
  exists c. split; reflexivity.
Qed.

Lemma code_is_zero_true (c : option Z) :
  code_is_zero c = true <-> c = Some 0%Z.
Proof.
  unfold code_is_zero. destruct c as [z|]; [| easy].
  rewrite Z.eqb_eq. split; congruence.
Qed.

(** The record a callback leaves for a document that admission stored:
    the completed one that the inner [try] built and the store
    accepted, or the stored one marked failed. *)
Lemma height_settle_cases (now : Z) (e : ProcessExit)
    (doc : SegmentationResult) :
  schema_accepts doc = true ->
  result_populated doc = false ->
  exists r,
    height_settle now e doc = Some r
    /\ processingId r = processingId doc
    /\ createdAt r = createdAt doc
    /\ ((exists m, r = fail_with m doc)
        \/ (status r = completed
            /\ height_try now (pythonOutput e) doc = (r, Ret tt)
            /\ validate r = Ret tt
            /\ code e = Some 0%Z /\ pythonOutput e <> "")).
Proof.
  intros Hschema Hfresh.
  rewrite (height_settle_spec now e doc Hschema Hfresh).
  eexists. split; [reflexivity |].
  destruct (code_is_zero (code e) && nonempty (pythonOutput e)) eqn:Hc;
    [| repeat split; left; now eexists].
  apply andb_true_iff in Hc as [Hz Hn].
  apply code_is_zero_true in Hz. apply nonempty_true in Hn.
  destruct (height_try now (pythonOutput e) doc) as [r [[] | m]] eqn:Htry;
    [| repeat split; left; now eexists].
  destruct (validate r) as [[] | m] eqn:Hv;
    [| repeat split; left; now eexists].
  destruct (height_try_ret _ _ _ _ _ Htry) as (Hst & _ & Hid & _ & _).
  split; [exact Hid |]. split.
  - revert Htry. unfold height_try.
    destruct (JSON_parse (pythonOutput e)) as [results | m];
      [| discriminate].
    destruct (get results "buildings") as [bld | m]; [| discriminate].
    destruct (array_map (Js.or bld (JArr [])) building_to_detection)
      as [dets | m]; [| discriminate].
    intro H. injection H as <-. reflexivity.
  - right. repeat split; trivial.
Qed.

(** X3: whatever its process did, a building-height job whose record is
    as admission stored it is settled by the callback: the record is
    then [completed] or [failed], never [processing]; when [failed] it
    carries an error text and no result; it is [completed] only if the
    process exited with code 0 and wrote a non-empty output that
    [JSON.parse] accepts, and then it carries a result that passed the
    validation of the store. *)
Theorem height_always_settles (id : string) (now : Z) (e : ProcessExit)
    (doc : SegmentationResult) (s : Store) :
  findOne id s = Some doc ->
  schema_accepts doc = true ->
  result_populated doc = false ->
  exists r,
    findOne id (estimateBuildingHeights_close id now e s) = Some r
    /\ terminal (status r) = true
    /\ (status r = failed ->
        error_populated r = true /\ result_populated r = false)
    /\ (status r = completed ->
        code e = Some 0%Z /\ pythonOutput e <> ""
        /\ (exists results, JSON_parse (pythonOutput e) = Ret results)
        /\ result_populated r = true
        /\ validate r = Ret tt).
Proof.
  intros Hfind Hschema Hfresh.
  destruct (height_settle_cases now e doc Hschema Hfresh)
    as (r & Hs & Hid & _ & Hcases).
  destruct (findOne_some _ _ _ Hfind) as [_ Hdoc].
  exists r. split.
  { apply height_close_record with doc; congruence. }
  destruct Hcases as [[m ->] | (Hst & Htry & Hv & Hcode & Hout)].
  - split; [reflexivity |]. split; [| discriminate].
    intros _. split; [reflexivity | exact Hfresh].
  - rewrite Hst. split; [reflexivity |]. split; [discriminate |].
    intros _. destruct (height_try_ret _ _ _ _ _ Htry)
      as (_ & Hpop & _ & _ & Hparse).
    repeat split; trivial.
Qed.

(** X4: a record the building-height callback leaves [completed] holds
    exactly one detection per element of [results.buildings] (none when
    that key is missing), in order, each of class [urban_expansion] and
    with the confidence of the building times 100; the detections and
    the summary passed the validation of the store, and the error of
    the record stays as it was. *)
Theorem height_completed_detections (id : string) (now : Z)
    (e : ProcessExit) (doc r : SegmentationResult) (s : Store) :
  findOne id s = Some doc ->
  schema_accepts doc = true ->
  result_populated doc = false ->
  findOne id (estimateBuildingHeights_close id now e s) = Some r ->
  status r = completed ->
  exists results buildings dets,
    JSON_parse (pythonOutput e) = Ret results
    /\ Js.or (opt_get results "buildings") (JArr []) = JArr buildings
    /\ detections r = JArr dets
    /\ List.length dets = List.length buildings
    /\ Forall2 (fun b d =>
                  opt_get d "class" = JStr "urban_expansion"
                  /\ exists c, get b "confidence" = Ret c
                               /\ opt_get d "confidence"
                                  = Number_mul c (JNum 100))
         buildings dets
    /\ validate_content (JArr dets) (summary r) = Ret tt
    /\ md_error (metadata r) = md_error (metadata doc).
Proof.
  intros Hfind Hschema Hfresh Hafter Hcompleted.
  destruct (height_settle_cases now e doc Hschema Hfresh)
    as (r' & Hs & Hid & _ & Hcases).
  destruct (findOne_some _ _ _ Hfind) as [_ Hdoc].
  rewrite (height_close_record id now e doc r' s Hfind Hs) in Hafter
    by congruence.
  injection Hafter as ->.
  destruct Hcases as [[m ->] | (_ & Htry & Hv & _ & _)];
    [discriminate |].
  assert (Hschema' : schema_accepts r = true).
  { unfold validate in Hv. destruct (schema_accepts r); [reflexivity |].
    discriminate. }
  destruct (height_try_ret _ _ _ _ _ Htry) as (_ & Hpop & _ & Herr & _).
  unfold validate in Hv. rewrite Hschema', Hpop in Hv.
  revert Htry Hv. unfold height_try.
  destruct (JSON_parse (pythonOutput e)) as [results | m];
    [| discriminate].
  destruct (get results "buildings") as [bld | m] eqn:Hb; [| discriminate].
  assert (Hbld : bld = opt_get results "buildings").
  { destruct results; cbn in Hb; try discriminate;
      injection Hb as <-; reflexivity. }
  destruct (array_map (Js.or bld (JArr [])) building_to_detection)
    as [dets | m] eqn:Hmap; [| discriminate].
  intros Htry Hv. injection Htry as <-. cbn in Hv.
  unfold array_map in Hmap.
  destruct (Js.or bld (JArr [])) as [| | | | | |items|] eqn:Hor;
    try discriminate.
  destruct (mapM building_to_detection items) as [xs|m] eqn:Hxs;
    cbn in Hmap; [| discriminate].
  injection Hmap as <-.
  apply mapM_length in Hxs.
  exists results, items, xs. rewrite <- Hbld.
  split; [reflexivity |]. split; [exact Hor |].
  split; [reflexivity |].
  split; [symmetry; eapply Forall2_length; eassumption |].
  split; [| split; [exact Hv | reflexivity]].
  eapply Forall2_impl; [| exact Hxs].
  intros b d Hd. now apply building_to_detection_shape.
Qed.

(** ** Admission, polling and settlement together *)

(** What an accepted height request stored. *)
Lemma estimateBuildingHeights_stored (req : HeightRequest) (now : Z)
    (rnd : string) (s s' : Store) (id st : string) :
  estimateBuildingHeights req now rnd s = (s', Accepted202 id st) ->
  exists doc,
    s' = insert doc s
    /\ processingId doc = Some id
    /\ status doc = processing
    /\ createdAt doc = now
    /\ summary doc = JUndefined
    /\ detections doc = JArr []
    /\ md_error (metadata doc) = None
    /\ schema_accepts doc = true.
Proof.
  unfold estimateBuildingHeights.
  destruct (hr_coordinates req) as [c|]; [| discriminate].
  destruct (height_bounds c) as [b|]; [| discriminate].
  destruct (Rgtb (areaSize b) 100); [discriminate |].
  cbn. intro H. injection H as <- <- _.
  eexists. repeat split.
Qed.

(** X5: when a building-height request is accepted under an identifier
    the store did not hold yet, a poll by that identifier right after
    admission answers [processing] with an empty summary and no
    buildings, and a poll after the process has closed, however it
    ended, answers [completed] or [failed] for the same record. *)
Theorem height_round_trip (req : HeightRequest) (now now' : Z)
    (rnd : string) (s s' : Store) (id st : string) (e : ProcessExit) :
  estimateBuildingHeights req now rnd s = (s', Accepted202 id st) ->
  ~ In id (ids s) ->
  (exists md, getHeightResults id s'
              = Poll200 id processing (JObj []) (JArr []) md now)
  /\ (exists r,
         getHeightResults id (estimateBuildingHeights_close id now' e s')
         = Poll200 id (status r) (read_summary r) (detections r)
             (metadata r) now
         /\ terminal (status r) = true).
Proof.
  intros Hadm Hfresh.
  destruct (estimateBuildingHeights_stored _ _ _ _ _ _ _ Hadm)
    as (doc & -> & Hid & Hst & Hnow & Hsum & Hdet & _ & Hschema).
  assert (Hf : findOne id (insert doc s) = Some doc)
    by (now apply findOne_app_r).
  assert (Hpop : result_populated doc = false)
    by (unfold result_populated; now rewrite Hsum, Hdet).
  split.
  - unfold getHeightResults, read_summary.
    rewrite Hf, Hst, Hsum, Hdet, Hnow. now eexists.
  - destruct (height_settle_cases now' e doc Hschema Hpop)
      as (r & Hs & Hrid & Hcreated & Hcases).
    exists r. split.
    + unfold getHeightResults.
      rewrite (height_close_record id now' e doc r _ Hf Hs)
        by congruence.
      now rewrite Hcreated, Hnow.
    + destruct Hcases as [[m ->] | [-> _]]; reflexivity.
Qed.

(** ** Identifiers of the chunks of a batch *)

Lemma to_uint_nonnil (n : nat) : Nat.to_uint n <> Decimal.Nil.
Proof.
  rewrite <- (DecimalNat.Unsigned.of_to n) at 1.
  rewrite DecimalNat.Unsigned.to_of. apply DecimalFacts.unorm_nonnil.
Qed.

Lemma show_nat_inj (a b : nat) : show_nat a = show_nat b -> a = b.
Proof.
  unfold show_nat. intro H.
  apply (f_equal NilZero.uint_of_string) in H.
  rewrite !NilZero.usu in H by apply to_uint_nonnil.
  injection H as H. now apply DecimalNat.Unsigned.to_uint_inj.
Qed.

Lemma append_inj_l (p x y : string) : p ++ x = p ++ y -> x = y.
Proof.
  induction p as [|c p IH]; simpl; intro H; [exact H |].
  injection H as H. now apply IH.
Qed.

Lemma batch_created (req : BatchRequest) (now : Z) (rnd : string)
    (s : Store) :
  created_by s (fst (batchHeightEstimation req now rnd s)) = []
  \/ exists bs,
       bq_buildings req = Some bs
       /\ 1 <= List.length bs <= 1000
       /\ created_by s (fst (batchHeightEstimation req now rnd s))
          = map (chunk_at ("batch_height_" ++ show_Z now ++ "_" ++ rnd)
                   (bq_userId req)
                   match bq_priority req with
                   | Some p => p
                   | None => "normal"
                   end now bs)
              (seq 0 ((List.length bs + 49) / 50)).
Proof.
  destruct (bq_buildings req) as [bs|] eqn:Hbs.
  - destruct (Nat.eq_dec (List.length bs) 0) as [H0 | H0].
    + left. unfold batchHeightEstimation. rewrite Hbs, H0. cbn [Nat.eqb fst].
      apply created_by_same.
    + destruct (le_lt_dec (List.length bs) 1000) as [H1 | H1].
      * right. exists bs. split; [reflexivity |]. split; [lia |].
        rewrite (batch_accepted req bs now rnd s Hbs) by lia.
        cbn [fst]. unfold created_by.
        now rewrite skipn_app, skipn_all, Nat.sub_diag.
      * left. unfold batchHeightEstimation. rewrite Hbs.
        destruct (Nat.eqb (List.length bs) 0) eqn:E;
          [apply Nat.eqb_eq in E; lia |].
        apply Nat.ltb_lt in H1. rewrite H1. apply created_by_same.
  - left. unfold batchHeightEstimation. rewrite Hbs. apply created_by_same.
Qed.

(** X6: the chunk records one batch submission stores carry pairwise
    distinct identifiers, so each chunk can be polled on its own. *)
Theorem batch_chunk_ids_distinct (req : BatchRequest) (now : Z)
    (rnd : string) (s : Store) :
  NoDup (ids (created_by s (fst (batchHeightEstimation req now rnd s)))).
Proof.
  destruct (batch_created req now rnd s) as [-> | [bs [_ [_ ->]]]].
  - constructor.
  - unfold ids. rewrite flat_map_concat_map, map_map.
    cbn [chunk_at chunk_record processingId].
    rewrite <- flat_map_concat_map.
    assert (E : forall l,
               flat_map (fun j =>
                 [("batch_height_" ++ show_Z now ++ "_" ++ rnd)
                    ++ "_chunk_" ++ show_nat (50 * j / chunkSize)]) l
               = map (fun j =>
                   ("batch_height_" ++ show_Z now ++ "_" ++ rnd)
                     ++ "_chunk_" ++ show_nat j) l).
    { induction l as [|j l IH]; [reflexivity |].
      cbn [flat_map map app]. now rewrite IH, div_chunk. }
    rewrite E. apply Finite.Injective_map_NoDup; [| apply seq_NoDup].
    intros a b H. apply append_inj_l in H. apply append_inj_l in H.
    now apply show_nat_inj.
Qed.

(** ** Requests whose document the store refuses *)


(** ** Risk classification *)

Lemma count_if_app {A : Type} (p : A -> bool) (l m : list A) :
  count_if p (l ++ m)%list = count_if p l + count_if p m.
Proof. unfold count_if. now rewrite filter_app, length_app. Qed.

Lemma count_if_le {A : Type} (p : A -> bool) (l : list A) :
  count_if p l <= List.length l.
Proof. apply filter_length_le. Qed.

Lemma count_if_pos {A : Type} (p : A -> bool) (l : list A) :
  0 < count_if p l <-> exists x, In x l /\ p x = true.
Proof.
  unfold count_if. split.
  - intro H. destruct (filter p l) as [|x f] eqn:E; [simpl in H; lia |].
    exists x. apply filter_In. rewrite E. now left.
  - intros [x Hx]. apply filter_In in Hx.
    destruct (filter p l); [contradiction | simpl; lia].
Qed.

Lemma count_if_zero {A : Type} (p : A -> bool) (l : list A) :
  count_if p l = 0 <-> forall x, In x l -> p x = false.
Proof.
  split.
  - intros H x Hx. destruct (p x) eqn:E; [| reflexivity].
    assert (0 < count_if p l) by (apply count_if_pos; now exists x). lia.
  - intro H. destruct (Nat.eq_dec (count_if p l) 0) as [E | E]; [exact E |].
    assert (Hpos : 0 < count_if p l) by lia.
    apply count_if_pos in Hpos as [x [Hx Hp]]. rewrite (H x Hx) in Hp.
    discriminate.
Qed.

(** The label as a function of the four counts. *)
Lemma calculateEnvironmentalRisk_counts (ds : list Detection) :
  calculateEnvironmentalRisk (Some ds)
  = let c := count_if (severity_is "critical") ds in
    let h := count_if (severity_is "high") ds in
    let f := count_if (class_is "forest_fire") ds in
    let m := count_if (class_is "mining") ds in
    if Nat.ltb 2 c || Nat.ltb 0 f then Critical
    else if Nat.ltb 0 c || Nat.ltb 2 h || Nat.ltb 1 m then High
    else if Nat.ltb 0 h then Medium
    else Low.
Proof.
  unfold calculateEnvironmentalRisk.
  destruct ds as [|d ds]; [reflexivity |]. reflexivity.
Qed.

Ltac ltb_cases :=
  repeat match goal with
         | |- context [Nat.ltb ?a ?b] =>
             let E := fresh "E" in
             destruct (Nat.ltb a b) eqn:E;
             [apply Nat.ltb_lt in E | apply Nat.ltb_ge in E]
         | H : context [Nat.ltb ?a ?b] |- _ =>
             let E := fresh "E" in
             destruct (Nat.ltb a b) eqn:E;
             [apply Nat.ltb_lt in E | apply Nat.ltb_ge in E]
         end.

Ltac ltb_hyps :=
  repeat match goal with
         | H : Nat.ltb _ _ = true |- _ => apply Nat.ltb_lt in H
         | H : Nat.ltb _ _ = false |- _ => apply Nat.ltb_ge in H
         end.

(** X8: the environmental risk of a detection list is [Critical] as
    soon as one detection is a forest fire; it is [Low] exactly when no
    detection is critical, high or a forest fire and at most one is a
    mining site; and appending detections never lowers it. *)
Theorem environmental_risk_properties (ds more : list Detection) :
  ((exists d, In d ds /\ d_class d = "forest_fire") ->
   calculateEnvironmentalRisk (Some ds) = Critical)
  /\ (calculateEnvironmentalRisk (Some ds) = Low <->
      (forall d, In d ds ->
         d_severity d <> Some "critical" /\ d_severity d <> Some "high"
         /\ d_class d <> "forest_fire")
      /\ count_if (class_is "mining") ds <= 1)
  /\ risk_rank (calculateEnvironmentalRisk (Some ds))
     <= risk_rank (calculateEnvironmentalRisk (Some (ds ++ more)%list)).
Proof.
  rewrite !calculateEnvironmentalRisk_counts. cbv zeta.
  rewrite !count_if_app.
  assert (Hsev : forall v d, severity_is v d = false <-> d_severity d <> Some v).
  { intros v d. unfold severity_is. destruct (d_severity d) as [x|].
    - rewrite String.eqb_neq. split; intro H; congruence.
    - split; [discriminate | reflexivity]. }
  assert (Hcls : forall c d, class_is c d = false <-> d_class d <> c).
  { intros c d. unfold class_is. apply String.eqb_neq. }
  split; [| split].
  - intros [d [Hin Hc]].
    assert (0 < count_if (class_is "forest_fire") ds).
    { apply count_if_pos. exists d. split; [exact Hin |].
      unfold class_is. rewrite Hc. reflexivity. }
    ltb_cases; try reflexivity; lia.
  - split.
    + intro H. ltb_cases; try discriminate.
      split; [| lia]. intros d Hd.
      assert (Hc0 : count_if (severity_is "critical") ds = 0) by lia.
      assert (Hh0 : count_if (severity_is "high") ds = 0) by lia.
      assert (Hf0 : count_if (class_is "forest_fire") ds = 0) by lia.
      rewrite count_if_zero in Hc0, Hh0, Hf0.
      rewrite <- !Hsev, <- Hcls. auto.
    + intros [Hall Hm].
      assert (Hc0 : count_if (severity_is "critical") ds = 0).
      { apply count_if_zero. intros d Hd. apply Hsev. now apply Hall. }
      assert (Hh0 : count_if (severity_is "high") ds = 0).
      { apply count_if_zero. intros d Hd. apply Hsev. now apply Hall. }
      assert (Hf0 : count_if (class_is "forest_fire") ds = 0).
      { apply count_if_zero. intros d Hd. apply Hcls. now apply Hall. }
      rewrite Hc0, Hh0, Hf0. ltb_cases; try reflexivity; lia.
  - ltb_cases; cbn; lia.
Qed.

(** X9: the area risk is [Critical] exactly when the area has a forest
    fire detection or a critical alert, [Low] exactly when it has
    neither, no mining site and at most two deforestation detections,
    and it never decreases when a factor grows. *)
Theorem area_risk_properties (a b : RiskFactors) :
  (calculateAreaRisk a = Critical <->
   0 < rf_forestFire a \/ 0 < rf_criticalAlerts a)
  /\ (calculateAreaRisk a = Low <->
      rf_forestFire a = 0 /\ rf_criticalAlerts a = 0
      /\ rf_mining a = 0 /\ rf_deforestation a <= 2)
  /\ (rf_deforestation a <= rf_deforestation b ->
      rf_mining a <= rf_mining b ->
      rf_forestFire a <= rf_forestFire b ->
      rf_criticalAlerts a <= rf_criticalAlerts b ->
      risk_rank (calculateAreaRisk a) <= risk_rank (calculateAreaRisk b)).
Proof.
  unfold calculateAreaRisk. split; [| split].
  - split; intro H; ltb_cases; cbn in *; try discriminate;
      try reflexivity; lia.
  - split; intro H; ltb_cases; cbn in *; try discriminate;
      try reflexivity; lia.
  - intros. ltb_cases; cbn; lia.
Qed.

(** X10: the recommendation list is never empty and has at most four
    entries; it is the single "area appears stable" entry exactly when
    there is no fire, no critical alert, at most two mining sites and at
    most five deforestation detections, which covers every [Low] area
    but also [Medium] ones; for a [High] or [Critical] area the stable
    entry never appears. *)
Theorem recommendations_properties (rf : RiskFactors) :
  let recs := generateRecommendations rf in
  recs <> []
  /\ List.length recs <= 4
  /\ (recs = [rec_stable] <->
      rf_forestFire rf = 0 /\ rf_criticalAlerts rf = 0
      /\ rf_mining rf <= 2 /\ rf_deforestation rf <= 5)
  /\ (calculateAreaRisk rf = Low -> recs = [rec_stable])
  /\ (In rec_stable recs ->
      calculateAreaRisk rf = Low \/ calculateAreaRisk rf = Medium).
Proof.
  cbv zeta. unfold generateRecommendations, calculateAreaRisk.
  destruct (Nat.ltb 0 (rf_forestFire rf)) eqn:E1;
    destruct (Nat.ltb 2 (rf_mining rf)) eqn:E2;
    destruct (Nat.ltb 5 (rf_deforestation rf)) eqn:E3;
    destruct (Nat.ltb 0 (rf_criticalAlerts rf)) eqn:E4;
    cbn -[rec_fire rec_mining rec_forest rec_urgent rec_stable Nat.ltb];
    ltb_hyps;
    (split; [discriminate |]); (split; [lia |]);
    (split; [split; [intro H;
                     unfold rec_fire, rec_mining, rec_forest, rec_urgent,
                       rec_stable in H;
                     try discriminate H; lia
                    | intro H; try reflexivity; lia] |]);
    (split; [ltb_cases; intro H; try discriminate H; try reflexivity; lia |]);
    intro H;
    unfold rec_fire, rec_mining, rec_forest, rec_urgent, rec_stable in H;
    repeat (destruct H as [H | H]; try discriminate H); try contradiction;
    ltb_cases; auto; lia.
Qed.

Lemma Qgtb_true (a b : Q) : Qgtb a b = true <-> (b < a)%Q.
Proof.
  unfold Qgtb. rewrite negb_true_iff. split; intros H.
  - apply Qnot_le_lt. intros Hle. apply Qle_bool_iff in Hle. congruence.
  - destruct (Qle_bool a b) eqn:E; [ | reflexivity ].
    apply Qle_bool_iff in E. exfalso. exact (Qlt_not_le _ _ H E).
Qed.

Lemma slice_last_short {A : Type} (k : nat) (l : list A) :
  (List.length l <= k)%nat -> slice_last k l = l.
Proof.
  intros H. unfold slice_last.
  replace (List.length l - k)%nat with 0%nat by lia. reflexivity.
Qed.

Lemma slice_last_length {A : Type} (k : nat) (l : list A) :
  List.length (slice_last k l) = Nat.min k (List.length l).
Proof. unfold slice_last. rewrite length_skipn. lia. Qed.

Lemma slice_from_end_length {A : Type} (a b : nat) (l : list A) :
  List.length (slice_from_end a b l)
  = (Nat.min a (List.length l) - Nat.min b (List.length l))%nat.
Proof.
  unfold slice_from_end, slice. rewrite length_firstn, length_skipn. lia.
Qed.

Lemma windows_adjacent {A : Type} (a b : nat) (l : list A) :
  (b <= a)%nat ->
  (slice_from_end a b l ++ slice_last b l)%list = slice_last a l.
Proof.
  intros Hab. unfold slice_from_end, slice_last, slice.
  set (n := List.length l).
  rewrite <- (firstn_skipn (n - b - (n - a)) (skipn (n - a) l)) at 2.
  f_equal. rewrite skipn_skipn. f_equal. lia.
Qed.

Lemma average_with_some {A : Type} (f : A -> Q) (l : list A) :
  l <> [] ->
  average_with f l
  = Some (sum_with f l / inject_Z (Z.of_nat (List.length l)))%Q.
Proof. destruct l; [ congruence | reflexivity ]. Qed.

Lemma length_nil_iff {A : Type} (l : list A) :
  l = [] <-> List.length l = 0%nat.
Proof. destruct l; simpl; split; intros; congruence || lia. Qed.

(** X12: with two or three months of data the trend analysis always
    answers [stable] with a change of zero, whatever the losses are: the
    previous window is empty, its average is not a number, and no
    comparison with it holds. *)
Theorem trend_short_history (monthlyData : list MonthData) :
  (2 <= List.length monthlyData <= 3)%nat ->
  calculateTrendAnalysis monthlyData
  = Trend "stable" (Some 0%Q) (average_with m_forestLoss monthlyData) None.
Proof.
  intros [H2 H3]. unfold calculateTrendAnalysis.
  destruct (Nat.ltb_spec (List.length monthlyData) 2) as [Hlt | _]; [ lia | ].
  rewrite (slice_last_short 3) by exact H3.
  assert (Hp : slice_from_end 6 3 monthlyData = []).
  { apply length_nil_iff. rewrite slice_from_end_length. lia. }
  rewrite Hp. reflexivity.
Qed.

Lemma total_with_fold {A : Type} (f : A -> option nat) (l : list A)
    (acc : option nat) :
  fold_left
    (fun sum x =>
       match sum, f x with
       | Some s, Some v => Some (s + v)%nat
       | _, _ => None
       end) l acc
  = match acc with
    | Some a =>
        if forallb (fun x => match f x with Some _ => true | None => false end) l
        then Some (a + list_sum
                     (map (fun x => match f x with Some v => v | None => 0%nat end)
                        l))%nat
        else None
    | None => None
    end.
Proof.
  revert acc. induction l as [ | x l IH ]; intros acc.
  - destruct acc; cbn [fold_left forallb map list_sum]; [ cbn [list_sum fold_right]; rewrite Nat.add_0_r; reflexivity | reflexivity ].
  - cbn [fold_left forallb map list_sum]. rewrite IH.
    destruct acc as [ a | ]; [ | reflexivity ].
    destruct (f x) as [ v | ]; cbn [andb]; [ | reflexivity ].
    destruct (forallb _ l); [ | reflexivity ].
    cbn [list_sum fold_right]. rewrite Nat.add_assoc. reflexivity.
Qed.

Lemma intensityMap_range (k : string) (v : nat) :
  intensityMap k = Some v -> (v <= 4)%nat.
Proof.
  unfold intensityMap. intros H.
  repeat match type of H with
         | (if ?c then _ else _) = _ => destruct c
         end; inversion H; lia.
Qed.

Lemma intensityMap_none (k : string) :
  intensityMap k = None <-> inherited k = true.
Proof.
  unfold intensityMap. destruct (inherited k).
  - split; reflexivity.
  - split; [ | discriminate ].
    intros H.
    repeat match type of H with
           | (if ?c then _ else _) = _ => destruct c
           end; discriminate.
Qed.

Lemma riskMap_none (k : string) :
  riskMap k = None <-> inherited k = true.
Proof.
  unfold riskMap. destruct (inherited k).
  - split; reflexivity.
  - split; [ | discriminate ].
    intros H.
    repeat match type of H with
           | (if ?c then _ else _) = _ => destruct c
           end; discriminate.
Qed.

Lemma list_sum_bound {A : Type} (g : A -> nat) (b : nat) (l : list A) :
  (forall x, g x <= b)%nat ->
  (list_sum (map g l) <= b * List.length l)%nat.
Proof.
  intros H. induction l as [ | x l IH ]; cbn [map list_sum fold_right List.length].
  - lia.
  - specialize (H x). fold (list_sum (map g l)). lia.
Qed.

Lemma ratio_range (t n b : nat) :
  (0 < n)%nat -> (t <= b * n)%nat ->
  (0 <= inject_Z (Z.of_nat t) / inject_Z (Z.of_nat n)
   <= inject_Z (Z.of_nat b))%Q.
Proof.
  intros Hn Ht.
  assert (Hpos : (0 < inject_Z (Z.of_nat n))%Q).
  { unfold Qlt. cbn. lia. }
  split.
  - apply Qle_shift_div_l; [ exact Hpos | ].
    unfold Qle. cbn. lia.
  - apply Qle_shift_div_r; [ exact Hpos | ].
    rewrite <- inject_Z_mult. rewrite <- Zle_Qle. lia.
Qed.

Lemma forallb_false_iff {A : Type} (p : A -> bool) (l : list A) :
  forallb p l = false <-> exists x, In x l /\ p x = false.
Proof.
  induction l as [ | a l IH ]; cbn [forallb In].
  - split; [ discriminate | intros [x [[] _]] ].
  - rewrite andb_false_iff, IH. split.
    + intros [H | [x [Hin Hx]]].
      * exists a. split; [ left; reflexivity | exact H ].
      * exists x. split; [ right; exact Hin | exact Hx ].
    + intros [x [[E | Hin] Hx]].
      * left. rewrite E. exact Hx.
      * right. exists x. split; assumption.
Qed.

(** X14: the average fire intensity is not a number exactly when some
    entry names an inherited property as its intensity; otherwise it lies
    between 0 and 4. *)
Theorem average_intensity_range (fireHistory : list FireEntry) :
  (calculateAverageIntensity fireHistory = None <->
   exists fire, In fire fireHistory /\ inherited (fe_intensity fire) = true) /\
  (forall q, calculateAverageIntensity fireHistory = Some q ->
             (0 <= q <= 4)%Q).
Proof.
  unfold calculateAverageIntensity, total_with. rewrite total_with_fold.
  set (ok := forallb _ fireHistory).
  assert (Hok : ok = false <->
                exists fire, In fire fireHistory
                             /\ inherited (fe_intensity fire) = true).
  { unfold ok. rewrite forallb_false_iff. split.
    - intros [fire [Hin Hf]]. exists fire. split; [ exact Hin | ].
      apply intensityMap_none.
      destruct (intensityMap (fe_intensity fire)); [ discriminate | reflexivity ].
    - intros [fire [Hin Hf]]. exists fire. split; [ exact Hin | ].
      apply intensityMap_none in Hf. rewrite Hf. reflexivity. }
  destruct (Nat.ltb_spec 0 (List.length fireHistory)) as [ Hn | Hle ].
  - destruct ok eqn:Eok; unfold ratio.
    + split.
      * split; [ discriminate | ].
        intros H. apply Hok in H. discriminate.
      * intros q H. injection H as <-.
        apply (ratio_range _ _ 4 Hn).
        apply list_sum_bound. intros x.
        destruct (intensityMap (fe_intensity x)) as [ v | ] eqn:E;
          [ exact (intensityMap_range _ _ E) | lia ].
    + split.
      * split; [ intros _; apply Hok; reflexivity | reflexivity ].
      * discriminate.
  - assert (E : fireHistory = []) by (apply length_nil_iff; lia).
    split.
    + split; [ discriminate | ].
      intros [x [Hin _]]. rewrite E in Hin. destruct Hin.
    + intros q H. injection H as <-. split; discriminate.
Qed.

Lemma risk_average_spec (l : list FireEntry) :
  risk_average l
  = if negb (Nat.eqb (List.length l) 0)
       && forallb (fun fire => negb (inherited (fe_riskLevel fire))) l
    then Some (inject_Z (Z.of_nat (risk_total l))
               / inject_Z (Z.of_nat (List.length l)))%Q
    else None.
Proof.
  assert (E : forallb (fun fire => match riskMap (fe_riskLevel fire) with
                                   | Some _ => true
                                   | None => false
                                   end) l
              = forallb (fun fire => negb (inherited (fe_riskLevel fire))) l).
  { induction l as [ | x l IH ]; [ reflexivity | ].
    cbn [forallb]. rewrite IH. f_equal.
    destruct (riskMap (fe_riskLevel x)) eqn:Er.
    - destruct (inherited (fe_riskLevel x)) eqn:Ei; [ | reflexivity ].
      apply riskMap_none in Ei. congruence.
    - apply riskMap_none in Er. rewrite Er. reflexivity. }
  destruct l as [ | x l ]; [ reflexivity | ].
  set (l' := x :: l) in *.
  unfold risk_average. fold l'. unfold l' at 1.
  unfold total_with. rewrite total_with_fold, E.
  replace (Nat.eqb (List.length l') 0) with false by reflexivity.
  cbn [negb andb]. clear E.
  destruct (forallb _ l'); reflexivity.
Qed.

Lemma ratio_gtb (a b c d : nat) :
  (0 < b)%nat -> (0 < d)%nat ->
  Qgtb (inject_Z (Z.of_nat a) / inject_Z (Z.of_nat b))
       (inject_Z (Z.of_nat c) / inject_Z (Z.of_nat d)) = true
  <-> (c * b < a * d)%nat.
Proof.
  intros Hb Hd. rewrite Qgtb_true.
  destruct b as [ | b ]; [ lia | ]. destruct d as [ | d ]; [ lia | ].
  rewrite !Nat2Z.inj_succ, <- !Z.add_1_r.
  rewrite <- !Pos2Z.inj_succ || idtac.
  replace (Z.of_nat b + 1)%Z with (Z.pos (Pos.of_succ_nat b))
    by (rewrite Zpos_P_of_succ_nat; lia).
  replace (Z.of_nat d + 1)%Z with (Z.pos (Pos.of_succ_nat d))
    by (rewrite Zpos_P_of_succ_nat; lia).
  rewrite <- !Qmake_Qdiv. unfold Qlt. cbn [Qnum Qden].
  rewrite !Zpos_P_of_succ_nat. lia.
Qed.

(** X15: the risk trend compares the first half of the history with the
    rest: it is [increasing] (resp. [decreasing]) exactly when every
    risk level is a plain key and the cross-multiplied totals of the two
    halves are strictly ordered; a history of at most one entry is
    always [stable]. *)
Theorem risk_trend_comparison (fireHistory : list FireEntry) :
  let half := (List.length fireHistory / 2)%nat in
  let recent := firstn half fireHistory in
  let older := skipn half fireHistory in
  let trend := fst (fst (calculateRiskTrends fireHistory)) in
  (trend = "increasing" <->
   Forall plain fireHistory /\
   (risk_total older * List.length recent
    < risk_total recent * List.length older)%nat) /\
  (trend = "decreasing" <->
   Forall plain fireHistory /\
   (risk_total recent * List.length older
    < risk_total older * List.length recent)%nat) /\
  ((List.length fireHistory <= 1)%nat -> trend = "stable").
Proof.
  intros half recent older trend.
  assert (Et : trend
               = if num_gtb (risk_average recent) (risk_average older)
                 then "increasing"
                 else if num_gtb (risk_average older) (risk_average recent)
                      then "decreasing"
                      else "stable").
  { unfold trend, calculateRiskTrends, slice. cbn [fst].
    rewrite Nat.sub_0_r. reflexivity. }
  rewrite Et. clear Et trend.
  rewrite !risk_average_spec.
  assert (Hall : forallb (fun fire => negb (inherited (fe_riskLevel fire)))
                   recent
                 && forallb (fun fire => negb (inherited (fe_riskLevel fire)))
                      older = true
                 <-> Forall plain fireHistory).
  { unfold recent, older. rewrite <- forallb_app, firstn_skipn.
    rewrite forallb_forall, Forall_forall. unfold plain.
    split; intros H x Hx; specialize (H x Hx);
      destruct (inherited (fe_riskLevel x)); cbn in *; congruence. }
  destruct (forallb _ recent) eqn:Fr; destruct (forallb _ older) eqn:Fo;
    cbn [andb] in Hall.
  2-4: assert (Hno : ~ Forall plain fireHistory)
         by (intros H; apply Hall in H; discriminate);
       rewrite ?andb_false_r; cbn [num_gtb andb];
       repeat match goal with
              | |- context [if ?c then Some _ else None] => destruct c
              end; cbn [num_gtb];
       (split; [ | split ];
        [ split; [ discriminate | intros [H _]; contradiction ]
        | split; [ discriminate | intros [H _]; contradiction ]
        | reflexivity ]).
  assert (Hyes : Forall plain fireHistory) by (apply Hall; reflexivity).
  rewrite !andb_true_r.
  destruct (Nat.eqb_spec (List.length recent) 0) as [Zr | Nr];
    destruct (Nat.eqb_spec (List.length older) 0) as [Zo | No];
    cbn [negb num_gtb].
  1-2: apply length_nil_iff in Zr; rewrite Zr; cbn [risk_total map list_sum fold_right List.length];
       (split; [ | split ];
        [ split; [ discriminate | intros [_ H]; lia ]
        | split; [ discriminate | intros [_ H]; lia ]
        | reflexivity ]).
  - apply length_nil_iff in Zo. rewrite Zo.
    cbn [risk_total map list_sum fold_right List.length].
    split; [ | split ];
      [ split; [ discriminate | intros [_ H]; lia ]
      | split; [ discriminate | intros [_ H]; lia ]
      | reflexivity ].
  - assert (Lr : (0 < List.length recent)%nat) by lia.
    assert (Lo : (0 < List.length older)%nat) by lia.
    pose proof (ratio_gtb (risk_total recent) (List.length recent)
                  (risk_total older) (List.length older) Lr Lo) as Hinc.
    pose proof (ratio_gtb (risk_total older) (List.length older)
                  (risk_total recent) (List.length recent) Lo Lr) as Hdec.
    destruct (Qgtb _ _) eqn:E1 in |- *.
    + assert (I : (risk_total older * List.length recent
                   < risk_total recent * List.length older)%nat)
        by (apply Hinc; exact E1).
      split; [ | split ].
      * split; [ intros _; split; assumption | reflexivity ].
      * split; [ discriminate | intros [_ H]; lia ].
      * intros Hlen. exfalso. unfold recent, half in Nr.
        rewrite length_firstn, Nat.div_small in Nr by lia. lia.
    + assert (NI : ~ (risk_total older * List.length recent
                      < risk_total recent * List.length older)%nat)
        by (intros H; apply Hinc in H; congruence).
      destruct (Qgtb _ _) eqn:E2 in |- *.
      * assert (D : (risk_total recent * List.length older
                     < risk_total older * List.length recent)%nat)
          by (apply Hdec; exact E2).
        split; [ | split ].
        -- split; [ discriminate | intros [_ H]; contradiction ].
        -- split; [ intros _; split; assumption | reflexivity ].
        -- intros Hlen. exfalso. unfold recent, half in Nr.
           rewrite length_firstn, Nat.div_small in Nr by lia. lia.
      * assert (ND : ~ (risk_total recent * List.length older
                        < risk_total older * List.length recent)%nat)
          by (intros H; apply Hdec in H; congruence).
        split; [ | split ].
        -- split; [ discriminate | intros [_ H]; contradiction ].
        -- split; [ discriminate | intros [_ H]; contradiction ].
        -- reflexivity.
Qed.

Lemma count_season_total (seasons : Seasons) (month : option nat) :
  (spring (count_season seasons month) + summer (count_season seasons month)
   + fall (count_season seasons month) + winter (count_season seasons month)
   = S (spring seasons + summer seasons + fall seasons + winter seasons))%nat.
Proof.
  unfold count_season. destruct month as [ m | ]; [ | cbn; lia ].
  destruct (Nat.leb 2 m && Nat.leb m 4); [ cbn; lia | ].
  destruct (Nat.leb 5 m && Nat.leb m 7); [ cbn; lia | ].
  destruct (Nat.leb 8 m && Nat.leb m 10); cbn; lia.
Qed.

Lemma seasons_fold_total (getMonth : Z -> option nat)
    (l : list FireEntry) (seasons : Seasons) :
  let s := fold_left
             (fun seasons fire => count_season seasons (getMonth (fe_date fire)))
             l seasons in
  (spring s + summer s + fall s + winter s
   = spring seasons + summer seasons + fall seasons + winter seasons
     + List.length l)%nat.
Proof.
  revert seasons. induction l as [ | x l IH ]; intros seasons; cbn [fold_left List.length].
  - cbn. lia.
  - cbn zeta in IH |- *. rewrite IH, count_season_total. lia.
Qed.

(** X16: the seasonal pattern counts every entry of the history in
    exactly one season, whatever its date. *)
Theorem seasonal_pattern_total (getMonth : Z -> option nat)
    (fireHistory : list FireEntry) :
  let s := calculateSeasonalPattern getMonth fireHistory in
  (spring s + summer s + fall s + winter s = List.length fireHistory)%nat.
Proof.
  intros s. unfold s, calculateSeasonalPattern.
  pose proof (seasons_fold_total getMonth fireHistory (mkSeasons 0 0 0 0)) as H.
  cbn zeta in H. rewrite H. reflexivity.
Qed.

Lemma layer_get_set_same (k : string) (ly : Layer) (layers : Layers) :
  layer_get k (layer_set k ly layers) = Some ly.
Proof.
  induction layers as [ | [k' ly'] rest IH ]; cbn [layer_set layer_get].
  - rewrite String.eqb_refl. reflexivity.
  - destruct (String.eqb k' k) eqn:E; cbn [layer_get].
    + rewrite String.eqb_refl. reflexivity.
    + rewrite E. exact IH.
Qed.

Lemma layer_get_set_other (k c : string) (ly : Layer) (layers : Layers) :
  c <> k -> layer_get c (layer_set k ly layers) = layer_get c layers.
Proof.
  intros Hne.
  assert (Hkc : String.eqb k c = false).
  { apply String.eqb_neq. congruence. }
  induction layers as [ | [k' ly'] rest IH ]; cbn [layer_set layer_get].
  - rewrite Hkc. reflexivity.
  - destruct (String.eqb k' k) eqn:E; cbn [layer_get].
    + apply String.eqb_eq in E. subst k'. rewrite Hkc. reflexivity.
    + destruct (String.eqb k' c); [ reflexivity | exact IH ].
Qed.

Lemma layer_get_none (k : string) (layers : Layers) :
  layer_get k layers = None <-> ~ In k (map fst layers).
Proof.
  induction layers as [ | [k' ly'] rest IH ]; cbn [layer_get map fst In].
  - split; [ intros _ [] | reflexivity ].
  - destruct (String.eqb_spec k' k) as [E | N].
    + split; [ discriminate | intros H; exfalso; apply H; left; exact E ].
    + rewrite IH. split.
      * intros H [E | Hin]; [ exact (N E) | exact (H Hin) ].
      * intros H Hin. apply H. right. exact Hin.
Qed.

Lemma layer_set_keys (k : string) (ly : Layer) (layers : Layers) :
  map fst (layer_set k ly layers)
  = match layer_get k layers with
    | Some _ => map fst layers
    | None => (map fst layers ++ [k])%list
    end.
Proof.
  induction layers as [ | [k' ly'] rest IH ]; cbn [layer_set layer_get map fst app].
  - reflexivity.
  - destruct (String.eqb_spec k' k) as [E | N]; cbn [map fst].
    + rewrite E. reflexivity.
    + rewrite IH. destruct (layer_get k rest); reflexivity.
Qed.

Lemma layer_set_total (k : string) (ly : Layer) (layers : Layers) :
  (layers_total (layer_set k ly layers)
   + match layer_get k layers with
     | Some old => ly_count old
     | None => 0
     end
   = layers_total layers + ly_count ly)%nat.
Proof.
  unfold layers_total.
  induction layers as [ | [k' ly'] rest IH ];
    cbn [layer_set layer_get map snd list_sum fold_right].
  - lia.
  - destruct (String.eqb k' k); cbn [map snd list_sum fold_right].
    + lia.
    + fold (list_sum (map (fun kv => ly_count (snd kv)) (layer_set k ly rest))).
      fold (list_sum (map (fun kv : string * Layer => ly_count (snd kv)) rest)).
      fold (list_sum (map (fun kv : string * Layer => ly_count (snd kv)) rest)) in IH.
      lia.
Qed.

Lemma count_if_snoc {A : Type} (p : A -> bool) (l : list A) (x : A) :
  count_if p (l ++ [x]) = (count_if p l + if p x then 1 else 0)%nat.
Proof.
  unfold count_if. rewrite filter_app, length_app. cbn [filter].
  destruct (p x); reflexivity.
Qed.

Lemma layers_ok_empty : layers_ok [] [].
Proof.
  split; [ constructor | ]. split; [ intros c ly H; discriminate | ].
  split; reflexivity.
Qed.

Lemma add_detection_ok (result : MapResult) (layers : Layers)
    (all : list Detection) (d : Detection) :
  layers_ok layers all ->
  inherited (d_class d) = false ->
  exists layers',
    add_detection result (layers, all) d = Ret (layers', (all ++ [d])%list)
    /\ layers_ok layers' (all ++ [d]).
Proof.
  intros (Hnd & Hsome & Hnone & Htot) Hplain.
  unfold add_detection. rewrite Hplain.
  set (k := d_class d).
  set (layers1 := match layer_get k layers with
                  | Some _ => layers
                  | None => layer_set k empty_layer layers
                  end).
  set (ly := match layer_get k layers1 with
             | Some ly => ly
             | None => empty_layer
             end).
  eexists. split; [ reflexivity | ].
  assert (Hkd : class_is k d = true) by (apply String.eqb_refl).
  assert (Hly : layer_get k layers1 = Some ly
                /\ ly_count ly = List.length (ly_features ly)
                /\ ly_count ly = count_if (class_is k) all
                /\ Forall (fun f => ft_class f = k) (ly_features ly)
                /\ NoDup (map fst layers1)
                /\ layers_total layers1 = List.length all
                /\ (forall c, c <> k -> layer_get c layers1 = layer_get c layers)).
  { unfold ly, layers1. destruct (layer_get k layers) as [ old | ] eqn:E.
    - rewrite E. destruct (Hsome k old E) as (H1 & H2 & _ & H4).
      repeat (split; [ assumption || reflexivity | ]). intros; reflexivity.
    - rewrite layer_get_set_same.
      split; [ reflexivity | ]. split; [ reflexivity | ].
      split; [ rewrite (Hnone k E); reflexivity | ].
      split; [ constructor | ].
      split.
      { rewrite layer_set_keys, E. apply NoDup_app; [ exact Hnd | | ].
        - constructor; [ intros [] | constructor ].
        - intros x Hx [Ex | []]. subst x.
          apply layer_get_none in E. exact (E Hx). }
      split.
      { pose proof (layer_set_total k empty_layer layers) as T.
        rewrite E in T. cbn [ly_count empty_layer] in T. lia. }
      intros c Hc. apply layer_get_set_other. exact Hc. }
  destruct Hly as (Hget & Hc1 & Hc2 & Hfs & Hnd1 & Htot1 & Hother).
  split; [ | split; [ | split ] ].
  - rewrite layer_set_keys, Hget. exact Hnd1.
  - intros c ly' Hg. destruct (String.eqb_spec c k) as [E | N].
    + subst c. rewrite layer_get_set_same in Hg. injection Hg as <-.
      unfold layer_ok. cbn [ly_count ly_features].
      rewrite length_app, count_if_snoc, Hkd. cbn [List.length].
      split; [ lia | ]. split; [ lia | ]. split; [ lia | ].
      apply Forall_app. split; [ exact Hfs | ].
      constructor; [ reflexivity | constructor ].
    + rewrite layer_get_set_other in Hg by exact N.
      rewrite Hother in Hg by exact N.
      destruct (Hsome c ly' Hg) as (H1 & H2 & H3 & H4).
      unfold layer_ok. rewrite count_if_snoc.
      assert (Hcd : class_is c d = false).
      { unfold class_is. apply String.eqb_neq. fold k. congruence. }
      rewrite Hcd. repeat split; try assumption. lia.
  - intros c Hg. destruct (String.eqb_spec c k) as [E | N].
    + subst c. rewrite layer_get_set_same in Hg. discriminate.
    + rewrite layer_get_set_other in Hg by exact N.
      rewrite Hother in Hg by exact N.
      rewrite count_if_snoc, (Hnone c Hg).
      assert (Hcd : class_is c d = false).
      { unfold class_is. apply String.eqb_neq. fold k. congruence. }
      rewrite Hcd. reflexivity.
  - match goal with
    | |- layers_total (layer_set k ?v layers1) = _ =>
        pose proof (layer_set_total k v layers1) as T
    end.
    rewrite Hget in T. cbn [ly_count] in T.
    rewrite length_app. cbn [List.length]. lia.
Qed.

Lemma add_detections_ok (result : MapResult) (ds : list Detection)
    (layers : Layers) (all : list Detection) :
  layers_ok layers all ->
  (forall d, In d ds -> inherited (d_class d) = false) ->
  exists layers',
    foldM (add_detection result) ds (layers, all)
    = Ret (layers', (all ++ ds)%list)
    /\ layers_ok layers' (all ++ ds).
Proof.
  revert layers all. induction ds as [ | d ds IH ]; intros layers all Hok Hplain.
  - exists layers. rewrite app_nil_r. split; [ reflexivity | exact Hok ].
  - destruct (add_detection_ok result layers all d Hok
                (Hplain d (or_introl eq_refl))) as (l1 & E1 & Hok1).
    destruct (IH l1 (all ++ [d])%list Hok1
                (fun x Hx => Hplain x (or_intror Hx))) as (l2 & E2 & Hok2).
    exists l2. cbn [foldM]. rewrite E1. cbn [bind].
    rewrite <- app_assoc in E2, Hok2. cbn [app] in E2, Hok2.
    split; assumption.
Qed.

Lemma add_results_ok (results : list MapResult) (layers : Layers)
    (all : list Detection) :
  layers_ok layers all ->
  (forall d, In d (detections_of results) -> inherited (d_class d) = false) ->
  exists layers',
    foldM (fun state result =>
             foldM (add_detection result) (mr_detections result) state)
      results (layers, all)
    = Ret (layers', (all ++ detections_of results)%list)
    /\ layers_ok layers' (all ++ detections_of results).
Proof.
  revert layers all.
  induction results as [ | r results IH ]; intros layers all Hok Hplain.
  - exists layers. cbn [detections_of flat_map]. rewrite app_nil_r.
    split; [ reflexivity | exact Hok ].
  - cbn [detections_of flat_map] in *.
    fold (detections_of results) in *.
    destruct (add_detections_ok r (mr_detections r) layers all Hok) as (l1 & E1 & Hok1).
    { intros d Hd. apply Hplain. apply in_or_app. left. exact Hd. }
    destruct (IH l1 (all ++ mr_detections r)%list Hok1) as (l2 & E2 & Hok2).
    { intros d Hd. apply Hplain. apply in_or_app. right. exact Hd. }
    exists l2. cbn [foldM]. rewrite E1. cbn [bind].
    rewrite <- app_assoc in E2, Hok2. split; assumption.
Qed.

Lemma layer_get_statistics (c : string) (layers : Layers) :
  layer_get c (map (fun kv => (fst kv, layer_statistics (snd kv))) layers)
  = option_map layer_statistics (layer_get c layers).
Proof.
  induction layers as [ | [k ly] rest IH ]; cbn [map layer_get fst snd].
  - reflexivity.
  - destruct (String.eqb k c); [ reflexivity | exact IH ].
Qed.

Lemma count_if_pos_ex {A : Type} (p : A -> bool) (l : list A) :
  (0 < count_if p l)%nat <-> exists x, In x l /\ p x = true.
Proof.
  unfold count_if. split.
  - intros H. destruct (filter p l) as [ | x rest ] eqn:E; [ cbn in H; lia | ].
    assert (Hin : In x (filter p l)) by (rewrite E; left; reflexivity).
    apply filter_In in Hin. exists x. exact Hin.
  - intros [x Hx]. apply filter_In in Hx.
    destruct (filter p l); [ destruct Hx | cbn; lia ].
Qed.

(** X18: when no detection class names an inherited property,
    [getMapLayers] answers, and in its reply the layer types are pairwise
    distinct and are exactly the classes that occur among the detections
    of the results; each layer holds only features of its class, as many
    as its count says and as there are detections of that class; and
    the counts of the layers add up to the total number of detections. *)
Theorem map_layers_grouping (results : list MapResult) :
  (forall d, In d (detections_of results) -> inherited (d_class d) = false) ->
  exists reply,
    getMapLayers results = Ret reply /\
    NoDup (ml_layerTypes reply) /\
    (forall c, In c (ml_layerTypes reply) <->
               exists d, In d (detections_of results) /\ d_class d = c) /\
    (forall c ly, layer_get c (ml_layers reply) = Some ly ->
                  layer_ok (detections_of results) c ly) /\
    ml_totalResults reply = List.length results /\
    ml_totalDetections reply = List.length (detections_of results) /\
    layers_total (ml_layers reply) = ml_totalDetections reply.
Proof.
  intros Hplain.
  destruct (add_results_ok results [] [] layers_ok_empty Hplain)
    as (layers & E & Hnd & Hsome & Hnone & Htot).
  cbn [app] in E, Hsome, Hnone, Htot.
  unfold getMapLayers. unfold Layers in *. rewrite E. cbn [bind].
  eexists. split; [ reflexivity | ].
  cbn [ml_layerTypes ml_layers ml_totalResults ml_totalDetections].
  assert (Hkeys : map fst (map (fun kv : string * Layer =>
                                  (fst kv, layer_statistics (snd kv))) layers)
                  = map fst layers).
  { rewrite map_map. apply map_ext. intros kv. reflexivity. }
  rewrite Hkeys.
  split; [ exact Hnd | ].
  split.
  { intros c. split.
    - intros Hin.
      destruct (layer_get c layers) as [ ly | ] eqn:Eg.
      + destruct (Hsome c ly Eg) as (_ & H2 & H3 & _).
        rewrite H2 in H3. apply count_if_pos_ex in H3.
        destruct H3 as [d [Hd Hc]]. exists d. split; [ exact Hd | ].
        apply String.eqb_eq. exact Hc.
      + apply layer_get_none in Eg. contradiction.
    - intros [d [Hd Hc]].
      destruct (layer_get c layers) as [ ly | ] eqn:Eg.
      + destruct (in_dec string_dec c (map fst layers)) as [ Hin | Hout ];
          [ exact Hin | ].
        apply layer_get_none in Hout. congruence.
      + exfalso. pose proof (Hnone c Eg) as Z.
        assert (P : (0 < count_if (class_is c) (detections_of results))%nat).
        { apply count_if_pos_ex. exists d. split; [ exact Hd | ].
          apply String.eqb_eq. exact Hc. }
        lia. }
  split.
  { intros c ly Hg. rewrite layer_get_statistics in Hg.
    destruct (layer_get c layers) as [ ly0 | ] eqn:Eg; [ | discriminate ].
    injection Hg as <-. exact (Hsome c ly0 Eg). }
  split; [ reflexivity | ].
  split; [ reflexivity | ].
  rewrite <- Htot. unfold layers_total. rewrite map_map. reflexivity.
Qed.

Lemma convertBboxToPolygon_closed (bbox : option (list Q)) :
  closed_ring (convertBboxToPolygon bbox).
Proof.
  unfold convertBboxToPolygon.
  destruct bbox as [ [ | x [ | y [ | w [ | h [ | z rest ] ] ] ] ] | ];
    split; reflexivity.
Qed.

Lemma severity_counts_le (ds : list Detection) :
  (count_if (severity_is "low") ds + count_if (severity_is "medium") ds
   + count_if (severity_is "high") ds + count_if (severity_is "critical") ds
   <= List.length ds)%nat.
Proof.
  unfold count_if. induction ds as [ | d ds IH ]; cbn [filter List.length].
  - lia.
  - destruct (severity_is "low" d) eqn:E1;
      destruct (severity_is "medium" d) eqn:E2;
      destruct (severity_is "high" d) eqn:E3;
      destruct (severity_is "critical" d) eqn:E4;
      cbn [List.length]; try lia; exfalso;
      unfold severity_is in E1, E2, E3, E4;
      destruct (d_severity d); try discriminate;
      repeat match goal with
             | H : String.eqb _ _ = true |- _ => apply String.eqb_eq in H
             end; congruence.
Qed.

(** X19: a missing result is answered 404 whatever the format; for a
    stored result and the format [geojson] (given or by default) the
    layer has one feature per detection of the requested class, each
    with a closed five-point ring, and the four severity counts together
    never exceed the detection count. *)
Theorem detection_layer_statistics (detections : list Detection)
    (layerType : string) :
  (forall format, getDetectionLayer None layerType format = LayerNotFound404) /\
  exists reply,
    getDetectionLayer (Some detections) layerType None = LayerOk200 reply /\
    getDetectionLayer (Some detections) layerType (Some "geojson")
    = LayerOk200 reply /\
    lr_detectionCount reply = count_if (class_is layerType) detections /\
    List.length (lr_features reply) = lr_detectionCount reply /\
    Forall (fun f => closed_ring (lf_ring f)
                     /\ d_class (lf_detection f) = layerType)
      (lr_features reply) /\
    (lr_low reply + lr_medium reply + lr_high reply + lr_critical reply
     <= lr_detectionCount reply)%nat.
Proof.
  split; [ reflexivity | ].
  unfold getDetectionLayer. cbn [String.eqb Ascii.eqb Bool.eqb].
  eexists. split; [ reflexivity | ]. split; [ reflexivity | ].
  cbn [lr_detectionCount lr_features lr_low lr_medium lr_high lr_critical].
  split; [ reflexivity | ].
  split; [ apply length_map | ].
  split.
  { apply Forall_forall. intros f Hin. apply in_map_iff in Hin.
    destruct Hin as [d [<- Hd]]. cbn [lf_ring lf_detection].
    split; [ apply convertBboxToPolygon_closed | ].
    apply filter_In in Hd. destruct Hd as [_ Hc].
    apply String.eqb_eq. exact Hc. }
  apply severity_counts_le.
Qed.

Lemma of_uint_acc_shift (u : Decimal.uint) (acc : nat) :
  Nat.of_uint_acc u acc
  = acc * 10 ^ String.length (NilEmpty.string_of_uint u)
    + Nat.of_uint_acc u 0.
Proof.
  revert acc.
  induction u as [ | u IH | u IH | u IH | u IH | u IH | u IH | u IH | u IH
                   | u IH | u IH ]; intros acc;
    cbn [Nat.of_uint_acc NilEmpty.string_of_uint String.length];
    [ cbn; lia | .. ];
    rewrite !Nat.tail_mul_spec;
    rewrite IH; symmetry; rewrite IH; symmetry;
    rewrite Nat.pow_succ_r'; lia.
Qed.

Lemma of_uint_digits_app (u v : Decimal.uint) (acc : nat) :
  Nat.of_uint_acc (digits_app u v) acc
  = Nat.of_uint_acc v (Nat.of_uint_acc u acc).
Proof.
  revert acc.
  induction u as [ | u IH | u IH | u IH | u IH | u IH | u IH | u IH | u IH
                   | u IH | u IH ]; intros acc;
    cbn [Nat.of_uint_acc digits_app]; [ reflexivity | .. ]; apply IH.
Qed.

Lemma uint_of_string_digits (u : Decimal.uint) (s : string) :
  NilEmpty.uint_of_string (NilEmpty.string_of_uint u ++ s)
  = option_map (digits_app u) (NilEmpty.uint_of_string s).
Proof.
  induction u as [ | u IH | u IH | u IH | u IH | u IH | u IH | u IH | u IH
                   | u IH | u IH ];
    cbn [NilEmpty.string_of_uint String.append NilEmpty.uint_of_string
         digits_app];
    [ destruct (NilEmpty.uint_of_string s); reflexivity | .. ];
    rewrite IH; destruct (NilEmpty.uint_of_string s); reflexivity.
Qed.

Lemma show_nat_digits (n : nat) :
  show_nat n = NilEmpty.string_of_uint (Nat.to_uint n).
Proof.
  unfold show_nat, NilZero.string_of_uint.
  destruct (Nat.to_uint n) eqn:E; try reflexivity.
  exfalso. exact (to_uint_nonnil n E).
Qed.

Lemma decimal_value_append (a b : nat) :
  decimal_value (show_nat a ++ show_nat b)
  = Some (a * 10 ^ String.length (show_nat b) + b).
Proof.
  unfold decimal_value. rewrite !show_nat_digits.
  assert (Hne : NilEmpty.string_of_uint (Nat.to_uint a)
                ++ NilEmpty.string_of_uint (Nat.to_uint b) <> "").
  { pose proof (to_uint_nonnil a) as Ha.
    destruct (Nat.to_uint a); try contradiction; discriminate. }
  unfold NilZero.uint_of_string.
  destruct (NilEmpty.string_of_uint (Nat.to_uint a)
            ++ NilEmpty.string_of_uint (Nat.to_uint b)) eqn:E;
    [ contradiction | ].
  rewrite <- E. clear E Hne.
  rewrite uint_of_string_digits, NilEmpty.usu. cbn [option_map].
  f_equal. unfold Nat.of_uint. rewrite of_uint_digits_app.
  rewrite of_uint_acc_shift.
  fold (Nat.of_uint (Nat.to_uint a)). fold (Nat.of_uint (Nat.to_uint b)).
  rewrite !DecimalNat.Unsigned.of_to. reflexivity.
Qed.

Lemma total_gtb (total n : nat) :
  Qgtb (inject_Z (Z.of_nat total)) (inject_Z (Z.of_nat n)) = Nat.ltb n total.
Proof.
  destruct (Nat.ltb_spec n total) as [H | H].
  - apply Qgtb_true. rewrite <- Zlt_Qlt. lia.
  - destruct (Qgtb _ _) eqn:E; [ | reflexivity ].
    apply Qgtb_true in E. rewrite <- Zlt_Qlt in E. lia.
Qed.

(** X20: for a limit and an offset given in the query string as decimal
    numbers, [hasMore] compares the total with the number whose digits
    are those of the offset followed by those of the limit, not with
    their sum; a missing offset contributes a leading zero, a missing
    limit the digits [10], and only when both are missing is the sum
    [0 + 10] compared. *)
Theorem pagination_has_more (String_toNumber : string -> option Q)
    (limit offset total : nat) :
  reads_decimals String_toNumber ->
  hasMore String_toNumber (Some (show_nat limit)) (Some (show_nat offset)) total
  = Nat.ltb (offset * 10 ^ String.length (show_nat limit) + limit) total
  /\ hasMore String_toNumber None (Some (show_nat offset)) total
     = Nat.ltb (offset * 100 + 10) total
  /\ hasMore String_toNumber (Some (show_nat limit)) None total
     = Nat.ltb limit total
  /\ hasMore String_toNumber None None total = Nat.ltb 10 total.
Proof.
  intros Hdec. unfold hasMore, query_text.
  split; [ | split; [ | split ] ].
  - rewrite (Hdec _ _ (decimal_value_append offset limit)). apply total_gtb.
  - rewrite (Hdec _ _ (decimal_value_append offset 10)).
    rewrite total_gtb. reflexivity.
  - rewrite (Hdec _ _ (decimal_value_append 0 limit)).
    rewrite total_gtb. reflexivity.
  - reflexivity.
Qed.

Lemma update_risk_rank (current risk : string) :
  In current risk_labels ->
  In (update_risk current risk) risk_labels
  /\ label_rank (update_risk current risk)
     = Nat.max (label_rank current) (label_rank risk).
Proof using Type.
  forget_runtime.
  intros Hc. unfold update_risk, label_rank.
  destruct (String.eqb_spec risk "Critical") as [ -> | N1 ].
  { split; [ cbn; tauto | ].
    cbn [String.eqb Ascii.eqb Bool.eqb].
    repeat match goal with
           | |- context [String.eqb current ?s] => destruct (String.eqb current s)
           end; reflexivity. }
  destruct (String.eqb_spec risk "High") as [ -> | N2 ].
  { cbn in Hc. destruct Hc as [ <- | [ <- | [ <- | [ <- | [] ] ] ] ];
      (split; [ cbn; tauto | reflexivity ]). }
  destruct (String.eqb_spec risk "Medium") as [ -> | N3 ].
  { cbn in Hc. destruct Hc as [ <- | [ <- | [ <- | [ <- | [] ] ] ] ];
      (split; [ cbn; tauto | reflexivity ]). }
  cbn [andb]. split; [ exact Hc | ]. rewrite Nat.max_0_r. reflexivity.
Qed.

Lemma fold_update_risk (risks : list string) (current : string) :
  In current risk_labels ->
  In (fold_left update_risk risks current) risk_labels
  /\ label_rank (fold_left update_risk risks current)
     = Nat.max (label_rank current) (list_max (map label_rank risks)).
Proof using Type.
  forget_runtime.
  revert current. induction risks as [ | r risks IH ]; intros current Hc.
  - cbn [fold_left map list_max fold_right]. rewrite Nat.max_0_r.
    split; [ exact Hc | reflexivity ].
  - destruct (update_risk_rank current r Hc) as [H1 H2].
    destruct (IH _ H1) as [H3 H4].
    cbn [fold_left map]. split; [ exact H3 | ].
    rewrite H4, H2.
    change (list_max (label_rank r :: map label_rank risks))
      with (Nat.max (label_rank r) (list_max (map label_rank risks))).
    lia.
Qed.

(** X21: the environmental risk of a time bucket is always one of the
    four labels, and its rank is the highest rank among the risks of the
    results that fell into the bucket, whatever their order. *)
Theorem time_series_risk_is_maximum (risks : list string) :
  In (bucket_risk risks) risk_labels
  /\ label_rank (bucket_risk risks) = list_max (map label_rank risks).
Proof using Type.
  forget_runtime.
  destruct (fold_update_risk risks "Low") as [H1 H2]; [ cbn; tauto | ].
  split; [ exact H1 | ]. unfold bucket_risk. rewrite H2. reflexivity.
Qed.

End Runtime.

End Arithmetic.

(** ** Instances on concrete inputs *)

Lemma city_box_admitted :
  Rgtb (areaSize Rminus Rmult city_box) 100 = false.
Proof.
  apply Rgtb_false. unfold areaSize, city_box; simpl. lra.
Qed.

(** C7, counterexample: the box from latitude -0.045 to 0.045 and
    longitude 0 to 0.09 is accepted by the building-height path, which
    compares 0.09 * 0.09 * 111 * 111 = 99.8001 with its ceiling of 100,
    while the stated formula gives 0.09 * 111.32 * 0.09 * 111.32 =
    100.37..., above the ceiling. *)
Lemma C7_counterexample :
  (spec_area city_box > 100)%R
  /\ submit Rplus Rminus Rmult Rdiv cos PI
      sample_validate sample_ObjectId_isValid sample_parse_satellite
       sample_Number_toString BuildingHeight city_box None 5 "abc"
       (Closed failed_exit) []
     = ([mkSegmentationResult (Some ANONYMOUS_USER_ID) (Some "height_5_abc")
           "building_height_estimation_v1" "geographic_bounds" (Some 85%Q)
           (Some city_box) (Some (center_of Rplus Rdiv city_box)) []
           processing (JArr []) JUndefined
           (new_metadata "building_height" (areaSize Rminus Rmult city_box) 5) 5],
        Accepted202 "height_5_abc" "processing").
Proof.
  split.
  - unfold spec_area, city_box; simpl.
    replace ((- (45 / 1000) + 45 / 1000) / 2 * PI / 180)%R with 0%R by lra.
    rewrite cos_0. lra.
  - unfold submit, estimateBuildingHeights, height_bounds.
    cbn [hr_coordinates c_bounds]. rewrite city_box_admitted. reflexivity.
Qed.

Lemma small_box_ordered : well_ordered small_box.
Proof. unfold well_ordered, small_box; simpl. lra. Qed.

Lemma area_formula_by_kind_witness :
  well_ordered small_box
  /\ (is_AreaTooLarge
        (snd (submit Rplus Rminus Rmult Rdiv cos PI
      sample_validate sample_ObjectId_isValid
                sample_parse_satellite sample_Number_toString Segmentation
                small_box None 5 "abc" (Closed failed_exit) [])) = true
      <-> (calculateAreaSize Rplus Rminus Rmult Rdiv cos PI
             (minLat small_box) (minLng small_box)
             (maxLat small_box) (maxLng small_box) > 1000)%R).
Proof.
  split; [exact small_box_ordered |].
  exact (proj1 (proj2 (area_formula_by_kind Rplus Rminus Rmult Rdiv cos PI
                         sample_validate
                         sample_ObjectId_isValid sample_parse_satellite
                         sample_Number_toString small_box None 5 "abc"
                         (Closed failed_exit) [])
                  small_box_ordered)).
Defined.

Lemma inverted_bounds_admission_witness :
  let res :=
    submit Rplus Rminus Rmult Rdiv cos PI
      sample_validate sample_ObjectId_isValid sample_parse_satellite
      sample_Number_toString BuildingHeight
      inverted_box None 5 "abc" (Closed failed_exit) [] in
  is_InvalidBounds (snd res) = false
  /\ ((areaSize Rminus Rmult inverted_box <= 100)%R ->
      exists doc,
        res = (insert doc [],
               Accepted202 ("height_" ++ show_Z 5 ++ "_" ++ "abc")
                 "processing")
        /\ status doc = processing
        /\ coord_bounds doc = Some inverted_box).
Proof.
  apply (inverted_bounds_admission Rplus Rminus Rmult Rdiv cos PI
           sample_validate sample_ObjectId_isValid
           sample_parse_satellite
           sample_Number_toString BuildingHeight inverted_box None 5 "abc"
           (Closed failed_exit) []).
  left. unfold inverted_box; simpl. lra.
Defined.

Lemma small_box_area :
  (calculateAreaSize Rplus Rminus Rmult Rdiv cos PI (minLat small_box) (minLng small_box)
     (maxLat small_box) (maxLng small_box) <= 1000)%R.
Proof.
  unfold calculateAreaSize, small_box; simpl.
  pose proof (COS_bound ((0 + 1 / 100) / 2 * PI / 180)) as [_ Hc].
  nra.
Qed.

(** C3, counterexample: a segmentation request for a well-ordered box of
    about 1.2 square kilometres, far below the ceiling of 1000, whose
    satellite process exits with code 1: nothing is stored and the reply
    is an error. *)
Lemma C3_counterexample :
  let res :=
    submit Rplus Rminus Rmult Rdiv cos PI
      sample_validate sample_ObjectId_isValid sample_parse_satellite
      sample_Number_toString Segmentation
      small_box None 5 "abc" (Closed failed_exit) [] in
  well_ordered small_box
  /\ (calculateAreaSize Rplus Rminus Rmult Rdiv cos PI (minLat small_box) (minLng small_box)
        (maxLat small_box) (maxLng small_box) <= 1000)%R
  /\ fst res = []
  /\ is_accepted (snd res) = false.
Proof.
  pose proof small_box_ordered as Hord.
  pose proof small_box_area as Harea.
  assert (Ho : Rgeb (minLat small_box) (maxLat small_box)
               || Rgeb (minLng small_box) (maxLng small_box) = false)
    by (now apply ordered_check).
  assert (Ha : Rgtb (calculateAreaSize Rplus Rminus Rmult Rdiv cos PI (minLat small_box) (minLng small_box)
                       (maxLat small_box) (maxLng small_box)) 1000 = false)
    by (apply Rgtb_false; exact Harea).
  intro res. subst res. unfold submit, processGeographicArea.
  cbn [ar_bounds]. rewrite Ho, Ha.
  split; [exact Hord | split; [exact Harea | split; reflexivity]].
Qed.

Lemma area_ceiling_admission_witness :
  let res :=
    submit Rplus Rminus Rmult Rdiv cos PI
      sample_validate sample_ObjectId_isValid sample_parse_satellite
      sample_Number_toString BuildingHeight
      small_box None 5 "abc" (Closed failed_exit) [] in
  (is_AreaTooLarge (snd res) = true <-> (areaSize Rminus Rmult small_box > 100)%R)
  /\ (is_AreaTooLarge (snd res) = true -> fst res = [])
  /\ ((areaSize Rminus Rmult small_box <= 100)%R ->
      exists doc,
        res = (insert doc [],
               Accepted202 ("height_" ++ show_Z 5 ++ "_" ++ "abc")
                 "processing")
        /\ status doc = processing /\ coord_bounds doc = Some small_box).
Proof.
  apply (area_ceiling_admission Rplus Rminus Rmult Rdiv cos PI
           sample_validate sample_ObjectId_isValid
           sample_parse_satellite
           sample_Number_toString BuildingHeight small_box None 5 "abc"
           (Closed failed_exit) []).
  exact small_box_ordered.
Defined.

(** C1, counterexample: a building-height job whose process exits with
    code 0 and writes the JSON text [null].  The output is not empty
    and parses, yet the record does not become completed: reading
    [results.buildings] throws, and the record is marked failed, with no
    result. *)
Lemma C1_counterexample :
  sample_JSON_parse (pythonOutput null_exit) = Ret JNull
  /\ code null_exit = Some 0%Z
  /\ pythonOutput null_exit <> ""
  /\ exists r,
       findOne "height_1_a"
         (estimateBuildingHeights_close sample_JSON_parse
            (sample_op Qmult) (sample_op Qminus) (sample_op Qdiv)
            sample_Math_pow sample_validate "height_1_a" 2 null_exit
            [sample_doc])
       = Some r
       /\ status r = failed
       /\ md_error (metadata r)
          = Some "JSON parsing error: Cannot read properties of null (reading 'buildings')"
       /\ result_populated r = false.
Proof.
  split; [reflexivity |]. split; [reflexivity |].
  split; [discriminate |]. eexists. repeat split.
Qed.

Lemma parse_failure_settlement_witness :
  findOne "height_1_a"
    (estimateBuildingHeights_close sample_JSON_parse
       (sample_op Qmult) (sample_op Qminus) (sample_op Qdiv)
       sample_Math_pow sample_validate "height_1_a" 2 garbled_exit
       [sample_doc])
  = Some (fail_with
            "JSON parsing error: Unexpected token in JSON at position 0"
            sample_doc).
Proof.
  refine (proj1 (proj1 (parse_failure_settlement sample_JSON_parse
                          (sample_op Qmult) (sample_op Qminus)
                          (sample_op Qdiv) sample_Math_pow sample_validate
                          "height_1_a" 2 garbled_exit sample_doc
                          [sample_doc] eq_refl eq_refl eq_refl)
                   eq_refl _)
            "Unexpected token in JSON at position 0" eq_refl).
  discriminate.
Defined.

Lemma empty_output_settlement_witness :
  exists r,
    findOne "height_1_a"
      (estimateBuildingHeights_close sample_JSON_parse
         (sample_op Qmult) (sample_op Qminus) (sample_op Qdiv)
         sample_Math_pow sample_validate "height_1_a" 2 silent_exit
         [sample_doc])
    = Some r
    /\ status r = failed
    /\ md_error (metadata r) = Some "Process failed with code 0"
    /\ result_populated r = false.
Proof.
  apply (empty_output_settlement sample_JSON_parse
           (sample_op Qmult) (sample_op Qminus) (sample_op Qdiv)
           sample_Math_pow sample_validate
           "height_1_a" 2 silent_exit sample_doc [sample_doc]);
    reflexivity.
Defined.

Lemma sample_buildings_length : List.length sample_buildings = 120.
Proof. unfold sample_buildings. now rewrite length_map, length_seq. Qed.

Lemma batch_chunking_witness :
  exists chunks results,
    batchHeightEstimation sample_batch 7 "abc" []
    = (chunks, BatchAccepted202 "batch_height_7_abc" 120 3 results)
    /\ List.length chunks = 3
    /\ forall r, nth_error chunks 2 = Some r ->
                 coord_buildings r
                 = map (fun k => mkStoredBuilding (INR k / 2) (INR k)
                                   (Some (show_nat k)))
                     (seq 100 20).
Proof.
  destruct (batch_chunking sample_batch sample_buildings 7 "abc" []
              eq_refl) as [_ [_ H]].
  destruct H as [chunks [results [H1 [_ [H3 [_ [_ H6]]]]]]].
  { rewrite sample_buildings_length. lia. }
  rewrite sample_buildings_length in *.
  exists chunks, results. repeat split.
  - rewrite H1. simpl app. rewrite H3. reflexivity.
  - exact H3.
  - intros r Hr. destruct (H6 2 r Hr) as [-> _]. reflexivity.
Defined.

Lemma chunk_status_mismatch_witness :
  let res := batchHeightEstimation sample_batch 7 "abc" [] in
  created_by [] (fst res) <> []
  /\ (forall r, In r (created_by [] (fst res)) -> status r = processing)
  /\ (exists batchId n c results,
         snd res = BatchAccepted202 batchId n c results
         /\ List.length results = List.length (created_by [] (fst res))
         /\ forall x, In x results -> snd x = "queued").
Proof.
  apply (chunk_status_mismatch sample_batch sample_buildings 7 "abc" []
           eq_refl).
  rewrite sample_buildings_length. lia.
Defined.











Lemma sample_admission :
  estimateBuildingHeights Rplus Rminus Rmult Rdiv
    (mkHeightRequest (Some (mkCoordinates (Some small_box) None None None))
       None) 1 "a" []
  = ([sample_doc], Accepted202 "height_1_a" "processing").
Proof.
  unfold estimateBuildingHeights, height_bounds.
  cbn [hr_coordinates c_bounds].
  assert (Harea : areaSize Rminus Rmult small_box = (12321 / 10000)%R)
    by (unfold areaSize, small_box; simpl; lra).
  assert (Hcenter : center_of Rplus Rdiv small_box
                    = ((1 / 200)%R, (1 / 200)%R))
    by (unfold center_of, small_box; simpl; f_equal; lra).
  assert (Ha : Rgtb (12321 / 10000) 100 = false)
    by (apply Rgtb_false; lra).
  rewrite Harea, Hcenter, Ha. reflexivity.
Qed.

Lemma sample_trace_respects_index :
  index_respected Rplus Rminus Rmult Rdiv cos PI sample_JSON_parse
    (sample_op Qmult) (sample_op Qminus) (sample_op Qdiv) sample_Math_pow
    sample_validate sample_ObjectId_isValid
    sample_parse_satellite sample_Number_toString sample_trace initial.
Proof.
  unfold sample_trace. cbn [index_respected step].
  change (sys_store initial) with (@nil SegmentationResult).
  rewrite sample_admission.
  unfold spawn. cbn [fst snd sys_store initial].
  change (created_by [] [sample_doc]) with [sample_doc].
  cbn [sys_alerts sys_procs app take_proc p_id].
  change (String.eqb "height_1_a" "height_1_a") with true.
  cbn [p_doc sys_store sys_alerts].
  unfold unique_ids.
  repeat split; repeat constructor; simpl; tauto.
Qed.

Lemma job_record_lifecycle_witness :
  index_respected Rplus Rminus Rmult Rdiv cos PI sample_JSON_parse
    (sample_op Qmult) (sample_op Qminus) (sample_op Qdiv) sample_Math_pow
    sample_validate sample_ObjectId_isValid
    sample_parse_satellite sample_Number_toString sample_trace initial
  /\ (forall r,
        In r (sys_store
                (run Rplus Rminus Rmult Rdiv cos PI sample_JSON_parse
                   (sample_op Qmult) (sample_op Qminus) (sample_op Qdiv)
                   sample_Math_pow sample_validate sample_ObjectId_isValid
                   sample_parse_satellite sample_Number_toString
                   sample_trace initial)) ->
        (result_populated r = true -> status r = completed)
        /\ (error_populated r = true -> status r = failed)
        /\ ~ (result_populated r = true /\ error_populated r = true)).
Proof.
  split.
  - exact sample_trace_respects_index.
  - exact (proj1 (job_record_lifecycle Rplus Rminus Rmult Rdiv cos PI sample_JSON_parse
                    (sample_op Qmult) (sample_op Qminus) (sample_op Qdiv)
                    sample_Math_pow sample_validate sample_ObjectId_isValid
                    sample_parse_satellite
                    sample_Number_toString sample_trace
                    sample_trace_respects_index)).
Defined.

(** A job end to end: a height request is admitted, its process exits
    with code 1 and the text [boom] on standard error, and the stored
    record is the admitted one marked failed with that text. *)
Example height_job_fails :
  findOne "height_1_a"
    (sys_store
       (run Rplus Rminus Rmult Rdiv cos PI sample_JSON_parse
          (sample_op Qmult) (sample_op Qminus) (sample_op Qdiv)
          sample_Math_pow sample_validate sample_ObjectId_isValid
          sample_parse_satellite sample_Number_toString
          sample_trace initial))
  = Some (fail_with "boom" sample_doc).
Proof.
  unfold sample_trace. cbn [run step].
  change (sys_store initial) with (@nil SegmentationResult).
  rewrite sample_admission.
  unfold spawn. cbn [fst snd sys_store initial].
  change (created_by [] [sample_doc]) with [sample_doc].
  cbn [sys_alerts sys_procs app take_proc p_id].
  change (String.eqb "height_1_a" "height_1_a") with true.
  cbn [p_doc sys_store sys_alerts].
  reflexivity.
Qed.

(** ** Instances of the further properties *)

Lemma height_point_admission_witness :
  let d := (effective_radius None / 111000)%R in
  let box :=
    mkBounds (1 - d)%R (1 - d)%R (1 + d)%R (1 + d)%R in
  let res :=
    estimateBuildingHeights Rplus Rminus Rmult Rdiv
      (point_request (Some 1%R) (Some 1%R) None None) 5 "abc" [] in
  res = estimateBuildingHeights Rplus Rminus Rmult Rdiv
          (mkHeightRequest (Some (mkCoordinates (Some box) None None None))
             None) 5 "abc" []
  /\ (is_AreaTooLarge (snd res) = true
      <-> (areaSize Rminus Rmult box > 100)%R)
  /\ (is_AreaTooLarge (snd res) = true -> fst res = [])
  /\ ((areaSize Rminus Rmult box <= 100)%R ->
      exists doc,
        res = (insert doc [],
               Accepted202 ("height_" ++ show_Z 5 ++ "_" ++ "abc")
                 "processing")
        /\ status doc = processing /\ coord_bounds doc = Some box).
Proof.
  apply (height_point_admission Rplus Rminus Rmult Rdiv 1 1 None None 5
           "abc" []); lra.
Defined.

Lemma equator_not_given : num_given (Some 0%R) = false.
Proof.
  unfold num_given, Rnonzero.
  destruct (Req_dec_T 0 0) as [ _ | H ]; [ reflexivity | ].
  exfalso. apply H. reflexivity.
Qed.

Lemma height_point_on_axis_refused_witness :
  num_given (Some 0%R) = false
  /\ estimateBuildingHeights Rplus Rminus Rmult Rdiv
       (point_request (Some 0%R) (Some 1%R) (Some 500%R) None) 5 "abc" []
     = ([], Bad400 "Invalid coordinates format. Provide either 'bounds' object or 'lat'/'lng' with optional 'radius'").
Proof.
  split; [ exact equator_not_given | ].
  apply (height_point_on_axis_refused Rplus Rminus Rmult Rdiv (Some 0%R) (Some 1%R) (Some 500%R)
           None 5 "abc" []).
  left. exact equator_not_given.
Defined.

Lemma height_always_settles_witness :
  exists r,
    findOne "height_1_a"
      (estimateBuildingHeights_close sample_JSON_parse
         (sample_op Qmult) (sample_op Qminus) (sample_op Qdiv)
         sample_Math_pow sample_validate "height_1_a" 2 building_exit
         [sample_doc])
    = Some r
    /\ terminal (status r) = true.
Proof.
  destruct (height_always_settles sample_JSON_parse
              (sample_op Qmult) (sample_op Qminus) (sample_op Qdiv)
              sample_Math_pow sample_validate
              "height_1_a" 2 building_exit sample_doc [sample_doc]
              eq_refl eq_refl eq_refl) as (r & H1 & H2 & _).
  exists r. now split.
Defined.

(** The record a process that found one building leaves behind. *)
Lemma building_record :
  exists r,
    findOne "height_1_a"
      (estimateBuildingHeights_close sample_JSON_parse
         (sample_op Qmult) (sample_op Qminus) (sample_op Qdiv)
         sample_Math_pow sample_validate "height_1_a" 2 building_exit
         [sample_doc])
    = Some r
    /\ status r = completed
    /\ exists d q, detections r = JArr [d]
                   /\ opt_get d "confidence" = JNum q /\ (q == 50)%Q.
Proof.
  eexists. split; [reflexivity |]. split; [reflexivity |].
  do 2 eexists. split; [reflexivity |]. split; reflexivity.
Qed.

Lemma height_completed_detections_witness :
  exists r results (buildings dets : list JsVal),
    findOne "height_1_a"
      (estimateBuildingHeights_close sample_JSON_parse
         (sample_op Qmult) (sample_op Qminus) (sample_op Qdiv)
         sample_Math_pow sample_validate "height_1_a" 2 building_exit
         [sample_doc])
    = Some r
    /\ status r = completed
    /\ sample_JSON_parse (pythonOutput building_exit) = Ret results
    /\ detections r = JArr dets
    /\ List.length dets = List.length buildings
    /\ List.length buildings = 1.
Proof.
  destruct building_record as (r & Hr & Hst & _).
  destruct (height_completed_detections sample_JSON_parse
              (sample_op Qmult) (sample_op Qminus) (sample_op Qdiv)
              sample_Math_pow sample_validate
              "height_1_a" 2 building_exit sample_doc r [sample_doc]
              eq_refl eq_refl eq_refl Hr Hst)
    as (results & buildings & dets & H1 & H2 & H3 & H4 & _).
  exists r, results, buildings, dets.
  repeat split; trivial.
  cbn in H1. injection H1 as <-. cbn in H2. injection H2 as <-.
  reflexivity.
Defined.

Lemma height_round_trip_witness :
  ~ In "height_1_a" (ids [])
  /\ (exists md, getHeightResults "height_1_a" [sample_doc]
                 = Poll200 "height_1_a" processing (JObj []) (JArr [])
                     md 1)
  /\ (exists r,
         getHeightResults "height_1_a"
           (estimateBuildingHeights_close sample_JSON_parse
              (sample_op Qmult) (sample_op Qminus) (sample_op Qdiv)
              sample_Math_pow sample_validate
              "height_1_a" 9 failed_exit [sample_doc])
         = Poll200 "height_1_a" (status r) (read_summary r) (detections r)
             (metadata r) 1
         /\ terminal (status r) = true).
Proof.
  split; [ intros [] | ].
  apply (height_round_trip Rplus Rminus Rmult Rdiv sample_JSON_parse
           (sample_op Qmult) (sample_op Qminus) (sample_op Qdiv)
           sample_Math_pow sample_validate _ 1 9
           "a" [] _ "height_1_a" "processing" failed_exit sample_admission).
  intros [].
Defined.


Lemma trend_short_history_witness :
  let monthlyData :=
    [mkMonthData "2024-01" 1 1; mkMonthData "2024-02" 100 1] in
  calculateTrendAnalysis monthlyData
  = Trend "stable" (Some 0%Q) (average_with m_forestLoss monthlyData) None.
Proof.
  apply (trend_short_history
           [mkMonthData "2024-01" 1 1; mkMonthData "2024-02" 100 1]).
  simpl. lia.
Defined.

Lemma map_layers_grouping_witness :
  let results :=
    [mkMapResult "r1" (Some "north") 1
       [mkDetection "mining" 80 [0; 0; 1; 1]%Q None (Some 2%Q) (Some "high");
        mkDetection "forest_fire" 90 [0; 0; 1; 1]%Q None None None];
     mkMapResult "r2" None 2
       [mkDetection "mining" 60 [0; 0; 1; 1]%Q None None (Some "low")]] in
  exists reply,
    getMapLayers results = Ret reply /\
    NoDup (ml_layerTypes reply) /\
    (forall c, In c (ml_layerTypes reply) <->
               exists d, In d (detections_of results) /\ d_class d = c) /\
    (forall c ly, layer_get c (ml_layers reply) = Some ly ->
                  layer_ok (detections_of results) c ly) /\
    ml_totalResults reply = List.length results /\
    ml_totalDetections reply = List.length (detections_of results) /\
    layers_total (ml_layers reply) = ml_totalDetections reply.
Proof.
  apply (map_layers_grouping
           [mkMapResult "r1" (Some "north") 1
              [mkDetection "mining" 80 [0; 0; 1; 1]%Q None (Some 2%Q)
                 (Some "high");
               mkDetection "forest_fire" 90 [0; 0; 1; 1]%Q None None None];
            mkMapResult "r2" None 2
              [mkDetection "mining" 60 [0; 0; 1; 1]%Q None None
                 (Some "low")]]).
  intros d Hd. simpl in Hd.
  destruct Hd as [ <- | [ <- | [ <- | [] ] ] ]; reflexivity.
Defined.

Lemma sample_reads_decimals : reads_decimals sample_String_toNumber.
Proof.
  intros s n H. unfold sample_String_toNumber. rewrite H. reflexivity.
Qed.

Lemma pagination_has_more_witness :
  reads_decimals sample_String_toNumber
  /\ hasMore sample_String_toNumber (Some (show_nat 10)) (Some (show_nat 20))
       100
     = Nat.ltb (20 * 10 ^ String.length (show_nat 10) + 10) 100
  /\ hasMore sample_String_toNumber None (Some (show_nat 20)) 100
     = Nat.ltb (20 * 100 + 10) 100
  /\ hasMore sample_String_toNumber (Some (show_nat 10)) None 100
     = Nat.ltb 10 100
  /\ hasMore sample_String_toNumber None None 100 = Nat.ltb 10 100.
Proof.
  split; [ exact sample_reads_decimals | ].
  apply (pagination_has_more sample_String_toNumber 10 20 100).
  exact sample_reads_decimals.
Defined.

(** The page of ten results from offset 20 of a hundred: thirty is less
    than a hundred, yet [hasMore] is false, because the total is
    compared with 2010. *)
Example has_more_concatenates :
  hasMore sample_String_toNumber (Some "10") (Some "20") 100 = false.
Proof. reflexivity. Qed.
